(** * Widget inserter: placement engine, decision normaliser, state store
      and batch orchestrator.

    A shallow embedding of the TypeScript sources
    of the decision normaliser, the placement engine, the state store, the
    single-article driver and the batch driver, with the properties the
    design document states about them.

    JavaScript strings are embedded as [string], holding the UTF-8 bytes of
    the text.  Every pattern the sources search for is ASCII or Cyrillic, and
    in UTF-8 no byte of a multi-byte character is an ASCII byte, so substring
    search and the regular expressions below act on the bytes exactly as the
    scripts act on the code units. *)

From Stdlib Require Import String Ascii List Bool Arith ZArith NArith Lia DecimalString
  Permutation.
Import ListNotations.
Open Scope string_scope.
#[local] Set Warnings "-register-all".

(** ** JavaScript values and completions *)

Module Js.

(** The values [JSON.parse] produces, and [undefined] for a missing field.
    Numbers are restricted to integers. *)
Inductive value : Type :=
| Undefined
| Null
| Bool (b : bool)
| Num (z : Z)
| Str (s : string)
| Arr (items : list value)
| Obj (fields : list (string * value)).

(** A call either returns or throws an [Error] carrying a message. *)
Inductive completion (A : Type) : Type :=
| Return (a : A)
| Throw (msg : string).
Arguments Return {A} a.
Arguments Throw {A} msg.

Definition bind {A B} (c : completion A) (k : A -> completion B) : completion B :=
  match c with
  | Return a => k a
  | Throw m => Throw m
  end.

(** [x || y] *)
Definition truthy (v : value) : bool :=
  match v with
  | Undefined | Null => false
  | Bool b => b
  | Num z => negb (Z.eqb z 0)
  | Str s => negb (String.eqb s EmptyString)
  | Arr _ | Obj _ => true
  end.

Definition or_else (v d : value) : value := if truthy v then v else d.

(** Property read [o.k]; a missing key reads as [undefined]. *)
Fixpoint lookup (k : string) (fields : list (string * value)) : value :=
  match fields with
  | [] => Undefined
  | (k', v) :: rest => if String.eqb k k' then v else lookup k rest
  end.

Definition get (v : value) (k : string) : value :=
  match v with
  | Obj fields => lookup k fields
  | _ => Undefined
  end.

End Js.

(** ** Strings *)

Module Str.

Definition code (c : ascii) : N := N_of_ascii c.

Definition in_range (lo hi : N) (c : ascii) : bool :=
  (N.leb lo (code c) && N.leb (code c) hi)%bool.

(** ASCII case folding, the only folding the [i] flag performs on the
    patterns of this program (all their letters are Basic Latin). *)
Definition lower_ascii (c : ascii) : ascii :=
  if in_range 65 90 c then ascii_of_N (code c + 32) else c.

(** [String.prototype.toLowerCase] on UTF-8 text.  Basic Latin capitals and
    the Cyrillic capitals U+0400..U+042F (lead byte 0xD0) are lowered; these
    are the scripts of the synonym tokens, and no character outside them
    lowers to a letter of a token. Other characters are kept. *)
Fixpoint toLowerCase (s : string) : string :=
  match s with
  | EmptyString => EmptyString
  | String a rest =>
      match rest with
      | String b rest' =>
          if N.eqb (code a) 208 then
            if in_range 128 143 b then
              String (ascii_of_N 209) (String (ascii_of_N (code b + 16)) (toLowerCase rest'))
            else if in_range 144 159 b then
              String a (String (ascii_of_N (code b + 32)) (toLowerCase rest'))
            else if in_range 160 175 b then
              String (ascii_of_N 209) (String (ascii_of_N (code b - 32)) (toLowerCase rest'))
            else String a (toLowerCase rest)
          else String (lower_ascii a) (toLowerCase rest)
      | EmptyString => String (lower_ascii a) EmptyString
      end
  end.

(** [s.startsWith(p)] *)
Fixpoint starts_with (p s : string) : bool :=
  match p, s with
  | EmptyString, _ => true
  | String a p', String b s' => (Ascii.eqb a b && starts_with p' s')%bool
  | String _ _, EmptyString => false
  end.

(** The same under the [i] flag; [p] is given in lower case. *)
Fixpoint starts_with_ci (p s : string) : bool :=
  match p, s with
  | EmptyString, _ => true
  | String a p', String b s' => (Ascii.eqb a (lower_ascii b) && starts_with_ci p' s')%bool
  | String _ _, EmptyString => false
  end.

(** [s.includes(p)] *)
Fixpoint includes (p s : string) : bool :=
  starts_with p s ||
  match s with
  | EmptyString => false
  | String _ s' => includes p s'
  end.

(** Case-insensitive search for a lower-case literal. *)
Fixpoint includes_ci (p s : string) : bool :=
  starts_with_ci p s ||
  match s with
  | EmptyString => false
  | String _ s' => includes_ci p s'
  end.

(** Global replacement by the empty string, and global match counting, for a
    pattern whose match at the cursor, when there is one, has the length
    [match_len] reports.  The scanner walks the text once; [skip] counts the
    characters of the current match still to be passed over. *)
Section Scan.
Variable match_len : string -> option nat.

Fixpoint delete_from (skip : nat) (s : string) : string :=
  match s with
  | EmptyString => EmptyString
  | String c s' =>
      match skip with
      | S k => delete_from k s'
      | O =>
          match match_len s with
          | Some (S k) => delete_from k s'
          | _ => String c (delete_from 0 s')
          end
      end
  end.

Definition delete_all (s : string) : string := delete_from 0 s.

Fixpoint count_from (skip : nat) (s : string) : nat :=
  match s with
  | EmptyString => 0
  | String c s' =>
      match skip with
      | S k => count_from k s'
      | O =>
          match match_len s with
          | Some (S k) => S (count_from k s')
          | _ => count_from 0 s'
          end
      end
  end.

Definition count_all (s : string) : nat := count_from 0 s.
End Scan.

(** A literal pattern under the [i] flag. *)
Definition literal_ci (p : string) (s : string) : option nat :=
  if starts_with_ci p s then Some (String.length p) else None.

(** [\s]: the number of bytes of the white-space character at the head of
    the text, 0 when there is none.  Beside the ASCII controls and the space
    these are U+00A0, U+1680, U+2000..U+200A, U+2028, U+2029, U+202F, U+205F,
    U+3000 and U+FEFF. *)
Definition ascii_space (c : ascii) : bool :=
  (in_range 9 13 c || N.eqb (code c) 32)%bool.

Definition space2 (a b : ascii) : bool :=
  (N.eqb (code a) 194 && N.eqb (code b) 160)%bool.

Definition space3 (a b c : ascii) : bool :=
  (N.eqb (code a) 225 && N.eqb (code b) 154 && N.eqb (code c) 128)
  || (N.eqb (code a) 226 && N.eqb (code b) 128 &&
      (in_range 128 138 c || in_range 168 169 c || N.eqb (code c) 175))
  || (N.eqb (code a) 226 && N.eqb (code b) 129 && N.eqb (code c) 159)
  || (N.eqb (code a) 227 && N.eqb (code b) 128 && N.eqb (code c) 128)
  || (N.eqb (code a) 239 && N.eqb (code b) 187 && N.eqb (code c) 191).

(** [\s*]: the number of bytes of the longest white-space run at the head. *)
Fixpoint spaces (s : string) : nat :=
  match s with
  | EmptyString => 0
  | String a s1 =>
      if ascii_space a then S (spaces s1)
      else
        match s1 with
        | EmptyString => 0
        | String b s2 =>
            if space2 a b then 2 + spaces s2
            else
              match s2 with
              | EmptyString => 0
              | String c s3 => if space3 a b c then 3 + spaces s3 else 0
              end
        end
  end.

(** The characters a string iterates over: the code points of the text,
    one UTF-8 sequence each. *)
Fixpoint characters (s : string) : list string :=
  match s with
  | EmptyString => []
  | String a r =>
      if N.ltb (code a) 192 then String a EmptyString :: characters r
      else
        match r with
        | String b r1 =>
            if N.ltb (code a) 224 then String a (String b EmptyString) :: characters r1
            else
              match r1 with
              | String c r2 =>
                  if N.ltb (code a) 240
                  then String a (String b (String c EmptyString)) :: characters r2
                  else
                    match r2 with
                    | String e r3 =>
                        String a (String b (String c (String e EmptyString)))
                          :: characters r3
                    | EmptyString => [s]
                    end
              | EmptyString => [s]
              end
        | EmptyString => [s]
        end
  end.

Fixpoint drop (n : nat) (s : string) : string :=
  match n, s with
  | O, _ => s
  | S k, String _ s' => drop k s'
  | S _, EmptyString => EmptyString
  end.

End Str.

(** ** The document tree of cheerio *)

Module Dom.

Inductive node : Type :=
| Text (data : string)
| Comment (data : string)
| Element (name : string) (attribs : list (string * string)) (children : list node).

Definition document : Type := list node.


Definition is_named (tag : string) (n : node) : bool :=
  match n with
  | Element t _ _ => String.eqb t tag
  | _ => false
  end.

Definition children_of (n : node) : list node :=
  match n with
  | Element _ _ cs => cs
  | _ => []
  end.

(** [$(tag)]: the elements of that name below a node, in document order. *)
Fixpoint select (tag : string) (n : node) : list node :=
  match n with
  | Element t _ cs =>
      (if String.eqb t tag then [n] else []) ++ flat_map (select tag) cs
  | _ => []
  end.

Definition select_all (tag : string) (d : document) : list node :=
  flat_map (select tag) d.

(** [$(outer inner)]: the [inner] elements with an [outer] ancestor, in
    document order; [inside] tells that an [outer] ancestor was passed. *)
Fixpoint descendants (outer inner : string) (inside : bool) (n : node) : list node :=
  match n with
  | Element t _ cs =>
      (if (inside && String.eqb t inner)%bool then [n] else [])
      ++ flat_map (descendants outer inner (inside || String.eqb t outer)) cs
  | _ => []
  end.

Definition select_within (outer inner : string) (d : document) : list node :=
  flat_map (descendants outer inner false) d.

(** [$(sel).length] used as a condition. *)
Definition some {A} (l : list A) : bool :=
  match l with [] => false | _ :: _ => true end.

(** [$(outer inner).first().after(content)]: the content goes in right after
    the first selected element, among its siblings. [None] when nothing is
    selected. *)
Definition after_in_siblings (below : node -> option node) (target : node -> bool)
    (ins : list node) : list node -> option (list node) :=
  fix go (l : list node) : option (list node) :=
    match l with
    | [] => None
    | c :: rest =>
        if target c then Some (c :: ins ++ rest)
        else
          match below c with
          | Some c' => Some (c' :: rest)
          | None => option_map (cons c) (go rest)
          end
    end.

Fixpoint after_first (outer inner : string) (ins : list node) (inside : bool)
    (n : node) : option node :=
  match n with
  | Element t a cs =>
      let inside' := (inside || String.eqb t outer)%bool in
      option_map (Element t a)
        (after_in_siblings (after_first outer inner ins inside')
           (fun c => (inside' && is_named inner c)%bool) ins cs)
  | _ => None
  end.

Definition insert_after_first (outer inner : string) (ins : list node)
    (d : document) : document :=
  match after_in_siblings (after_first outer inner ins false) (fun _ => false) ins d with
  | Some d' => d'
  | None => d
  end.

(** [$(tag).prepend(content)] and [$(tag).append(content)]: every selected
    element receives the content. *)
Fixpoint prepend_to (tag : string) (ins : list node) (n : node) : node :=
  match n with
  | Element t a cs =>
      let cs' := map (prepend_to tag ins) cs in
      Element t a (if String.eqb t tag then ins ++ cs' else cs')
  | _ => n
  end.

Fixpoint append_to (tag : string) (ins : list node) (n : node) : node :=
  match n with
  | Element t a cs =>
      let cs' := map (append_to tag ins) cs in
      Element t a (if String.eqb t tag then cs' ++ ins else cs')
  | _ => n
  end.

(** The class selector: the [class] attribute, split at ASCII white space,
    has the token. *)
Fixpoint has_token_from (tok : string) (fresh : bool) (s : string) : bool :=
  match s with
  | EmptyString => false
  | String c s' =>
      if Str.ascii_space c then has_token_from tok true s'
      else
        (fresh && Str.starts_with tok s
         && match Str.drop (String.length tok) s with
            | EmptyString => true
            | String e _ => Str.ascii_space e
            end)
        || has_token_from tok false s'
  end.

Fixpoint attr (k : string) (attribs : list (string * string)) : option string :=
  match attribs with
  | [] => None
  | (k', v) :: rest => if String.eqb k k' then Some v else attr k rest
  end.

Definition has_class (cls : string) (n : node) : bool :=
  match n with
  | Element _ a _ =>
      match attr "class" a with
      | Some v => has_token_from cls true v
      | None => false
      end
  | _ => false
  end.

(** [$('.cls').remove()] *)
Fixpoint prune (cls : string) (n : node) : node :=
  match n with
  | Element t a cs =>
      Element t a (flat_map (fun c => if has_class cls c then [] else [prune cls c]) cs)
  | _ => n
  end.

Definition remove_class (cls : string) (d : document) : document :=
  flat_map (fun c => if has_class cls c then [] else [prune cls c]) d.

(** The parts of cheerio the engine calls with text on one side:
    [cheerio.load(html, { decodeEntities: false })], the parsing of the
    content handed to [after], [prepend] and [append], and the serialiser
    behind [.html()].  The library is not part of the repository; the engine
    is stated over any implementation of these three. *)
Record cheerio : Type := {
  load : string -> document;
  fragment : string -> list node;
  html_of : list node -> string
}.

End Dom.

(** ** html.ts: the placement engine and the idempotency guard *)

Module Placement.
Import Dom.

Definition nl : string := String (ascii_of_nat 10) EmptyString.
Definition quote : string := String (ascii_of_nat 34) EmptyString.

Inductive container_t : Type := article | body | root.
Inductive position_t : Type := top | bottom.
Inductive method_t : Type := prepend | append | afterFirstP.

Record placement_t : Type := {
  container : container_t;
  position : position_t;
  method : method_t
}.

Record InsertResult : Type := {
  html : string;
  placement : option placement_t
}.

(** [/\[contact-form-7[^\]]*\]/gi]: the literal, then everything up to the
    first closing bracket. *)
Fixpoint to_bracket (s : string) : option nat :=
  match s with
  | EmptyString => None
  | String c s' =>
      if Ascii.eqb c "]" then Some 1 else option_map S (to_bracket s')
  end.

Definition shortcode_len (s : string) : option nat :=
  if Str.starts_with_ci "[contact-form-7" s
  then option_map (Nat.add 15) (to_bracket (Str.drop 15 s))
  else None.

(** [/<!--\s*\/wp:post-content\s*-->/gi] *)
Definition marker_len (s : string) : option nat :=
  if Str.starts_with_ci "<!--" s then
    let s1 := Str.drop 4 s in
    let k1 := Str.spaces s1 in
    let s2 := Str.drop k1 s1 in
    if Str.starts_with_ci "/wp:post-content" s2 then
      let s3 := Str.drop 16 s2 in
      let k2 := Str.spaces s3 in
      if Str.starts_with_ci "-->" (Str.drop k2 s3)
      then Some (4 + k1 + 16 + k2 + 3)
      else None
    else None
  else None.

(** [export function countWidgets(html)] *)
Definition countWidgets (html : string) : nat :=
  Str.count_all (Str.literal_ci "shkolamasterov.online/pl/lite/widget") html.

(** [function cleanWpPostContentMarkers(html)] *)
Definition cleanWpPostContentMarkers (html : string) : string :=
  Str.delete_all marker_len html.

Definition marker_of (widgetId : string) : string :=
  "<!-- ai-cta:start id=" ++ widgetId ++ " -->".

(** The template literal of the block, before its markers are removed. *)
Definition raw_block (widgetId widgetHtml ctaText : string) : string :=
  marker_of widgetId ++ nl ++ "<p class=" ++ quote ++ "ai-cta-text" ++ quote ++ ">"
  ++ ctaText ++ "</p>" ++ nl ++ widgetHtml ++ nl ++ "<!-- ai-cta:end -->".

Definition block_of (widgetId widgetHtml ctaText : string) : string :=
  Str.delete_all marker_len (raw_block widgetId widgetHtml ctaText).

Section Engine.
Variable lib : cheerio.

(** [function removeContactFormShortcodesAndForms(html)] *)
Definition removeContactFormShortcodesAndForms (html : string) : string :=
  let result := Str.delete_all shortcode_len html in
  let d := load lib result in
  html_of lib (remove_class "wpcf7" d).

(** The document the engine inspects: the input after both cleaners. *)
Definition inspected (html : string) : document :=
  load lib (cleanWpPostContentMarkers (removeContactFormShortcodesAndForms html)).

(** The branch taken, with the tree it leaves. *)
Definition place (d : document) (block : string) (pos : position_t)
    : document * container_t * method_t :=
  match pos with
  | top =>
      if (some (select_all "article" d) && some (select_within "article" "p" d))%bool then
        (insert_after_first "article" "p" (fragment lib (nl ++ block ++ nl)) d,
         article, afterFirstP)
      else if (some (select_all "body" d) && some (select_within "body" "p" d))%bool then
        (insert_after_first "body" "p" (fragment lib (nl ++ block ++ nl)) d,
         body, afterFirstP)
      else if some (select_all "article" d) then
        (map (prepend_to "article" (fragment lib (block ++ nl))) d, article, prepend)
      else if some (select_all "body" d) then
        (map (prepend_to "body" (fragment lib (block ++ nl))) d, body, prepend)
      else
        ((fragment lib (block ++ nl) ++ d)%list, root, prepend)
  | bottom =>
      if some (select_all "article" d) then
        (map (append_to "article" (fragment lib (nl ++ block))) d, article, append)
      else if some (select_all "body" d) then
        (map (append_to "body" (fragment lib (nl ++ block))) d, body, append)
      else
        ((d ++ fragment lib (nl ++ block))%list, root, append)
  end.

(** What is handed back: the inside of the first [article], else of the
    first [body], else the whole tree. *)
Definition serialize (d : document) : string :=
  match select_all "article" d with
  | a :: _ => html_of lib (children_of a)
  | [] =>
      match select_all "body" d with
      | b :: _ => html_of lib (children_of b)
      | [] => html_of lib d
      end
  end.

(** [export function insertWidgetHtml(html, widgetId, widgetHtml, ctaText,
    position = 'top')] *)
Definition insertWidgetHtml (html widgetId widgetHtml ctaText : string)
    (pos : position_t) : InsertResult :=
  let d := inspected html in
  let block := block_of widgetId widgetHtml ctaText in
  let '(d', c, m) := place d block pos in
  {| html := cleanWpPostContentMarkers (serialize d');
     placement := Some {| container := c; position := pos; method := m |} |}.

End Engine.

End Placement.

(** ** A reference loader and serialiser

    [Reference.lib] runs the engine on concrete documents.  It follows
    cheerio over parse5, which is what [cheerio.load] and [.html()] use when
    no XML option is given ([decodeEntities] plays no part there).

    Reading: line ends are normalised to line feeds; character references
    are decoded (numeric ones and every named one of the HTML standard);
    comments, bogus comments, start tags with quoted or bare attributes and
    end tags are read as the HTML tokenizer reads them; the content of
    [script], [style], [title], [textarea] and the other text-only elements
    is text.

    Building: [load] reads a whole document.  It always supplies [html],
    [head] and [body]; comments and white space before the first content
    stay outside [body], and [title], [meta], [link], [style] and [script]
    at the head of the markup go to [head].  [fragment] reads the content
    handed to [after], [prepend] and [append]: nothing is supplied and
    [html], [head] and [body] tags are dropped.  Inside the body a start tag
    closes the open [p], list item, table cell or heading it cannot stand
    in, and an end tag without its start tag is dropped.

    Writing: text is written with [&], [<], [>] and the no-break space as
    references, except inside [script] and [style]; attribute values between
    double quotes with [&], the double quote and the no-break space as
    references; void elements without end tag.

    Outside its reach: a doctype is read and dropped (documents are read in
    quirks mode); formatting elements closed out of order, text and elements
    misplaced inside a [table], [template], [select], [frameset] and foreign
    (SVG, MathML) content are taken as they are written. *)

Module Reference.
Import Dom.

Definition LF : ascii := ascii_of_nat 10.
Definition CR : ascii := ascii_of_nat 13.

(** *** The input stream *)

Fixpoint newlines (s : string) : string :=
  match s with
  | EmptyString => EmptyString
  | String c r =>
      if Ascii.eqb c CR then
        match r with
        | String d r' =>
            if Ascii.eqb d LF then String LF (newlines r') else String LF (newlines r)
        | EmptyString => String LF EmptyString
        end
      else String c (newlines r)
  end.

Definition html_space (c : ascii) : bool :=
  (N.eqb (Str.code c) 9 || N.eqb (Str.code c) 10 || N.eqb (Str.code c) 12
   || N.eqb (Str.code c) 13 || N.eqb (Str.code c) 32)%bool.

Definition is_letter (c : ascii) : bool :=
  (Str.in_range 65 90 c || Str.in_range 97 122 c)%bool.

Definition is_alnum (c : ascii) : bool :=
  (is_letter c || Str.in_range 48 57 c)%bool.

Fixpoint lower (s : string) : string :=
  match s with
  | EmptyString => EmptyString
  | String c s' => String (Str.lower_ascii c) (lower s')
  end.

Definition member (x : string) (l : list string) : bool := existsb (String.eqb x) l.

(** The text before the first occurrence of [pat] and the text after it. *)
Fixpoint split_at (pat s : string) : string * option string :=
  if Str.starts_with pat s then (EmptyString, Some (Str.drop (String.length pat) s))
  else
    match s with
    | EmptyString => (EmptyString, None)
    | String c s' => let (b, a) := split_at pat s' in (String c b, a)
    end.

Fixpoint take_while (keep : ascii -> bool) (s : string) : string * string :=
  match s with
  | EmptyString => (EmptyString, EmptyString)
  | String c s' =>
      if keep c then let (t, r) := take_while keep s' in (String c t, r)
      else (EmptyString, s)
  end.

Definition drop_spaces (s : string) : string := snd (take_while html_space s).

(** *** Character references *)

Definition utf8 (n : N) : string :=
  let b (k : N) := String (ascii_of_N k) EmptyString in
  if N.ltb n 128 then b n
  else if N.ltb n 2048 then b (192 + n / 64)%N ++ b (128 + n mod 64)%N
  else if N.ltb n 65536 then
    b (224 + n / 4096)%N ++ b (128 + (n / 64) mod 64)%N ++ b (128 + n mod 64)%N
  else
    b (240 + n / 262144)%N ++ b (128 + (n / 4096) mod 64)%N
    ++ b (128 + (n / 64) mod 64)%N ++ b (128 + n mod 64)%N.

(** The numbers 128 to 159 stand for the characters of windows-1252. *)
Definition c1_table : list (N * N) :=
  [(128, 8364); (130, 8218); (131, 402); (132, 8222); (133, 8230); (134, 8224);
   (135, 8225); (136, 710); (137, 8240); (138, 352); (139, 8249); (140, 338);
   (142, 381); (145, 8216); (146, 8217); (147, 8220); (148, 8221); (149, 8226);
   (150, 8211); (151, 8212); (152, 732); (153, 8482); (154, 353); (155, 8250);
   (156, 339); (158, 382); (159, 376)]%N.

Definition code_point (n : N) : N :=
  if (N.eqb n 0 || N.ltb 1114111 n || (N.leb 55296 n && N.leb n 57343))%bool then 65533%N
  else
    match find (fun p => N.eqb (fst p) n) c1_table with
    | Some p => snd p
    | None => n
    end.

Definition digit (base : N) (c : ascii) : option N :=
  if Str.in_range 48 57 c then Some (Str.code c - 48)%N
  else if N.eqb base 16 then
    if Str.in_range 97 102 c then Some (Str.code c - 87)%N
    else if Str.in_range 65 70 c then Some (Str.code c - 55)%N
    else None
  else None.

Fixpoint number (base : N) (s : string) (acc : N) (len : nat) : N * nat :=
  match s with
  | String c r =>
      match digit base c with
      | Some d => number base r (N.min 1114112 (acc * base + d)%N) (S len)
      | None => (acc, len)
      end
  | EmptyString => (acc, len)
  end.

(** A reference read behind [&#]: its text and the characters it takes. *)
Definition numeric (r : string) : option (string * nat) :=
  let '(base, body, pre) :=
    match r with
    | String c r' =>
        if (Ascii.eqb c "x" || Ascii.eqb c "X")%bool then (16%N, r', 1) else (10%N, r, 0)
    | EmptyString => (10%N, r, 0)
    end in
  let (n, len) := number base body 0 0 in
  match len with
  | O => None
  | _ =>
      let semi := match Str.drop len body with String ";" _ => 1 | _ => 0 end in
      Some (utf8 (code_point n), 1 + pre + len + semi)
  end.

(** The named character references of the HTML standard, with the code
    points they stand for. *)
Definition named_references : list (string * list N) :=
  [("AElig", [198]); ("AElig;", [198]); ("AMP", [38]); ("AMP;", [38]); ("Aacute", [193]);
   ("Aacute;", [193]); ("Abreve;", [258]); ("Acirc", [194]); ("Acirc;", [194]);
   ("Acy;", [1040]); ("Afr;", [120068]); ("Agrave", [192]); ("Agrave;", [192]);
   ("Alpha;", [913]); ("Amacr;", [256]); ("And;", [10835]); ("Aogon;", [260]);
   ("Aopf;", [120120]); ("ApplyFunction;", [8289]); ("Aring", [197]); ("Aring;", [197]);
   ("Ascr;", [119964]); ("Assign;", [8788]); ("Atilde", [195]); ("Atilde;", [195]);
   ("Auml", [196]); ("Auml;", [196]); ("Backslash;", [8726]); ("Barv;", [10983]);
   ("Barwed;", [8966]); ("Bcy;", [1041]); ("Because;", [8757]); ("Bernoullis;", [8492]);
   ("Beta;", [914]); ("Bfr;", [120069]); ("Bopf;", [120121]); ("Breve;", [728]);
   ("Bscr;", [8492]); ("Bumpeq;", [8782]); ("CHcy;", [1063]); ("COPY", [169]); ("COPY;", [169]);
   ("Cacute;", [262]); ("Cap;", [8914]); ("CapitalDifferentialD;", [8517]);
   ("Cayleys;", [8493]); ("Ccaron;", [268]); ("Ccedil", [199]); ("Ccedil;", [199]);
   ("Ccirc;", [264]); ("Cconint;", [8752]); ("Cdot;", [266]); ("Cedilla;", [184]);
   ("CenterDot;", [183]); ("Cfr;", [8493]); ("Chi;", [935]); ("CircleDot;", [8857]);
   ("CircleMinus;", [8854]); ("CirclePlus;", [8853]); ("CircleTimes;", [8855]);
   ("ClockwiseContourIntegral;", [8754]); ("CloseCurlyDoubleQuote;", [8221]);
   ("CloseCurlyQuote;", [8217]); ("Colon;", [8759]); ("Colone;", [10868]);
   ("Congruent;", [8801]); ("Conint;", [8751]); ("ContourIntegral;", [8750]); ("Copf;", [8450]);
   ("Coproduct;", [8720]); ("CounterClockwiseContourIntegral;", [8755]); ("Cross;", [10799]);
   ("Cscr;", [119966]); ("Cup;", [8915]); ("CupCap;", [8781]); ("DD;", [8517]);
   ("DDotrahd;", [10513]); ("DJcy;", [1026]); ("DScy;", [1029]); ("DZcy;", [1039]);
   ("Dagger;", [8225]); ("Darr;", [8609]); ("Dashv;", [10980]); ("Dcaron;", [270]);
   ("Dcy;", [1044]); ("Del;", [8711]); ("Delta;", [916]); ("Dfr;", [120071]);
   ("DiacriticalAcute;", [180]); ("DiacriticalDot;", [729]); ("DiacriticalDoubleAcute;", [733]);
   ("DiacriticalGrave;", [96]); ("DiacriticalTilde;", [732]); ("Diamond;", [8900]);
   ("DifferentialD;", [8518]); ("Dopf;", [120123]); ("Dot;", [168]); ("DotDot;", [8412]);
   ("DotEqual;", [8784]); ("DoubleContourIntegral;", [8751]); ("DoubleDot;", [168]);
   ("DoubleDownArrow;", [8659]); ("DoubleLeftArrow;", [8656]);
   ("DoubleLeftRightArrow;", [8660]); ("DoubleLeftTee;", [10980]);
   ("DoubleLongLeftArrow;", [10232]); ("DoubleLongLeftRightArrow;", [10234]);
   ("DoubleLongRightArrow;", [10233]); ("DoubleRightArrow;", [8658]);
   ("DoubleRightTee;", [8872]); ("DoubleUpArrow;", [8657]); ("DoubleUpDownArrow;", [8661]);
   ("DoubleVerticalBar;", [8741]); ("DownArrow;", [8595]); ("DownArrowBar;", [10515]);
   ("DownArrowUpArrow;", [8693]); ("DownBreve;", [785]); ("DownLeftRightVector;", [10576]);
   ("DownLeftTeeVector;", [10590]); ("DownLeftVector;", [8637]);
   ("DownLeftVectorBar;", [10582]); ("DownRightTeeVector;", [10591]);
   ("DownRightVector;", [8641]); ("DownRightVectorBar;", [10583]); ("DownTee;", [8868]);
   ("DownTeeArrow;", [8615]); ("Downarrow;", [8659]); ("Dscr;", [119967]); ("Dstrok;", [272]);
   ("ENG;", [330]); ("ETH", [208]); ("ETH;", [208]); ("Eacute", [201]); ("Eacute;", [201]);
   ("Ecaron;", [282]); ("Ecirc", [202]); ("Ecirc;", [202]); ("Ecy;", [1069]); ("Edot;", [278]);
   ("Efr;", [120072]); ("Egrave", [200]); ("Egrave;", [200]); ("Element;", [8712]);
   ("Emacr;", [274]); ("EmptySmallSquare;", [9723]); ("EmptyVerySmallSquare;", [9643]);
   ("Eogon;", [280]); ("Eopf;", [120124]); ("Epsilon;", [917]); ("Equal;", [10869]);
   ("EqualTilde;", [8770]); ("Equilibrium;", [8652]); ("Escr;", [8496]); ("Esim;", [10867]);
   ("Eta;", [919]); ("Euml", [203]); ("Euml;", [203]); ("Exists;", [8707]);
   ("ExponentialE;", [8519]); ("Fcy;", [1060]); ("Ffr;", [120073]);
   ("FilledSmallSquare;", [9724]); ("FilledVerySmallSquare;", [9642]); ("Fopf;", [120125]);
   ("ForAll;", [8704]); ("Fouriertrf;", [8497]); ("Fscr;", [8497]); ("GJcy;", [1027]);
   ("GT", [62]); ("GT;", [62]); ("Gamma;", [915]); ("Gammad;", [988]); ("Gbreve;", [286]);
   ("Gcedil;", [290]); ("Gcirc;", [284]); ("Gcy;", [1043]); ("Gdot;", [288]);
   ("Gfr;", [120074]); ("Gg;", [8921]); ("Gopf;", [120126]); ("GreaterEqual;", [8805]);
   ("GreaterEqualLess;", [8923]); ("GreaterFullEqual;", [8807]); ("GreaterGreater;", [10914]);
   ("GreaterLess;", [8823]); ("GreaterSlantEqual;", [10878]); ("GreaterTilde;", [8819]);
   ("Gscr;", [119970]); ("Gt;", [8811]); ("HARDcy;", [1066]); ("Hacek;", [711]); ("Hat;", [94]);
   ("Hcirc;", [292]); ("Hfr;", [8460]); ("HilbertSpace;", [8459]); ("Hopf;", [8461]);
   ("HorizontalLine;", [9472]); ("Hscr;", [8459]); ("Hstrok;", [294]);
   ("HumpDownHump;", [8782]); ("HumpEqual;", [8783]); ("IEcy;", [1045]); ("IJlig;", [306]);
   ("IOcy;", [1025]); ("Iacute", [205]); ("Iacute;", [205]); ("Icirc", [206]);
   ("Icirc;", [206]); ("Icy;", [1048]); ("Idot;", [304]); ("Ifr;", [8465]); ("Igrave", [204]);
   ("Igrave;", [204]); ("Im;", [8465]); ("Imacr;", [298]); ("ImaginaryI;", [8520]);
   ("Implies;", [8658]); ("Int;", [8748]); ("Integral;", [8747]); ("Intersection;", [8898]);
   ("InvisibleComma;", [8291]); ("InvisibleTimes;", [8290]); ("Iogon;", [302]);
   ("Iopf;", [120128]); ("Iota;", [921]); ("Iscr;", [8464]); ("Itilde;", [296]);
   ("Iukcy;", [1030]); ("Iuml", [207]); ("Iuml;", [207]); ("Jcirc;", [308]); ("Jcy;", [1049]);
   ("Jfr;", [120077]); ("Jopf;", [120129]); ("Jscr;", [119973]); ("Jsercy;", [1032]);
   ("Jukcy;", [1028]); ("KHcy;", [1061]); ("KJcy;", [1036]); ("Kappa;", [922]);
   ("Kcedil;", [310]); ("Kcy;", [1050]); ("Kfr;", [120078]); ("Kopf;", [120130]);
   ("Kscr;", [119974]); ("LJcy;", [1033]); ("LT", [60]); ("LT;", [60]); ("Lacute;", [313]);
   ("Lambda;", [923]); ("Lang;", [10218]); ("Laplacetrf;", [8466]); ("Larr;", [8606]);
   ("Lcaron;", [317]); ("Lcedil;", [315]); ("Lcy;", [1051]); ("LeftAngleBracket;", [10216]);
   ("LeftArrow;", [8592]); ("LeftArrowBar;", [8676]); ("LeftArrowRightArrow;", [8646]);
   ("LeftCeiling;", [8968]); ("LeftDoubleBracket;", [10214]); ("LeftDownTeeVector;", [10593]);
   ("LeftDownVector;", [8643]); ("LeftDownVectorBar;", [10585]); ("LeftFloor;", [8970]);
   ("LeftRightArrow;", [8596]); ("LeftRightVector;", [10574]); ("LeftTee;", [8867]);
   ("LeftTeeArrow;", [8612]); ("LeftTeeVector;", [10586]); ("LeftTriangle;", [8882]);
   ("LeftTriangleBar;", [10703]); ("LeftTriangleEqual;", [8884]);
   ("LeftUpDownVector;", [10577]); ("LeftUpTeeVector;", [10592]); ("LeftUpVector;", [8639]);
   ("LeftUpVectorBar;", [10584]); ("LeftVector;", [8636]); ("LeftVectorBar;", [10578]);
   ("Leftarrow;", [8656]); ("Leftrightarrow;", [8660]); ("LessEqualGreater;", [8922]);
   ("LessFullEqual;", [8806]); ("LessGreater;", [8822]); ("LessLess;", [10913]);
   ("LessSlantEqual;", [10877]); ("LessTilde;", [8818]); ("Lfr;", [120079]); ("Ll;", [8920]);
   ("Lleftarrow;", [8666]); ("Lmidot;", [319]); ("LongLeftArrow;", [10229]);
   ("LongLeftRightArrow;", [10231]); ("LongRightArrow;", [10230]); ("Longleftarrow;", [10232]);
   ("Longleftrightarrow;", [10234]); ("Longrightarrow;", [10233]); ("Lopf;", [120131]);
   ("LowerLeftArrow;", [8601]); ("LowerRightArrow;", [8600]); ("Lscr;", [8466]);
   ("Lsh;", [8624]); ("Lstrok;", [321]); ("Lt;", [8810]); ("Map;", [10501]); ("Mcy;", [1052]);
   ("MediumSpace;", [8287]); ("Mellintrf;", [8499]); ("Mfr;", [120080]); ("MinusPlus;", [8723]);
   ("Mopf;", [120132]); ("Mscr;", [8499]); ("Mu;", [924]); ("NJcy;", [1034]);
   ("Nacute;", [323]); ("Ncaron;", [327]); ("Ncedil;", [325]); ("Ncy;", [1053]);
   ("NegativeMediumSpace;", [8203]); ("NegativeThickSpace;", [8203]);
   ("NegativeThinSpace;", [8203]); ("NegativeVeryThinSpace;", [8203]);
   ("NestedGreaterGreater;", [8811]); ("NestedLessLess;", [8810]); ("NewLine;", [10]);
   ("Nfr;", [120081]); ("NoBreak;", [8288]); ("NonBreakingSpace;", [160]); ("Nopf;", [8469]);
   ("Not;", [10988]); ("NotCongruent;", [8802]); ("NotCupCap;", [8813]);
   ("NotDoubleVerticalBar;", [8742]); ("NotElement;", [8713]); ("NotEqual;", [8800]);
   ("NotEqualTilde;", [8770; 824]); ("NotExists;", [8708]); ("NotGreater;", [8815]);
   ("NotGreaterEqual;", [8817]); ("NotGreaterFullEqual;", [8807; 824]);
   ("NotGreaterGreater;", [8811; 824]); ("NotGreaterLess;", [8825]);
   ("NotGreaterSlantEqual;", [10878; 824]); ("NotGreaterTilde;", [8821]);
   ("NotHumpDownHump;", [8782; 824]); ("NotHumpEqual;", [8783; 824]);
   ("NotLeftTriangle;", [8938]); ("NotLeftTriangleBar;", [10703; 824]);
   ("NotLeftTriangleEqual;", [8940]); ("NotLess;", [8814]); ("NotLessEqual;", [8816]);
   ("NotLessGreater;", [8824]); ("NotLessLess;", [8810; 824]);
   ("NotLessSlantEqual;", [10877; 824]); ("NotLessTilde;", [8820]);
   ("NotNestedGreaterGreater;", [10914; 824]); ("NotNestedLessLess;", [10913; 824]);
   ("NotPrecedes;", [8832]); ("NotPrecedesEqual;", [10927; 824]);
   ("NotPrecedesSlantEqual;", [8928]); ("NotReverseElement;", [8716]);
   ("NotRightTriangle;", [8939]); ("NotRightTriangleBar;", [10704; 824]);
   ("NotRightTriangleEqual;", [8941]); ("NotSquareSubset;", [8847; 824]);
   ("NotSquareSubsetEqual;", [8930]); ("NotSquareSuperset;", [8848; 824]);
   ("NotSquareSupersetEqual;", [8931]); ("NotSubset;", [8834; 8402]);
   ("NotSubsetEqual;", [8840]); ("NotSucceeds;", [8833]); ("NotSucceedsEqual;", [10928; 824]);
   ("NotSucceedsSlantEqual;", [8929]); ("NotSucceedsTilde;", [8831; 824]);
   ("NotSuperset;", [8835; 8402]); ("NotSupersetEqual;", [8841]); ("NotTilde;", [8769]);
   ("NotTildeEqual;", [8772]); ("NotTildeFullEqual;", [8775]); ("NotTildeTilde;", [8777]);
   ("NotVerticalBar;", [8740]); ("Nscr;", [119977]); ("Ntilde", [209]); ("Ntilde;", [209]);
   ("Nu;", [925]); ("OElig;", [338]); ("Oacute", [211]); ("Oacute;", [211]); ("Ocirc", [212]);
   ("Ocirc;", [212]); ("Ocy;", [1054]); ("Odblac;", [336]); ("Ofr;", [120082]);
   ("Ograve", [210]); ("Ograve;", [210]); ("Omacr;", [332]); ("Omega;", [937]);
   ("Omicron;", [927]); ("Oopf;", [120134]); ("OpenCurlyDoubleQuote;", [8220]);
   ("OpenCurlyQuote;", [8216]); ("Or;", [10836]); ("Oscr;", [119978]); ("Oslash", [216]);
   ("Oslash;", [216]); ("Otilde", [213]); ("Otilde;", [213]); ("Otimes;", [10807]);
   ("Ouml", [214]); ("Ouml;", [214]); ("OverBar;", [8254]); ("OverBrace;", [9182]);
   ("OverBracket;", [9140]); ("OverParenthesis;", [9180]); ("PartialD;", [8706]);
   ("Pcy;", [1055]); ("Pfr;", [120083]); ("Phi;", [934]); ("Pi;", [928]); ("PlusMinus;", [177]);
   ("Poincareplane;", [8460]); ("Popf;", [8473]); ("Pr;", [10939]); ("Precedes;", [8826]);
   ("PrecedesEqual;", [10927]); ("PrecedesSlantEqual;", [8828]); ("PrecedesTilde;", [8830]);
   ("Prime;", [8243]); ("Product;", [8719]); ("Proportion;", [8759]); ("Proportional;", [8733]);
   ("Pscr;", [119979]); ("Psi;", [936]); ("QUOT", [34]); ("QUOT;", [34]); ("Qfr;", [120084]);
   ("Qopf;", [8474]); ("Qscr;", [119980]); ("RBarr;", [10512]); ("REG", [174]); ("REG;", [174]);
   ("Racute;", [340]); ("Rang;", [10219]); ("Rarr;", [8608]); ("Rarrtl;", [10518]);
   ("Rcaron;", [344]); ("Rcedil;", [342]); ("Rcy;", [1056]); ("Re;", [8476]);
   ("ReverseElement;", [8715]); ("ReverseEquilibrium;", [8651]);
   ("ReverseUpEquilibrium;", [10607]); ("Rfr;", [8476]); ("Rho;", [929]);
   ("RightAngleBracket;", [10217]); ("RightArrow;", [8594]); ("RightArrowBar;", [8677]);
   ("RightArrowLeftArrow;", [8644]); ("RightCeiling;", [8969]);
   ("RightDoubleBracket;", [10215]); ("RightDownTeeVector;", [10589]);
   ("RightDownVector;", [8642]); ("RightDownVectorBar;", [10581]); ("RightFloor;", [8971]);
   ("RightTee;", [8866]); ("RightTeeArrow;", [8614]); ("RightTeeVector;", [10587]);
   ("RightTriangle;", [8883]); ("RightTriangleBar;", [10704]); ("RightTriangleEqual;", [8885]);
   ("RightUpDownVector;", [10575]); ("RightUpTeeVector;", [10588]); ("RightUpVector;", [8638]);
   ("RightUpVectorBar;", [10580]); ("RightVector;", [8640]); ("RightVectorBar;", [10579]);
   ("Rightarrow;", [8658]); ("Ropf;", [8477]); ("RoundImplies;", [10608]);
   ("Rrightarrow;", [8667]); ("Rscr;", [8475]); ("Rsh;", [8625]); ("RuleDelayed;", [10740]);
   ("SHCHcy;", [1065]); ("SHcy;", [1064]); ("SOFTcy;", [1068]); ("Sacute;", [346]);
   ("Sc;", [10940]); ("Scaron;", [352]); ("Scedil;", [350]); ("Scirc;", [348]);
   ("Scy;", [1057]); ("Sfr;", [120086]); ("ShortDownArrow;", [8595]);
   ("ShortLeftArrow;", [8592]); ("ShortRightArrow;", [8594]); ("ShortUpArrow;", [8593]);
   ("Sigma;", [931]); ("SmallCircle;", [8728]); ("Sopf;", [120138]); ("Sqrt;", [8730]);
   ("Square;", [9633]); ("SquareIntersection;", [8851]); ("SquareSubset;", [8847]);
   ("SquareSubsetEqual;", [8849]); ("SquareSuperset;", [8848]);
   ("SquareSupersetEqual;", [8850]); ("SquareUnion;", [8852]); ("Sscr;", [119982]);
   ("Star;", [8902]); ("Sub;", [8912]); ("Subset;", [8912]); ("SubsetEqual;", [8838]);
   ("Succeeds;", [8827]); ("SucceedsEqual;", [10928]); ("SucceedsSlantEqual;", [8829]);
   ("SucceedsTilde;", [8831]); ("SuchThat;", [8715]); ("Sum;", [8721]); ("Sup;", [8913]);
   ("Superset;", [8835]); ("SupersetEqual;", [8839]); ("Supset;", [8913]); ("THORN", [222]);
   ("THORN;", [222]); ("TRADE;", [8482]); ("TSHcy;", [1035]); ("TScy;", [1062]); ("Tab;", [9]);
   ("Tau;", [932]); ("Tcaron;", [356]); ("Tcedil;", [354]); ("Tcy;", [1058]);
   ("Tfr;", [120087]); ("Therefore;", [8756]); ("Theta;", [920]); ("ThickSpace;", [8287; 8202]);
   ("ThinSpace;", [8201]); ("Tilde;", [8764]); ("TildeEqual;", [8771]);
   ("TildeFullEqual;", [8773]); ("TildeTilde;", [8776]); ("Topf;", [120139]);
   ("TripleDot;", [8411]); ("Tscr;", [119983]); ("Tstrok;", [358]); ("Uacute", [218]);
   ("Uacute;", [218]); ("Uarr;", [8607]); ("Uarrocir;", [10569]); ("Ubrcy;", [1038]);
   ("Ubreve;", [364]); ("Ucirc", [219]); ("Ucirc;", [219]); ("Ucy;", [1059]);
   ("Udblac;", [368]); ("Ufr;", [120088]); ("Ugrave", [217]); ("Ugrave;", [217]);
   ("Umacr;", [362]); ("UnderBar;", [95]); ("UnderBrace;", [9183]); ("UnderBracket;", [9141]);
   ("UnderParenthesis;", [9181]); ("Union;", [8899]); ("UnionPlus;", [8846]); ("Uogon;", [370]);
   ("Uopf;", [120140]); ("UpArrow;", [8593]); ("UpArrowBar;", [10514]);
   ("UpArrowDownArrow;", [8645]); ("UpDownArrow;", [8597]); ("UpEquilibrium;", [10606]);
   ("UpTee;", [8869]); ("UpTeeArrow;", [8613]); ("Uparrow;", [8657]); ("Updownarrow;", [8661]);
   ("UpperLeftArrow;", [8598]); ("UpperRightArrow;", [8599]); ("Upsi;", [978]);
   ("Upsilon;", [933]); ("Uring;", [366]); ("Uscr;", [119984]); ("Utilde;", [360]);
   ("Uuml", [220]); ("Uuml;", [220]); ("VDash;", [8875]); ("Vbar;", [10987]); ("Vcy;", [1042]);
   ("Vdash;", [8873]); ("Vdashl;", [10982]); ("Vee;", [8897]); ("Verbar;", [8214]);
   ("Vert;", [8214]); ("VerticalBar;", [8739]); ("VerticalLine;", [124]);
   ("VerticalSeparator;", [10072]); ("VerticalTilde;", [8768]); ("VeryThinSpace;", [8202]);
   ("Vfr;", [120089]); ("Vopf;", [120141]); ("Vscr;", [119985]); ("Vvdash;", [8874]);
   ("Wcirc;", [372]); ("Wedge;", [8896]); ("Wfr;", [120090]); ("Wopf;", [120142]);
   ("Wscr;", [119986]); ("Xfr;", [120091]); ("Xi;", [926]); ("Xopf;", [120143]);
   ("Xscr;", [119987]); ("YAcy;", [1071]); ("YIcy;", [1031]); ("YUcy;", [1070]);
   ("Yacute", [221]); ("Yacute;", [221]); ("Ycirc;", [374]); ("Ycy;", [1067]);
   ("Yfr;", [120092]); ("Yopf;", [120144]); ("Yscr;", [119988]); ("Yuml;", [376]);
   ("ZHcy;", [1046]); ("Zacute;", [377]); ("Zcaron;", [381]); ("Zcy;", [1047]);
   ("Zdot;", [379]); ("ZeroWidthSpace;", [8203]); ("Zeta;", [918]); ("Zfr;", [8488]);
   ("Zopf;", [8484]); ("Zscr;", [119989]); ("aacute", [225]); ("aacute;", [225]);
   ("abreve;", [259]); ("ac;", [8766]); ("acE;", [8766; 819]); ("acd;", [8767]);
   ("acirc", [226]); ("acirc;", [226]); ("acute", [180]); ("acute;", [180]); ("acy;", [1072]);
   ("aelig", [230]); ("aelig;", [230]); ("af;", [8289]); ("afr;", [120094]); ("agrave", [224]);
   ("agrave;", [224]); ("alefsym;", [8501]); ("aleph;", [8501]); ("alpha;", [945]);
   ("amacr;", [257]); ("amalg;", [10815]); ("amp", [38]); ("amp;", [38]); ("and;", [8743]);
   ("andand;", [10837]); ("andd;", [10844]); ("andslope;", [10840]); ("andv;", [10842]);
   ("ang;", [8736]); ("ange;", [10660]); ("angle;", [8736]); ("angmsd;", [8737]);
   ("angmsdaa;", [10664]); ("angmsdab;", [10665]); ("angmsdac;", [10666]);
   ("angmsdad;", [10667]); ("angmsdae;", [10668]); ("angmsdaf;", [10669]);
   ("angmsdag;", [10670]); ("angmsdah;", [10671]); ("angrt;", [8735]); ("angrtvb;", [8894]);
   ("angrtvbd;", [10653]); ("angsph;", [8738]); ("angst;", [197]); ("angzarr;", [9084]);
   ("aogon;", [261]); ("aopf;", [120146]); ("ap;", [8776]); ("apE;", [10864]);
   ("apacir;", [10863]); ("ape;", [8778]); ("apid;", [8779]); ("apos;", [39]);
   ("approx;", [8776]); ("approxeq;", [8778]); ("aring", [229]); ("aring;", [229]);
   ("ascr;", [119990]); ("ast;", [42]); ("asymp;", [8776]); ("asympeq;", [8781]);
   ("atilde", [227]); ("atilde;", [227]); ("auml", [228]); ("auml;", [228]);
   ("awconint;", [8755]); ("awint;", [10769]); ("bNot;", [10989]); ("backcong;", [8780]);
   ("backepsilon;", [1014]); ("backprime;", [8245]); ("backsim;", [8765]);
   ("backsimeq;", [8909]); ("barvee;", [8893]); ("barwed;", [8965]); ("barwedge;", [8965]);
   ("bbrk;", [9141]); ("bbrktbrk;", [9142]); ("bcong;", [8780]); ("bcy;", [1073]);
   ("bdquo;", [8222]); ("becaus;", [8757]); ("because;", [8757]); ("bemptyv;", [10672]);
   ("bepsi;", [1014]); ("bernou;", [8492]); ("beta;", [946]); ("beth;", [8502]);
   ("between;", [8812]); ("bfr;", [120095]); ("bigcap;", [8898]); ("bigcirc;", [9711]);
   ("bigcup;", [8899]); ("bigodot;", [10752]); ("bigoplus;", [10753]); ("bigotimes;", [10754]);
   ("bigsqcup;", [10758]); ("bigstar;", [9733]); ("bigtriangledown;", [9661]);
   ("bigtriangleup;", [9651]); ("biguplus;", [10756]); ("bigvee;", [8897]);
   ("bigwedge;", [8896]); ("bkarow;", [10509]); ("blacklozenge;", [10731]);
   ("blacksquare;", [9642]); ("blacktriangle;", [9652]); ("blacktriangledown;", [9662]);
   ("blacktriangleleft;", [9666]); ("blacktriangleright;", [9656]); ("blank;", [9251]);
   ("blk12;", [9618]); ("blk14;", [9617]); ("blk34;", [9619]); ("block;", [9608]);
   ("bne;", [61; 8421]); ("bnequiv;", [8801; 8421]); ("bnot;", [8976]); ("bopf;", [120147]);
   ("bot;", [8869]); ("bottom;", [8869]); ("bowtie;", [8904]); ("boxDL;", [9559]);
   ("boxDR;", [9556]); ("boxDl;", [9558]); ("boxDr;", [9555]); ("boxH;", [9552]);
   ("boxHD;", [9574]); ("boxHU;", [9577]); ("boxHd;", [9572]); ("boxHu;", [9575]);
   ("boxUL;", [9565]); ("boxUR;", [9562]); ("boxUl;", [9564]); ("boxUr;", [9561]);
   ("boxV;", [9553]); ("boxVH;", [9580]); ("boxVL;", [9571]); ("boxVR;", [9568]);
   ("boxVh;", [9579]); ("boxVl;", [9570]); ("boxVr;", [9567]); ("boxbox;", [10697]);
   ("boxdL;", [9557]); ("boxdR;", [9554]); ("boxdl;", [9488]); ("boxdr;", [9484]);
   ("boxh;", [9472]); ("boxhD;", [9573]); ("boxhU;", [9576]); ("boxhd;", [9516]);
   ("boxhu;", [9524]); ("boxminus;", [8863]); ("boxplus;", [8862]); ("boxtimes;", [8864]);
   ("boxuL;", [9563]); ("boxuR;", [9560]); ("boxul;", [9496]); ("boxur;", [9492]);
   ("boxv;", [9474]); ("boxvH;", [9578]); ("boxvL;", [9569]); ("boxvR;", [9566]);
   ("boxvh;", [9532]); ("boxvl;", [9508]); ("boxvr;", [9500]); ("bprime;", [8245]);
   ("breve;", [728]); ("brvbar", [166]); ("brvbar;", [166]); ("bscr;", [119991]);
   ("bsemi;", [8271]); ("bsim;", [8765]); ("bsime;", [8909]); ("bsol;", [92]);
   ("bsolb;", [10693]); ("bsolhsub;", [10184]); ("bull;", [8226]); ("bullet;", [8226]);
   ("bump;", [8782]); ("bumpE;", [10926]); ("bumpe;", [8783]); ("bumpeq;", [8783]);
   ("cacute;", [263]); ("cap;", [8745]); ("capand;", [10820]); ("capbrcup;", [10825]);
   ("capcap;", [10827]); ("capcup;", [10823]); ("capdot;", [10816]); ("caps;", [8745; 65024]);
   ("caret;", [8257]); ("caron;", [711]); ("ccaps;", [10829]); ("ccaron;", [269]);
   ("ccedil", [231]); ("ccedil;", [231]); ("ccirc;", [265]); ("ccups;", [10828]);
   ("ccupssm;", [10832]); ("cdot;", [267]); ("cedil", [184]); ("cedil;", [184]);
   ("cemptyv;", [10674]); ("cent", [162]); ("cent;", [162]); ("centerdot;", [183]);
   ("cfr;", [120096]); ("chcy;", [1095]); ("check;", [10003]); ("checkmark;", [10003]);
   ("chi;", [967]); ("cir;", [9675]); ("cirE;", [10691]); ("circ;", [710]); ("circeq;", [8791]);
   ("circlearrowleft;", [8634]); ("circlearrowright;", [8635]); ("circledR;", [174]);
   ("circledS;", [9416]); ("circledast;", [8859]); ("circledcirc;", [8858]);
   ("circleddash;", [8861]); ("cire;", [8791]); ("cirfnint;", [10768]); ("cirmid;", [10991]);
   ("cirscir;", [10690]); ("clubs;", [9827]); ("clubsuit;", [9827]); ("colon;", [58]);
   ("colone;", [8788]); ("coloneq;", [8788]); ("comma;", [44]); ("commat;", [64]);
   ("comp;", [8705]); ("compfn;", [8728]); ("complement;", [8705]); ("complexes;", [8450]);
   ("cong;", [8773]); ("congdot;", [10861]); ("conint;", [8750]); ("copf;", [120148]);
   ("coprod;", [8720]); ("copy", [169]); ("copy;", [169]); ("copysr;", [8471]);
   ("crarr;", [8629]); ("cross;", [10007]); ("cscr;", [119992]); ("csub;", [10959]);
   ("csube;", [10961]); ("csup;", [10960]); ("csupe;", [10962]); ("ctdot;", [8943]);
   ("cudarrl;", [10552]); ("cudarrr;", [10549]); ("cuepr;", [8926]); ("cuesc;", [8927]);
   ("cularr;", [8630]); ("cularrp;", [10557]); ("cup;", [8746]); ("cupbrcap;", [10824]);
   ("cupcap;", [10822]); ("cupcup;", [10826]); ("cupdot;", [8845]); ("cupor;", [10821]);
   ("cups;", [8746; 65024]); ("curarr;", [8631]); ("curarrm;", [10556]);
   ("curlyeqprec;", [8926]); ("curlyeqsucc;", [8927]); ("curlyvee;", [8910]);
   ("curlywedge;", [8911]); ("curren", [164]); ("curren;", [164]); ("curvearrowleft;", [8630]);
   ("curvearrowright;", [8631]); ("cuvee;", [8910]); ("cuwed;", [8911]); ("cwconint;", [8754]);
   ("cwint;", [8753]); ("cylcty;", [9005]); ("dArr;", [8659]); ("dHar;", [10597]);
   ("dagger;", [8224]); ("daleth;", [8504]); ("darr;", [8595]); ("dash;", [8208]);
   ("dashv;", [8867]); ("dbkarow;", [10511]); ("dblac;", [733]); ("dcaron;", [271]);
   ("dcy;", [1076]); ("dd;", [8518]); ("ddagger;", [8225]); ("ddarr;", [8650]);
   ("ddotseq;", [10871]); ("deg", [176]); ("deg;", [176]); ("delta;", [948]);
   ("demptyv;", [10673]); ("dfisht;", [10623]); ("dfr;", [120097]); ("dharl;", [8643]);
   ("dharr;", [8642]); ("diam;", [8900]); ("diamond;", [8900]); ("diamondsuit;", [9830]);
   ("diams;", [9830]); ("die;", [168]); ("digamma;", [989]); ("disin;", [8946]);
   ("div;", [247]); ("divide", [247]); ("divide;", [247]); ("divideontimes;", [8903]);
   ("divonx;", [8903]); ("djcy;", [1106]); ("dlcorn;", [8990]); ("dlcrop;", [8973]);
   ("dollar;", [36]); ("dopf;", [120149]); ("dot;", [729]); ("doteq;", [8784]);
   ("doteqdot;", [8785]); ("dotminus;", [8760]); ("dotplus;", [8724]); ("dotsquare;", [8865]);
   ("doublebarwedge;", [8966]); ("downarrow;", [8595]); ("downdownarrows;", [8650]);
   ("downharpoonleft;", [8643]); ("downharpoonright;", [8642]); ("drbkarow;", [10512]);
   ("drcorn;", [8991]); ("drcrop;", [8972]); ("dscr;", [119993]); ("dscy;", [1109]);
   ("dsol;", [10742]); ("dstrok;", [273]); ("dtdot;", [8945]); ("dtri;", [9663]);
   ("dtrif;", [9662]); ("duarr;", [8693]); ("duhar;", [10607]); ("dwangle;", [10662]);
   ("dzcy;", [1119]); ("dzigrarr;", [10239]); ("eDDot;", [10871]); ("eDot;", [8785]);
   ("eacute", [233]); ("eacute;", [233]); ("easter;", [10862]); ("ecaron;", [283]);
   ("ecir;", [8790]); ("ecirc", [234]); ("ecirc;", [234]); ("ecolon;", [8789]);
   ("ecy;", [1101]); ("edot;", [279]); ("ee;", [8519]); ("efDot;", [8786]); ("efr;", [120098]);
   ("eg;", [10906]); ("egrave", [232]); ("egrave;", [232]); ("egs;", [10902]);
   ("egsdot;", [10904]); ("el;", [10905]); ("elinters;", [9191]); ("ell;", [8467]);
   ("els;", [10901]); ("elsdot;", [10903]); ("emacr;", [275]); ("empty;", [8709]);
   ("emptyset;", [8709]); ("emptyv;", [8709]); ("emsp13;", [8196]); ("emsp14;", [8197]);
   ("emsp;", [8195]); ("eng;", [331]); ("ensp;", [8194]); ("eogon;", [281]);
   ("eopf;", [120150]); ("epar;", [8917]); ("eparsl;", [10723]); ("eplus;", [10865]);
   ("epsi;", [949]); ("epsilon;", [949]); ("epsiv;", [1013]); ("eqcirc;", [8790]);
   ("eqcolon;", [8789]); ("eqsim;", [8770]); ("eqslantgtr;", [10902]);
   ("eqslantless;", [10901]); ("equals;", [61]); ("equest;", [8799]); ("equiv;", [8801]);
   ("equivDD;", [10872]); ("eqvparsl;", [10725]); ("erDot;", [8787]); ("erarr;", [10609]);
   ("escr;", [8495]); ("esdot;", [8784]); ("esim;", [8770]); ("eta;", [951]); ("eth", [240]);
   ("eth;", [240]); ("euml", [235]); ("euml;", [235]); ("euro;", [8364]); ("excl;", [33]);
   ("exist;", [8707]); ("expectation;", [8496]); ("exponentiale;", [8519]);
   ("fallingdotseq;", [8786]); ("fcy;", [1092]); ("female;", [9792]); ("ffilig;", [64259]);
   ("fflig;", [64256]); ("ffllig;", [64260]); ("ffr;", [120099]); ("filig;", [64257]);
   ("fjlig;", [102; 106]); ("flat;", [9837]); ("fllig;", [64258]); ("fltns;", [9649]);
   ("fnof;", [402]); ("fopf;", [120151]); ("forall;", [8704]); ("fork;", [8916]);
   ("forkv;", [10969]); ("fpartint;", [10765]); ("frac12", [189]); ("frac12;", [189]);
   ("frac13;", [8531]); ("frac14", [188]); ("frac14;", [188]); ("frac15;", [8533]);
   ("frac16;", [8537]); ("frac18;", [8539]); ("frac23;", [8532]); ("frac25;", [8534]);
   ("frac34", [190]); ("frac34;", [190]); ("frac35;", [8535]); ("frac38;", [8540]);
   ("frac45;", [8536]); ("frac56;", [8538]); ("frac58;", [8541]); ("frac78;", [8542]);
   ("frasl;", [8260]); ("frown;", [8994]); ("fscr;", [119995]); ("gE;", [8807]);
   ("gEl;", [10892]); ("gacute;", [501]); ("gamma;", [947]); ("gammad;", [989]);
   ("gap;", [10886]); ("gbreve;", [287]); ("gcirc;", [285]); ("gcy;", [1075]); ("gdot;", [289]);
   ("ge;", [8805]); ("gel;", [8923]); ("geq;", [8805]); ("geqq;", [8807]);
   ("geqslant;", [10878]); ("ges;", [10878]); ("gescc;", [10921]); ("gesdot;", [10880]);
   ("gesdoto;", [10882]); ("gesdotol;", [10884]); ("gesl;", [8923; 65024]);
   ("gesles;", [10900]); ("gfr;", [120100]); ("gg;", [8811]); ("ggg;", [8921]);
   ("gimel;", [8503]); ("gjcy;", [1107]); ("gl;", [8823]); ("glE;", [10898]); ("gla;", [10917]);
   ("glj;", [10916]); ("gnE;", [8809]); ("gnap;", [10890]); ("gnapprox;", [10890]);
   ("gne;", [10888]); ("gneq;", [10888]); ("gneqq;", [8809]); ("gnsim;", [8935]);
   ("gopf;", [120152]); ("grave;", [96]); ("gscr;", [8458]); ("gsim;", [8819]);
   ("gsime;", [10894]); ("gsiml;", [10896]); ("gt", [62]); ("gt;", [62]); ("gtcc;", [10919]);
   ("gtcir;", [10874]); ("gtdot;", [8919]); ("gtlPar;", [10645]); ("gtquest;", [10876]);
   ("gtrapprox;", [10886]); ("gtrarr;", [10616]); ("gtrdot;", [8919]); ("gtreqless;", [8923]);
   ("gtreqqless;", [10892]); ("gtrless;", [8823]); ("gtrsim;", [8819]);
   ("gvertneqq;", [8809; 65024]); ("gvnE;", [8809; 65024]); ("hArr;", [8660]);
   ("hairsp;", [8202]); ("half;", [189]); ("hamilt;", [8459]); ("hardcy;", [1098]);
   ("harr;", [8596]); ("harrcir;", [10568]); ("harrw;", [8621]); ("hbar;", [8463]);
   ("hcirc;", [293]); ("hearts;", [9829]); ("heartsuit;", [9829]); ("hellip;", [8230]);
   ("hercon;", [8889]); ("hfr;", [120101]); ("hksearow;", [10533]); ("hkswarow;", [10534]);
   ("hoarr;", [8703]); ("homtht;", [8763]); ("hookleftarrow;", [8617]);
   ("hookrightarrow;", [8618]); ("hopf;", [120153]); ("horbar;", [8213]); ("hscr;", [119997]);
   ("hslash;", [8463]); ("hstrok;", [295]); ("hybull;", [8259]); ("hyphen;", [8208]);
   ("iacute", [237]); ("iacute;", [237]); ("ic;", [8291]); ("icirc", [238]); ("icirc;", [238]);
   ("icy;", [1080]); ("iecy;", [1077]); ("iexcl", [161]); ("iexcl;", [161]); ("iff;", [8660]);
   ("ifr;", [120102]); ("igrave", [236]); ("igrave;", [236]); ("ii;", [8520]);
   ("iiiint;", [10764]); ("iiint;", [8749]); ("iinfin;", [10716]); ("iiota;", [8489]);
   ("ijlig;", [307]); ("imacr;", [299]); ("image;", [8465]); ("imagline;", [8464]);
   ("imagpart;", [8465]); ("imath;", [305]); ("imof;", [8887]); ("imped;", [437]);
   ("in;", [8712]); ("incare;", [8453]); ("infin;", [8734]); ("infintie;", [10717]);
   ("inodot;", [305]); ("int;", [8747]); ("intcal;", [8890]); ("integers;", [8484]);
   ("intercal;", [8890]); ("intlarhk;", [10775]); ("intprod;", [10812]); ("iocy;", [1105]);
   ("iogon;", [303]); ("iopf;", [120154]); ("iota;", [953]); ("iprod;", [10812]);
   ("iquest", [191]); ("iquest;", [191]); ("iscr;", [119998]); ("isin;", [8712]);
   ("isinE;", [8953]); ("isindot;", [8949]); ("isins;", [8948]); ("isinsv;", [8947]);
   ("isinv;", [8712]); ("it;", [8290]); ("itilde;", [297]); ("iukcy;", [1110]); ("iuml", [239]);
   ("iuml;", [239]); ("jcirc;", [309]); ("jcy;", [1081]); ("jfr;", [120103]); ("jmath;", [567]);
   ("jopf;", [120155]); ("jscr;", [119999]); ("jsercy;", [1112]); ("jukcy;", [1108]);
   ("kappa;", [954]); ("kappav;", [1008]); ("kcedil;", [311]); ("kcy;", [1082]);
   ("kfr;", [120104]); ("kgreen;", [312]); ("khcy;", [1093]); ("kjcy;", [1116]);
   ("kopf;", [120156]); ("kscr;", [120000]); ("lAarr;", [8666]); ("lArr;", [8656]);
   ("lAtail;", [10523]); ("lBarr;", [10510]); ("lE;", [8806]); ("lEg;", [10891]);
   ("lHar;", [10594]); ("lacute;", [314]); ("laemptyv;", [10676]); ("lagran;", [8466]);
   ("lambda;", [955]); ("lang;", [10216]); ("langd;", [10641]); ("langle;", [10216]);
   ("lap;", [10885]); ("laquo", [171]); ("laquo;", [171]); ("larr;", [8592]);
   ("larrb;", [8676]); ("larrbfs;", [10527]); ("larrfs;", [10525]); ("larrhk;", [8617]);
   ("larrlp;", [8619]); ("larrpl;", [10553]); ("larrsim;", [10611]); ("larrtl;", [8610]);
   ("lat;", [10923]); ("latail;", [10521]); ("late;", [10925]); ("lates;", [10925; 65024]);
   ("lbarr;", [10508]); ("lbbrk;", [10098]); ("lbrace;", [123]); ("lbrack;", [91]);
   ("lbrke;", [10635]); ("lbrksld;", [10639]); ("lbrkslu;", [10637]); ("lcaron;", [318]);
   ("lcedil;", [316]); ("lceil;", [8968]); ("lcub;", [123]); ("lcy;", [1083]);
   ("ldca;", [10550]); ("ldquo;", [8220]); ("ldquor;", [8222]); ("ldrdhar;", [10599]);
   ("ldrushar;", [10571]); ("ldsh;", [8626]); ("le;", [8804]); ("leftarrow;", [8592]);
   ("leftarrowtail;", [8610]); ("leftharpoondown;", [8637]); ("leftharpoonup;", [8636]);
   ("leftleftarrows;", [8647]); ("leftrightarrow;", [8596]); ("leftrightarrows;", [8646]);
   ("leftrightharpoons;", [8651]); ("leftrightsquigarrow;", [8621]);
   ("leftthreetimes;", [8907]); ("leg;", [8922]); ("leq;", [8804]); ("leqq;", [8806]);
   ("leqslant;", [10877]); ("les;", [10877]); ("lescc;", [10920]); ("lesdot;", [10879]);
   ("lesdoto;", [10881]); ("lesdotor;", [10883]); ("lesg;", [8922; 65024]);
   ("lesges;", [10899]); ("lessapprox;", [10885]); ("lessdot;", [8918]); ("lesseqgtr;", [8922]);
   ("lesseqqgtr;", [10891]); ("lessgtr;", [8822]); ("lesssim;", [8818]); ("lfisht;", [10620]);
   ("lfloor;", [8970]); ("lfr;", [120105]); ("lg;", [8822]); ("lgE;", [10897]);
   ("lhard;", [8637]); ("lharu;", [8636]); ("lharul;", [10602]); ("lhblk;", [9604]);
   ("ljcy;", [1113]); ("ll;", [8810]); ("llarr;", [8647]); ("llcorner;", [8990]);
   ("llhard;", [10603]); ("lltri;", [9722]); ("lmidot;", [320]); ("lmoust;", [9136]);
   ("lmoustache;", [9136]); ("lnE;", [8808]); ("lnap;", [10889]); ("lnapprox;", [10889]);
   ("lne;", [10887]); ("lneq;", [10887]); ("lneqq;", [8808]); ("lnsim;", [8934]);
   ("loang;", [10220]); ("loarr;", [8701]); ("lobrk;", [10214]); ("longleftarrow;", [10229]);
   ("longleftrightarrow;", [10231]); ("longmapsto;", [10236]); ("longrightarrow;", [10230]);
   ("looparrowleft;", [8619]); ("looparrowright;", [8620]); ("lopar;", [10629]);
   ("lopf;", [120157]); ("loplus;", [10797]); ("lotimes;", [10804]); ("lowast;", [8727]);
   ("lowbar;", [95]); ("loz;", [9674]); ("lozenge;", [9674]); ("lozf;", [10731]);
   ("lpar;", [40]); ("lparlt;", [10643]); ("lrarr;", [8646]); ("lrcorner;", [8991]);
   ("lrhar;", [8651]); ("lrhard;", [10605]); ("lrm;", [8206]); ("lrtri;", [8895]);
   ("lsaquo;", [8249]); ("lscr;", [120001]); ("lsh;", [8624]); ("lsim;", [8818]);
   ("lsime;", [10893]); ("lsimg;", [10895]); ("lsqb;", [91]); ("lsquo;", [8216]);
   ("lsquor;", [8218]); ("lstrok;", [322]); ("lt", [60]); ("lt;", [60]); ("ltcc;", [10918]);
   ("ltcir;", [10873]); ("ltdot;", [8918]); ("lthree;", [8907]); ("ltimes;", [8905]);
   ("ltlarr;", [10614]); ("ltquest;", [10875]); ("ltrPar;", [10646]); ("ltri;", [9667]);
   ("ltrie;", [8884]); ("ltrif;", [9666]); ("lurdshar;", [10570]); ("luruhar;", [10598]);
   ("lvertneqq;", [8808; 65024]); ("lvnE;", [8808; 65024]); ("mDDot;", [8762]); ("macr", [175]);
   ("macr;", [175]); ("male;", [9794]); ("malt;", [10016]); ("maltese;", [10016]);
   ("map;", [8614]); ("mapsto;", [8614]); ("mapstodown;", [8615]); ("mapstoleft;", [8612]);
   ("mapstoup;", [8613]); ("marker;", [9646]); ("mcomma;", [10793]); ("mcy;", [1084]);
   ("mdash;", [8212]); ("measuredangle;", [8737]); ("mfr;", [120106]); ("mho;", [8487]);
   ("micro", [181]); ("micro;", [181]); ("mid;", [8739]); ("midast;", [42]);
   ("midcir;", [10992]); ("middot", [183]); ("middot;", [183]); ("minus;", [8722]);
   ("minusb;", [8863]); ("minusd;", [8760]); ("minusdu;", [10794]); ("mlcp;", [10971]);
   ("mldr;", [8230]); ("mnplus;", [8723]); ("models;", [8871]); ("mopf;", [120158]);
   ("mp;", [8723]); ("mscr;", [120002]); ("mstpos;", [8766]); ("mu;", [956]);
   ("multimap;", [8888]); ("mumap;", [8888]); ("nGg;", [8921; 824]); ("nGt;", [8811; 8402]);
   ("nGtv;", [8811; 824]); ("nLeftarrow;", [8653]); ("nLeftrightarrow;", [8654]);
   ("nLl;", [8920; 824]); ("nLt;", [8810; 8402]); ("nLtv;", [8810; 824]);
   ("nRightarrow;", [8655]); ("nVDash;", [8879]); ("nVdash;", [8878]); ("nabla;", [8711]);
   ("nacute;", [324]); ("nang;", [8736; 8402]); ("nap;", [8777]); ("napE;", [10864; 824]);
   ("napid;", [8779; 824]); ("napos;", [329]); ("napprox;", [8777]); ("natur;", [9838]);
   ("natural;", [9838]); ("naturals;", [8469]); ("nbsp", [160]); ("nbsp;", [160]);
   ("nbump;", [8782; 824]); ("nbumpe;", [8783; 824]); ("ncap;", [10819]); ("ncaron;", [328]);
   ("ncedil;", [326]); ("ncong;", [8775]); ("ncongdot;", [10861; 824]); ("ncup;", [10818]);
   ("ncy;", [1085]); ("ndash;", [8211]); ("ne;", [8800]); ("neArr;", [8663]);
   ("nearhk;", [10532]); ("nearr;", [8599]); ("nearrow;", [8599]); ("nedot;", [8784; 824]);
   ("nequiv;", [8802]); ("nesear;", [10536]); ("nesim;", [8770; 824]); ("nexist;", [8708]);
   ("nexists;", [8708]); ("nfr;", [120107]); ("ngE;", [8807; 824]); ("nge;", [8817]);
   ("ngeq;", [8817]); ("ngeqq;", [8807; 824]); ("ngeqslant;", [10878; 824]);
   ("nges;", [10878; 824]); ("ngsim;", [8821]); ("ngt;", [8815]); ("ngtr;", [8815]);
   ("nhArr;", [8654]); ("nharr;", [8622]); ("nhpar;", [10994]); ("ni;", [8715]);
   ("nis;", [8956]); ("nisd;", [8954]); ("niv;", [8715]); ("njcy;", [1114]); ("nlArr;", [8653]);
   ("nlE;", [8806; 824]); ("nlarr;", [8602]); ("nldr;", [8229]); ("nle;", [8816]);
   ("nleftarrow;", [8602]); ("nleftrightarrow;", [8622]); ("nleq;", [8816]);
   ("nleqq;", [8806; 824]); ("nleqslant;", [10877; 824]); ("nles;", [10877; 824]);
   ("nless;", [8814]); ("nlsim;", [8820]); ("nlt;", [8814]); ("nltri;", [8938]);
   ("nltrie;", [8940]); ("nmid;", [8740]); ("nopf;", [120159]); ("not", [172]); ("not;", [172]);
   ("notin;", [8713]); ("notinE;", [8953; 824]); ("notindot;", [8949; 824]);
   ("notinva;", [8713]); ("notinvb;", [8951]); ("notinvc;", [8950]); ("notni;", [8716]);
   ("notniva;", [8716]); ("notnivb;", [8958]); ("notnivc;", [8957]); ("npar;", [8742]);
   ("nparallel;", [8742]); ("nparsl;", [11005; 8421]); ("npart;", [8706; 824]);
   ("npolint;", [10772]); ("npr;", [8832]); ("nprcue;", [8928]); ("npre;", [10927; 824]);
   ("nprec;", [8832]); ("npreceq;", [10927; 824]); ("nrArr;", [8655]); ("nrarr;", [8603]);
   ("nrarrc;", [10547; 824]); ("nrarrw;", [8605; 824]); ("nrightarrow;", [8603]);
   ("nrtri;", [8939]); ("nrtrie;", [8941]); ("nsc;", [8833]); ("nsccue;", [8929]);
   ("nsce;", [10928; 824]); ("nscr;", [120003]); ("nshortmid;", [8740]);
   ("nshortparallel;", [8742]); ("nsim;", [8769]); ("nsime;", [8772]); ("nsimeq;", [8772]);
   ("nsmid;", [8740]); ("nspar;", [8742]); ("nsqsube;", [8930]); ("nsqsupe;", [8931]);
   ("nsub;", [8836]); ("nsubE;", [10949; 824]); ("nsube;", [8840]); ("nsubset;", [8834; 8402]);
   ("nsubseteq;", [8840]); ("nsubseteqq;", [10949; 824]); ("nsucc;", [8833]);
   ("nsucceq;", [10928; 824]); ("nsup;", [8837]); ("nsupE;", [10950; 824]); ("nsupe;", [8841]);
   ("nsupset;", [8835; 8402]); ("nsupseteq;", [8841]); ("nsupseteqq;", [10950; 824]);
   ("ntgl;", [8825]); ("ntilde", [241]); ("ntilde;", [241]); ("ntlg;", [8824]);
   ("ntriangleleft;", [8938]); ("ntrianglelefteq;", [8940]); ("ntriangleright;", [8939]);
   ("ntrianglerighteq;", [8941]); ("nu;", [957]); ("num;", [35]); ("numero;", [8470]);
   ("numsp;", [8199]); ("nvDash;", [8877]); ("nvHarr;", [10500]); ("nvap;", [8781; 8402]);
   ("nvdash;", [8876]); ("nvge;", [8805; 8402]); ("nvgt;", [62; 8402]); ("nvinfin;", [10718]);
   ("nvlArr;", [10498]); ("nvle;", [8804; 8402]); ("nvlt;", [60; 8402]);
   ("nvltrie;", [8884; 8402]); ("nvrArr;", [10499]); ("nvrtrie;", [8885; 8402]);
   ("nvsim;", [8764; 8402]); ("nwArr;", [8662]); ("nwarhk;", [10531]); ("nwarr;", [8598]);
   ("nwarrow;", [8598]); ("nwnear;", [10535]); ("oS;", [9416]); ("oacute", [243]);
   ("oacute;", [243]); ("oast;", [8859]); ("ocir;", [8858]); ("ocirc", [244]);
   ("ocirc;", [244]); ("ocy;", [1086]); ("odash;", [8861]); ("odblac;", [337]);
   ("odiv;", [10808]); ("odot;", [8857]); ("odsold;", [10684]); ("oelig;", [339]);
   ("ofcir;", [10687]); ("ofr;", [120108]); ("ogon;", [731]); ("ograve", [242]);
   ("ograve;", [242]); ("ogt;", [10689]); ("ohbar;", [10677]); ("ohm;", [937]);
   ("oint;", [8750]); ("olarr;", [8634]); ("olcir;", [10686]); ("olcross;", [10683]);
   ("oline;", [8254]); ("olt;", [10688]); ("omacr;", [333]); ("omega;", [969]);
   ("omicron;", [959]); ("omid;", [10678]); ("ominus;", [8854]); ("oopf;", [120160]);
   ("opar;", [10679]); ("operp;", [10681]); ("oplus;", [8853]); ("or;", [8744]);
   ("orarr;", [8635]); ("ord;", [10845]); ("order;", [8500]); ("orderof;", [8500]);
   ("ordf", [170]); ("ordf;", [170]); ("ordm", [186]); ("ordm;", [186]); ("origof;", [8886]);
   ("oror;", [10838]); ("orslope;", [10839]); ("orv;", [10843]); ("oscr;", [8500]);
   ("oslash", [248]); ("oslash;", [248]); ("osol;", [8856]); ("otilde", [245]);
   ("otilde;", [245]); ("otimes;", [8855]); ("otimesas;", [10806]); ("ouml", [246]);
   ("ouml;", [246]); ("ovbar;", [9021]); ("par;", [8741]); ("para", [182]); ("para;", [182]);
   ("parallel;", [8741]); ("parsim;", [10995]); ("parsl;", [11005]); ("part;", [8706]);
   ("pcy;", [1087]); ("percnt;", [37]); ("period;", [46]); ("permil;", [8240]);
   ("perp;", [8869]); ("pertenk;", [8241]); ("pfr;", [120109]); ("phi;", [966]);
   ("phiv;", [981]); ("phmmat;", [8499]); ("phone;", [9742]); ("pi;", [960]);
   ("pitchfork;", [8916]); ("piv;", [982]); ("planck;", [8463]); ("planckh;", [8462]);
   ("plankv;", [8463]); ("plus;", [43]); ("plusacir;", [10787]); ("plusb;", [8862]);
   ("pluscir;", [10786]); ("plusdo;", [8724]); ("plusdu;", [10789]); ("pluse;", [10866]);
   ("plusmn", [177]); ("plusmn;", [177]); ("plussim;", [10790]); ("plustwo;", [10791]);
   ("pm;", [177]); ("pointint;", [10773]); ("popf;", [120161]); ("pound", [163]);
   ("pound;", [163]); ("pr;", [8826]); ("prE;", [10931]); ("prap;", [10935]);
   ("prcue;", [8828]); ("pre;", [10927]); ("prec;", [8826]); ("precapprox;", [10935]);
   ("preccurlyeq;", [8828]); ("preceq;", [10927]); ("precnapprox;", [10937]);
   ("precneqq;", [10933]); ("precnsim;", [8936]); ("precsim;", [8830]); ("prime;", [8242]);
   ("primes;", [8473]); ("prnE;", [10933]); ("prnap;", [10937]); ("prnsim;", [8936]);
   ("prod;", [8719]); ("profalar;", [9006]); ("profline;", [8978]); ("profsurf;", [8979]);
   ("prop;", [8733]); ("propto;", [8733]); ("prsim;", [8830]); ("prurel;", [8880]);
   ("pscr;", [120005]); ("psi;", [968]); ("puncsp;", [8200]); ("qfr;", [120110]);
   ("qint;", [10764]); ("qopf;", [120162]); ("qprime;", [8279]); ("qscr;", [120006]);
   ("quaternions;", [8461]); ("quatint;", [10774]); ("quest;", [63]); ("questeq;", [8799]);
   ("quot", [34]); ("quot;", [34]); ("rAarr;", [8667]); ("rArr;", [8658]); ("rAtail;", [10524]);
   ("rBarr;", [10511]); ("rHar;", [10596]); ("race;", [8765; 817]); ("racute;", [341]);
   ("radic;", [8730]); ("raemptyv;", [10675]); ("rang;", [10217]); ("rangd;", [10642]);
   ("range;", [10661]); ("rangle;", [10217]); ("raquo", [187]); ("raquo;", [187]);
   ("rarr;", [8594]); ("rarrap;", [10613]); ("rarrb;", [8677]); ("rarrbfs;", [10528]);
   ("rarrc;", [10547]); ("rarrfs;", [10526]); ("rarrhk;", [8618]); ("rarrlp;", [8620]);
   ("rarrpl;", [10565]); ("rarrsim;", [10612]); ("rarrtl;", [8611]); ("rarrw;", [8605]);
   ("ratail;", [10522]); ("ratio;", [8758]); ("rationals;", [8474]); ("rbarr;", [10509]);
   ("rbbrk;", [10099]); ("rbrace;", [125]); ("rbrack;", [93]); ("rbrke;", [10636]);
   ("rbrksld;", [10638]); ("rbrkslu;", [10640]); ("rcaron;", [345]); ("rcedil;", [343]);
   ("rceil;", [8969]); ("rcub;", [125]); ("rcy;", [1088]); ("rdca;", [10551]);
   ("rdldhar;", [10601]); ("rdquo;", [8221]); ("rdquor;", [8221]); ("rdsh;", [8627]);
   ("real;", [8476]); ("realine;", [8475]); ("realpart;", [8476]); ("reals;", [8477]);
   ("rect;", [9645]); ("reg", [174]); ("reg;", [174]); ("rfisht;", [10621]);
   ("rfloor;", [8971]); ("rfr;", [120111]); ("rhard;", [8641]); ("rharu;", [8640]);
   ("rharul;", [10604]); ("rho;", [961]); ("rhov;", [1009]); ("rightarrow;", [8594]);
   ("rightarrowtail;", [8611]); ("rightharpoondown;", [8641]); ("rightharpoonup;", [8640]);
   ("rightleftarrows;", [8644]); ("rightleftharpoons;", [8652]); ("rightrightarrows;", [8649]);
   ("rightsquigarrow;", [8605]); ("rightthreetimes;", [8908]); ("ring;", [730]);
   ("risingdotseq;", [8787]); ("rlarr;", [8644]); ("rlhar;", [8652]); ("rlm;", [8207]);
   ("rmoust;", [9137]); ("rmoustache;", [9137]); ("rnmid;", [10990]); ("roang;", [10221]);
   ("roarr;", [8702]); ("robrk;", [10215]); ("ropar;", [10630]); ("ropf;", [120163]);
   ("roplus;", [10798]); ("rotimes;", [10805]); ("rpar;", [41]); ("rpargt;", [10644]);
   ("rppolint;", [10770]); ("rrarr;", [8649]); ("rsaquo;", [8250]); ("rscr;", [120007]);
   ("rsh;", [8625]); ("rsqb;", [93]); ("rsquo;", [8217]); ("rsquor;", [8217]);
   ("rthree;", [8908]); ("rtimes;", [8906]); ("rtri;", [9657]); ("rtrie;", [8885]);
   ("rtrif;", [9656]); ("rtriltri;", [10702]); ("ruluhar;", [10600]); ("rx;", [8478]);
   ("sacute;", [347]); ("sbquo;", [8218]); ("sc;", [8827]); ("scE;", [10932]);
   ("scap;", [10936]); ("scaron;", [353]); ("sccue;", [8829]); ("sce;", [10928]);
   ("scedil;", [351]); ("scirc;", [349]); ("scnE;", [10934]); ("scnap;", [10938]);
   ("scnsim;", [8937]); ("scpolint;", [10771]); ("scsim;", [8831]); ("scy;", [1089]);
   ("sdot;", [8901]); ("sdotb;", [8865]); ("sdote;", [10854]); ("seArr;", [8664]);
   ("searhk;", [10533]); ("searr;", [8600]); ("searrow;", [8600]); ("sect", [167]);
   ("sect;", [167]); ("semi;", [59]); ("seswar;", [10537]); ("setminus;", [8726]);
   ("setmn;", [8726]); ("sext;", [10038]); ("sfr;", [120112]); ("sfrown;", [8994]);
   ("sharp;", [9839]); ("shchcy;", [1097]); ("shcy;", [1096]); ("shortmid;", [8739]);
   ("shortparallel;", [8741]); ("shy", [173]); ("shy;", [173]); ("sigma;", [963]);
   ("sigmaf;", [962]); ("sigmav;", [962]); ("sim;", [8764]); ("simdot;", [10858]);
   ("sime;", [8771]); ("simeq;", [8771]); ("simg;", [10910]); ("simgE;", [10912]);
   ("siml;", [10909]); ("simlE;", [10911]); ("simne;", [8774]); ("simplus;", [10788]);
   ("simrarr;", [10610]); ("slarr;", [8592]); ("smallsetminus;", [8726]); ("smashp;", [10803]);
   ("smeparsl;", [10724]); ("smid;", [8739]); ("smile;", [8995]); ("smt;", [10922]);
   ("smte;", [10924]); ("smtes;", [10924; 65024]); ("softcy;", [1100]); ("sol;", [47]);
   ("solb;", [10692]); ("solbar;", [9023]); ("sopf;", [120164]); ("spades;", [9824]);
   ("spadesuit;", [9824]); ("spar;", [8741]); ("sqcap;", [8851]); ("sqcaps;", [8851; 65024]);
   ("sqcup;", [8852]); ("sqcups;", [8852; 65024]); ("sqsub;", [8847]); ("sqsube;", [8849]);
   ("sqsubset;", [8847]); ("sqsubseteq;", [8849]); ("sqsup;", [8848]); ("sqsupe;", [8850]);
   ("sqsupset;", [8848]); ("sqsupseteq;", [8850]); ("squ;", [9633]); ("square;", [9633]);
   ("squarf;", [9642]); ("squf;", [9642]); ("srarr;", [8594]); ("sscr;", [120008]);
   ("ssetmn;", [8726]); ("ssmile;", [8995]); ("sstarf;", [8902]); ("star;", [9734]);
   ("starf;", [9733]); ("straightepsilon;", [1013]); ("straightphi;", [981]); ("strns;", [175]);
   ("sub;", [8834]); ("subE;", [10949]); ("subdot;", [10941]); ("sube;", [8838]);
   ("subedot;", [10947]); ("submult;", [10945]); ("subnE;", [10955]); ("subne;", [8842]);
   ("subplus;", [10943]); ("subrarr;", [10617]); ("subset;", [8834]); ("subseteq;", [8838]);
   ("subseteqq;", [10949]); ("subsetneq;", [8842]); ("subsetneqq;", [10955]);
   ("subsim;", [10951]); ("subsub;", [10965]); ("subsup;", [10963]); ("succ;", [8827]);
   ("succapprox;", [10936]); ("succcurlyeq;", [8829]); ("succeq;", [10928]);
   ("succnapprox;", [10938]); ("succneqq;", [10934]); ("succnsim;", [8937]);
   ("succsim;", [8831]); ("sum;", [8721]); ("sung;", [9834]); ("sup1", [185]); ("sup1;", [185]);
   ("sup2", [178]); ("sup2;", [178]); ("sup3", [179]); ("sup3;", [179]); ("sup;", [8835]);
   ("supE;", [10950]); ("supdot;", [10942]); ("supdsub;", [10968]); ("supe;", [8839]);
   ("supedot;", [10948]); ("suphsol;", [10185]); ("suphsub;", [10967]); ("suplarr;", [10619]);
   ("supmult;", [10946]); ("supnE;", [10956]); ("supne;", [8843]); ("supplus;", [10944]);
   ("supset;", [8835]); ("supseteq;", [8839]); ("supseteqq;", [10950]); ("supsetneq;", [8843]);
   ("supsetneqq;", [10956]); ("supsim;", [10952]); ("supsub;", [10964]); ("supsup;", [10966]);
   ("swArr;", [8665]); ("swarhk;", [10534]); ("swarr;", [8601]); ("swarrow;", [8601]);
   ("swnwar;", [10538]); ("szlig", [223]); ("szlig;", [223]); ("target;", [8982]);
   ("tau;", [964]); ("tbrk;", [9140]); ("tcaron;", [357]); ("tcedil;", [355]); ("tcy;", [1090]);
   ("tdot;", [8411]); ("telrec;", [8981]); ("tfr;", [120113]); ("there4;", [8756]);
   ("therefore;", [8756]); ("theta;", [952]); ("thetasym;", [977]); ("thetav;", [977]);
   ("thickapprox;", [8776]); ("thicksim;", [8764]); ("thinsp;", [8201]); ("thkap;", [8776]);
   ("thksim;", [8764]); ("thorn", [254]); ("thorn;", [254]); ("tilde;", [732]);
   ("times", [215]); ("times;", [215]); ("timesb;", [8864]); ("timesbar;", [10801]);
   ("timesd;", [10800]); ("tint;", [8749]); ("toea;", [10536]); ("top;", [8868]);
   ("topbot;", [9014]); ("topcir;", [10993]); ("topf;", [120165]); ("topfork;", [10970]);
   ("tosa;", [10537]); ("tprime;", [8244]); ("trade;", [8482]); ("triangle;", [9653]);
   ("triangledown;", [9663]); ("triangleleft;", [9667]); ("trianglelefteq;", [8884]);
   ("triangleq;", [8796]); ("triangleright;", [9657]); ("trianglerighteq;", [8885]);
   ("tridot;", [9708]); ("trie;", [8796]); ("triminus;", [10810]); ("triplus;", [10809]);
   ("trisb;", [10701]); ("tritime;", [10811]); ("trpezium;", [9186]); ("tscr;", [120009]);
   ("tscy;", [1094]); ("tshcy;", [1115]); ("tstrok;", [359]); ("twixt;", [8812]);
   ("twoheadleftarrow;", [8606]); ("twoheadrightarrow;", [8608]); ("uArr;", [8657]);
   ("uHar;", [10595]); ("uacute", [250]); ("uacute;", [250]); ("uarr;", [8593]);
   ("ubrcy;", [1118]); ("ubreve;", [365]); ("ucirc", [251]); ("ucirc;", [251]);
   ("ucy;", [1091]); ("udarr;", [8645]); ("udblac;", [369]); ("udhar;", [10606]);
   ("ufisht;", [10622]); ("ufr;", [120114]); ("ugrave", [249]); ("ugrave;", [249]);
   ("uharl;", [8639]); ("uharr;", [8638]); ("uhblk;", [9600]); ("ulcorn;", [8988]);
   ("ulcorner;", [8988]); ("ulcrop;", [8975]); ("ultri;", [9720]); ("umacr;", [363]);
   ("uml", [168]); ("uml;", [168]); ("uogon;", [371]); ("uopf;", [120166]);
   ("uparrow;", [8593]); ("updownarrow;", [8597]); ("upharpoonleft;", [8639]);
   ("upharpoonright;", [8638]); ("uplus;", [8846]); ("upsi;", [965]); ("upsih;", [978]);
   ("upsilon;", [965]); ("upuparrows;", [8648]); ("urcorn;", [8989]); ("urcorner;", [8989]);
   ("urcrop;", [8974]); ("uring;", [367]); ("urtri;", [9721]); ("uscr;", [120010]);
   ("utdot;", [8944]); ("utilde;", [361]); ("utri;", [9653]); ("utrif;", [9652]);
   ("uuarr;", [8648]); ("uuml", [252]); ("uuml;", [252]); ("uwangle;", [10663]);
   ("vArr;", [8661]); ("vBar;", [10984]); ("vBarv;", [10985]); ("vDash;", [8872]);
   ("vangrt;", [10652]); ("varepsilon;", [1013]); ("varkappa;", [1008]);
   ("varnothing;", [8709]); ("varphi;", [981]); ("varpi;", [982]); ("varpropto;", [8733]);
   ("varr;", [8597]); ("varrho;", [1009]); ("varsigma;", [962]);
   ("varsubsetneq;", [8842; 65024]); ("varsubsetneqq;", [10955; 65024]);
   ("varsupsetneq;", [8843; 65024]); ("varsupsetneqq;", [10956; 65024]); ("vartheta;", [977]);
   ("vartriangleleft;", [8882]); ("vartriangleright;", [8883]); ("vcy;", [1074]);
   ("vdash;", [8866]); ("vee;", [8744]); ("veebar;", [8891]); ("veeeq;", [8794]);
   ("vellip;", [8942]); ("verbar;", [124]); ("vert;", [124]); ("vfr;", [120115]);
   ("vltri;", [8882]); ("vnsub;", [8834; 8402]); ("vnsup;", [8835; 8402]); ("vopf;", [120167]);
   ("vprop;", [8733]); ("vrtri;", [8883]); ("vscr;", [120011]); ("vsubnE;", [10955; 65024]);
   ("vsubne;", [8842; 65024]); ("vsupnE;", [10956; 65024]); ("vsupne;", [8843; 65024]);
   ("vzigzag;", [10650]); ("wcirc;", [373]); ("wedbar;", [10847]); ("wedge;", [8743]);
   ("wedgeq;", [8793]); ("weierp;", [8472]); ("wfr;", [120116]); ("wopf;", [120168]);
   ("wp;", [8472]); ("wr;", [8768]); ("wreath;", [8768]); ("wscr;", [120012]);
   ("xcap;", [8898]); ("xcirc;", [9711]); ("xcup;", [8899]); ("xdtri;", [9661]);
   ("xfr;", [120117]); ("xhArr;", [10234]); ("xharr;", [10231]); ("xi;", [958]);
   ("xlArr;", [10232]); ("xlarr;", [10229]); ("xmap;", [10236]); ("xnis;", [8955]);
   ("xodot;", [10752]); ("xopf;", [120169]); ("xoplus;", [10753]); ("xotime;", [10754]);
   ("xrArr;", [10233]); ("xrarr;", [10230]); ("xscr;", [120013]); ("xsqcup;", [10758]);
   ("xuplus;", [10756]); ("xutri;", [9651]); ("xvee;", [8897]); ("xwedge;", [8896]);
   ("yacute", [253]); ("yacute;", [253]); ("yacy;", [1103]); ("ycirc;", [375]);
   ("ycy;", [1099]); ("yen", [165]); ("yen;", [165]); ("yfr;", [120118]); ("yicy;", [1111]);
   ("yopf;", [120170]); ("yscr;", [120014]); ("yucy;", [1102]); ("yuml", [255]);
   ("yuml;", [255]); ("zacute;", [378]); ("zcaron;", [382]); ("zcy;", [1079]); ("zdot;", [380]);
   ("zeetrf;", [8488]); ("zeta;", [950]); ("zfr;", [120119]); ("zhcy;", [1078]);
   ("zigrarr;", [8669]); ("zopf;", [120171]); ("zscr;", [120015]); ("zwj;", [8205]);
   ("zwnj;", [8204])]%N.

(** The longest name of the table the text begins with. *)
Definition longest (r : string) : option (string * list N) :=
  fold_left
    (fun best e =>
       if (Str.starts_with (fst e) r
           && match best with
              | Some b => Nat.ltb (String.length (fst b)) (String.length (fst e))
              | None => true
              end)%bool
       then Some e else best)
    named_references None.

Fixpoint closed (name : string) : bool :=
  match name with
  | EmptyString => false
  | String c EmptyString => Ascii.eqb c ";"
  | String _ r => closed r
  end.

Definition named (in_attr : bool) (r : string) : option (string * nat) :=
  match longest r with
  | None => None
  | Some (name, cps) =>
      let len := String.length name in
      if (in_attr && negb (closed name)
          && match Str.drop len r with
             | String c _ => (Ascii.eqb c "=" || is_alnum c)%bool
             | EmptyString => false
             end)%bool
      then None
      else Some (String.concat EmptyString (map utf8 cps), len)
  end.

(** What stands behind an [&]. *)
Definition reference (in_attr : bool) (r : string) : option (string * nat) :=
  match r with
  | String "#" r' => numeric r'
  | _ => named in_attr r
  end.

Fixpoint decode_from (in_attr : bool) (skip : nat) (s : string) : string :=
  match s with
  | EmptyString => EmptyString
  | String c r =>
      match skip with
      | S k => decode_from in_attr k r
      | O =>
          if Ascii.eqb c "&" then
            match reference in_attr r with
            | Some (text, len) => text ++ decode_from in_attr len r
            | None => String c (decode_from in_attr 0 r)
            end
          else String c (decode_from in_attr 0 r)
      end
  end.

Definition decode (in_attr : bool) (s : string) : string := decode_from in_attr 0 s.

(** *** The tokenizer *)

Inductive token : Type :=
| TText (s : string)
| TComment (s : string)
| TDoctype
| TOpen (name : string) (attribs : list (string * string))
| TRaw (name : string) (attribs : list (string * string)) (text : string)
| TClose (name : string).

Definition tag_name_char (c : ascii) : bool :=
  negb (html_space c || Ascii.eqb c "/" || Ascii.eqb c ">")%bool.

Definition attr_name_char (c : ascii) : bool :=
  negb (html_space c || Ascii.eqb c "/" || Ascii.eqb c ">" || Ascii.eqb c "=")%bool.

Definition unquoted_char (c : ascii) : bool :=
  negb (html_space c || Ascii.eqb c ">")%bool.

(** An attribute named twice keeps its first value. *)
Definition add_attr (k v : string) (acc : list (string * string))
    : list (string * string) :=
  if existsb (fun kv => String.eqb (fst kv) k) acc then acc else (k, v) :: acc.

(** The attributes of a tag and the text behind its [>]; [None] when the
    input ends inside the tag, which is then dropped. *)
Fixpoint scan_attrs (fuel : nat) (s : string) (acc : list (string * string))
    : option (list (string * string) * string) :=
  match fuel with
  | O => None
  | S f =>
      match drop_spaces s with
      | EmptyString => None
      | String ">" r => Some (rev acc, r)
      | String "/" r =>
          match r with
          | String ">" r' => Some (rev acc, r')
          | _ => scan_attrs f r acc
          end
      | String c r =>
          let (name, rest) := take_while attr_name_char r in
          let k := lower (String c name) in
          match drop_spaces rest with
          | String "=" r2 =>
              match drop_spaces r2 with
              | EmptyString => None
              | String q r3 =>
                  if (Ascii.eqb q (ascii_of_nat 34) || Ascii.eqb q "'")%bool then
                    match split_at (String q EmptyString) r3 with
                    | (v, Some after) => scan_attrs f after (add_attr k (decode true v) acc)
                    | (_, None) => None
                    end
                  else if Ascii.eqb q ">" then Some (rev (add_attr k EmptyString acc), r3)
                  else
                    let (v, after) := take_while unquoted_char (String q r3) in
                    scan_attrs f after (add_attr k (decode true v) acc)
              end
          | rest' => scan_attrs f rest' (add_attr k EmptyString acc)
          end
      end
  end.

Definition rawtext : list string :=
  ["script"; "style"; "xmp"; "iframe"; "noembed"; "noframes"; "noscript"].

Definition rcdata : list string := ["title"; "textarea"].

(** The text up to the end tag of a text-only element. *)
Fixpoint raw_end (name : string) (s : string) : string * option string :=
  if (Str.starts_with_ci ("</" ++ name) s
      && match Str.drop (2 + String.length name) s with
         | String c _ => (html_space c || Ascii.eqb c "/" || Ascii.eqb c ">")%bool
         | EmptyString => false
         end)%bool
  then (EmptyString, Some (Str.drop (2 + String.length name) s))
  else
    match s with
    | EmptyString => (EmptyString, None)
    | String c s' => let (b, a) := raw_end name s' in (String c b, a)
    end.

Fixpoint comment_end (s : string) : string * option string :=
  if Str.starts_with "-->" s then (EmptyString, Some (Str.drop 3 s))
  else if Str.starts_with "--!>" s then (EmptyString, Some (Str.drop 4 s))
  else
    match s with
    | EmptyString => (EmptyString, None)
    | String c s' => let (b, a) := comment_end s' in (String c b, a)
    end.

Definition rest_of (after : option string) : string :=
  match after with Some a => a | None => EmptyString end.

(** Markup begins here: [<] with a letter, [/], [!] or [?] behind it. *)
Definition markup_start (s : string) : bool :=
  match s with
  | String "<" (String c r) =>
      (is_letter c
       || (Ascii.eqb c "/" && negb (String.eqb r EmptyString))
       || Ascii.eqb c "!" || Ascii.eqb c "?")%bool
  | _ => false
  end.

Fixpoint text_run (s : string) : string * string :=
  match s with
  | EmptyString => (EmptyString, EmptyString)
  | String c s' =>
      if markup_start s then (EmptyString, s)
      else let (t, r) := text_run s' in (String c t, r)
  end.

Definition drop_line_feed (s : string) : string :=
  match s with
  | String c r => if Ascii.eqb c LF then r else s
  | EmptyString => s
  end.

Definition bogus (f : nat -> string -> list token) (n : nat) (s : string) : list token :=
  let (data, after) := split_at ">" s in TComment data :: f n (rest_of after).

Fixpoint tokens (fuel : nat) (s : string) : list token :=
  match fuel with
  | O => []
  | S f =>
      match s with
      | EmptyString => []
      | String c0 s0 =>
          if markup_start s then
            match s0 with
            | String c r1 =>
                if is_letter c then
                  let (name0, rest) := take_while tag_name_char s0 in
                  let name := lower name0 in
                  match scan_attrs (S (String.length rest)) rest [] with
                  | None => []
                  | Some (a, after) =>
                      if (member name rawtext || member name rcdata)%bool then
                        let (data, close) := raw_end name after in
                        let text :=
                          if member name rcdata then decode false data else data in
                        let text := if String.eqb name "textarea" then drop_line_feed text
                                    else text in
                        let behind :=
                          match close with
                          | Some t =>
                              match scan_attrs (S (String.length t)) t [] with
                              | Some (_, x) => x
                              | None => EmptyString
                              end
                          | None => EmptyString
                          end in
                        TRaw name a text :: tokens f behind
                      else if String.eqb name "plaintext" then [TRaw name a after]
                      else if (String.eqb name "pre" || String.eqb name "listing")%bool then
                        TOpen name a :: tokens f (drop_line_feed after)
                      else TOpen name a :: tokens f after
                  end
                else if Ascii.eqb c "/" then
                  match r1 with
                  | String d r2 =>
                      if is_letter d then
                        let (name0, rest) := take_while tag_name_char r1 in
                        match scan_attrs (S (String.length rest)) rest [] with
                        | None => []
                        | Some (_, after) => TClose (lower name0) :: tokens f after
                        end
                      else if Ascii.eqb d ">" then tokens f r2
                      else bogus tokens f r1
                  | EmptyString => []
                  end
                else if Str.starts_with "!--" s0 then
                  let body := Str.drop 3 s0 in
                  if Str.starts_with ">" body then TComment EmptyString :: tokens f (Str.drop 1 body)
                  else if Str.starts_with "->" body then
                    TComment EmptyString :: tokens f (Str.drop 2 body)
                  else
                    let (data, after) := comment_end body in
                    TComment data :: tokens f (rest_of after)
                else if Ascii.eqb c "!" then
                  if Str.starts_with_ci "doctype" r1 then
                    TDoctype :: tokens f (rest_of (snd (split_at ">" r1)))
                  else bogus tokens f r1
                else bogus tokens f s0
            | EmptyString => []
            end
          else
            let (t, r) := text_run s0 in
            TText (decode false (String c0 t)) :: tokens f r
      end
  end.

Definition tokenize (s : string) : list token :=
  let s' := newlines s in tokens (S (String.length s')) s'.

(** *** The tree builder *)

Definition void (name : string) : bool :=
  member name
    ["area"; "base"; "basefont"; "bgsound"; "br"; "col"; "embed"; "frame"; "hr"; "img";
     "input"; "keygen"; "link"; "meta"; "param"; "source"; "track"; "wbr"].

Definition special : list string :=
  ["address"; "applet"; "area"; "article"; "aside"; "base"; "basefont"; "bgsound";
   "blockquote"; "body"; "br"; "button"; "caption"; "center"; "col"; "colgroup"; "dd";
   "details"; "dir"; "div"; "dl"; "dt"; "embed"; "fieldset"; "figcaption"; "figure";
   "footer"; "form"; "frame"; "frameset"; "h1"; "h2"; "h3"; "h4"; "h5"; "h6"; "head";
   "header"; "hgroup"; "hr"; "html"; "iframe"; "img"; "input"; "keygen"; "li"; "link";
   "listing"; "main"; "marquee"; "menu"; "meta"; "nav"; "noembed"; "noframes";
   "noscript"; "object"; "ol"; "p"; "param"; "plaintext"; "pre"; "script"; "search";
   "section"; "select"; "source"; "style"; "summary"; "table"; "tbody"; "td";
   "template"; "textarea"; "tfoot"; "th"; "thead"; "title"; "tr"; "track"; "ul"; "wbr";
   "xmp"].

(** Start tags that close an open paragraph. *)
Definition blocks : list string :=
  ["address"; "article"; "aside"; "blockquote"; "center"; "details"; "dialog"; "dir";
   "div"; "dl"; "fieldset"; "figcaption"; "figure"; "footer"; "header"; "hgroup"; "main";
   "menu"; "nav"; "ol"; "p"; "search"; "section"; "summary"; "ul"].

(** End tags that close their element with what is open inside it. *)
Definition block_ends : list string :=
  ["address"; "article"; "aside"; "blockquote"; "button"; "center"; "details"; "dialog";
   "dir"; "div"; "dl"; "fieldset"; "figcaption"; "figure"; "footer"; "header"; "hgroup";
   "listing"; "main"; "menu"; "nav"; "ol"; "pre"; "search"; "section"; "summary"; "ul";
   "applet"; "marquee"; "object"; "form"].

Definition headings : list string := ["h1"; "h2"; "h3"; "h4"; "h5"; "h6"].

Definition implied_tags : list string :=
  ["dd"; "dt"; "li"; "optgroup"; "option"; "p"; "rb"; "rp"; "rt"; "rtc"].

Definition scope : list string :=
  ["applet"; "caption"; "html"; "table"; "td"; "th"; "marquee"; "object"; "template"].

Definition button_scope : list string := "button" :: scope.
Definition item_scope : list string := "ol" :: "ul" :: scope.
Definition table_scope : list string := ["html"; "table"; "template"].

Definition head_tags : list string :=
  ["base"; "basefont"; "bgsound"; "link"; "meta"; "noframes"; "noscript"; "script";
   "style"; "template"; "title"].

Definition table_parts : list string :=
  ["caption"; "col"; "colgroup"; "frame"; "tbody"; "td"; "tfoot"; "th"; "thead"; "tr"].

Definition sections : list string := ["tbody"; "thead"; "tfoot"].
Definition cells : list string := ["td"; "th"].

(** An element under construction: its name, its attributes and the nodes
    collected for its parent so far, latest first.  A machine is the stack
    of the open elements with the nodes collected at the current place. *)
Definition frame : Type := (string * list (string * string) * list node)%type.
Definition machine : Type := (list frame * list node)%type.

Definition current (m : machine) : string :=
  match fst m with
  | (t, _, _) :: _ => t
  | [] => EmptyString
  end.

Definition push (t : string) (a : list (string * string)) (m : machine) : machine :=
  ((t, a, snd m) :: fst m, []).

Definition put (n : node) (m : machine) : machine := (fst m, n :: snd m).

Definition put_text (s : string) (m : machine) : machine :=
  match s with
  | EmptyString => m
  | _ =>
      match snd m with
      | Text t :: rest => (fst m, Text (t ++ s) :: rest)
      | cur => (fst m, Text s :: cur)
      end
  end.

Definition pop (m : machine) : machine :=
  match fst m with
  | (t, a, parent) :: st => (st, Element t a (rev (snd m)) :: parent)
  | [] => m
  end.

Fixpoint close_all (stack : list frame) (cur : list node) : list node :=
  match stack with
  | [] => cur
  | (t, a, parent) :: st => close_all st (Element t a (rev cur) :: parent)
  end.

(** Elements are popped until one of the names has been popped. *)
Fixpoint pop_through (names : list string) (stack : list frame) (cur : list node)
    : machine :=
  match stack with
  | [] => ([], cur)
  | (t, a, parent) :: st =>
      if member t names then (st, Element t a (rev cur) :: parent)
      else pop_through names st (Element t a (rev cur) :: parent)
  end.

Fixpoint in_scope (bounds names : list string) (stack : list frame) : bool :=
  match stack with
  | [] => false
  | (t, _, _) :: st =>
      if member t names then true
      else if member t bounds then false
      else in_scope bounds names st
  end.

Fixpoint implied (except : string) (stack : list frame) (cur : list node) : machine :=
  match stack with
  | (t, a, parent) :: st =>
      if (member t implied_tags && negb (String.eqb t except))%bool
      then implied except st (Element t a (rev cur) :: parent)
      else (stack, cur)
  | [] => ([], cur)
  end.

Definition close (bounds names : list string) (m : machine) : machine :=
  if in_scope bounds names (fst m) then
    let m' := implied (match names with [n] => n | _ => EmptyString end) (fst m) (snd m) in
    pop_through names (fst m') (snd m')
  else m.

Definition close_p (m : machine) : machine := close button_scope ["p"] m.

(** An open list item is closed by the next one, unless a special element
    other than [address], [div] and [p] stands between them. *)
Fixpoint item_open (names : list string) (stack : list frame) : bool :=
  match stack with
  | [] => false
  | (t, _, _) :: st =>
      if member t names then true
      else if (member t special && negb (member t ["address"; "div"; "p"]))%bool then false
      else item_open names st
  end.

Definition close_item (names : list string) (m : machine) : machine :=
  if item_open names (fst m) then
    let m' := implied (match names with [n] => n | _ => EmptyString end) (fst m) (snd m) in
    pop_through names (fst m') (snd m')
  else m.

(** Any other end tag closes the nearest element of its name, unless a
    special element is open inside it. *)
Fixpoint closes (name : string) (stack : list frame) : bool :=
  match stack with
  | [] => false
  | (t, _, _) :: st =>
      if String.eqb t name then true
      else if member t special then false
      else closes name st
  end.

(** One token in the body; [frag] tells that a fragment is read. *)
Definition table_start (frag : bool) (t : string) (a : list (string * string))
    (m : machine) : machine :=
  let cur := current m in
  if member t cells then
    let m1 := close table_scope cells m in
    let c1 := current m1 in
    if String.eqb c1 "tr" then push t a m1
    else if member c1 sections then push t a (push "tr" [] m1)
    else if String.eqb c1 "table" then push t a (push "tr" [] (push "tbody" [] m1))
    else if (frag && String.eqb c1 EmptyString)%bool then push t a m1
    else m1
  else if String.eqb t "tr" then
    let m1 := close table_scope ["tr"] m in
    let c1 := current m1 in
    if member c1 sections then push t a m1
    else if String.eqb c1 "table" then push t a (push "tbody" [] m1)
    else if (frag && String.eqb c1 EmptyString)%bool then push t a m1
    else m1
  else if (member t sections || String.eqb t "caption" || String.eqb t "colgroup")%bool then
    let m1 := close table_scope (sections ++ ["caption"; "colgroup"]) m in
    let c1 := current m1 in
    if (String.eqb c1 "table" || (frag && String.eqb c1 EmptyString))%bool then push t a m1
    else m1
  else if String.eqb t "col" then
    if String.eqb cur "colgroup" then put (Element t a []) m
    else if String.eqb cur "table" then pop (put (Element t a []) (push "colgroup" [] m))
    else if (frag && String.eqb cur EmptyString)%bool then put (Element t a []) m
    else m
  else m.

Definition body_step (frag : bool) (m : machine) (tok : token) : machine :=
  match tok with
  | TText s => put_text s m
  | TComment s => put (Comment s) m
  | TDoctype => m
  | TRaw t a text =>
      let m1 := if String.eqb t "xmp" then close_p m else m in
      put (Element t a (match text with EmptyString => [] | _ => [Text text] end)) m1
  | TOpen t a =>
      if member t ["html"; "head"; "body"; "frameset"] then m
      else if member t table_parts then table_start frag t a m
      else if void t then
        put (Element t a []) (if String.eqb t "hr" then close_p m else m)
      else if member t blocks then push t a (close_p m)
      else if member t headings then
        let m1 := close_p m in
        push t a (if member (current m1) headings then pop m1 else m1)
      else if member t ["pre"; "listing"] then push t a (close_p m)
      else if String.eqb t "form" then
        if existsb (fun f => String.eqb (fst (fst f)) "form") (fst m) then m
        else push t a (close_p m)
      else if String.eqb t "li" then push t a (close_p (close_item ["li"] m))
      else if member t ["dd"; "dt"] then push t a (close_p (close_item ["dd"; "dt"] m))
      else if String.eqb t "button" then push t a (close scope ["button"] m)
      else if String.eqb t "option" then
        push t a (if String.eqb (current m) "option" then pop m else m)
      else if String.eqb t "optgroup" then
        let m1 := if String.eqb (current m) "option" then pop m else m in
        push t a (if String.eqb (current m1) "optgroup" then pop m1 else m1)
      else push t a m
  | TClose t =>
      if member t ["html"; "body"; "head"] then m
      else if String.eqb t "p" then
        if in_scope button_scope ["p"] (fst m) then close_p m
        else put (Element "p" [] []) m
      else if String.eqb t "br" then put (Element "br" [] []) m
      else if member t block_ends then close scope [t] m
      else if String.eqb t "li" then close item_scope ["li"] m
      else if member t ["dd"; "dt"] then close scope [t] m
      else if member t headings then
        if in_scope scope headings (fst m) then
          let m' := implied EmptyString (fst m) (snd m) in
          pop_through headings (fst m') (snd m')
        else m
      else if member t ("table" :: table_parts) then close table_scope [t] m
      else if closes t (fst m) then
        let m' := implied t (fst m) (snd m) in pop_through [t] (fst m') (snd m')
      else m
  end.

Definition finish (m : machine) : list node := rev (close_all (fst m) (snd m)).

(** The content handed to [after], [prepend] and [append]. *)
Definition parse_fragment (s : string) : list node :=
  finish (fold_left (body_step true) (tokenize s) ([], [])).

(** The places of a document a token can go to before the body is open. *)
Inductive mode : Type :=
| Initial | BeforeHtml | BeforeHead | InHead | AfterHead | InBody | AfterBody
| AfterAfterBody.

Record builder : Type := {
  at_mode : mode;
  before_html : list node;
  html_attribs : list (string * string);
  before_head : list node;
  head_attribs : list (string * string);
  head_nodes : list node;
  after_head : list node;
  body_attribs : list (string * string);
  body_nodes : machine;
  after_body : list node;
  after_html : list node
}.

Definition start : builder :=
  {| at_mode := Initial; before_html := []; html_attribs := []; before_head := [];
     head_attribs := []; head_nodes := []; after_head := []; body_attribs := [];
     body_nodes := ([], []); after_body := []; after_html := [] |}.

Definition at_ (m : mode) (b : builder) : builder :=
  {| at_mode := m; before_html := before_html b; html_attribs := html_attribs b;
     before_head := before_head b; head_attribs := head_attribs b;
     head_nodes := head_nodes b; after_head := after_head b;
     body_attribs := body_attribs b; body_nodes := body_nodes b;
     after_body := after_body b; after_html := after_html b |}.

Definition with_before_html (n : node) (b : builder) : builder :=
  {| at_mode := at_mode b; before_html := n :: before_html b;
     html_attribs := html_attribs b;
     before_head := before_head b; head_attribs := head_attribs b;
     head_nodes := head_nodes b; after_head := after_head b;
     body_attribs := body_attribs b; body_nodes := body_nodes b;
     after_body := after_body b; after_html := after_html b |}.

Definition with_html_attribs (a : list (string * string)) (b : builder) : builder :=
  {| at_mode := at_mode b; before_html := before_html b; html_attribs := a;
     before_head := before_head b; head_attribs := head_attribs b;
     head_nodes := head_nodes b; after_head := after_head b;
     body_attribs := body_attribs b; body_nodes := body_nodes b;
     after_body := after_body b; after_html := after_html b |}.

Definition with_before_head (n : node) (b : builder) : builder :=
  {| at_mode := at_mode b; before_html := before_html b; html_attribs := html_attribs b;
     before_head := n :: before_head b; head_attribs := head_attribs b;
     head_nodes := head_nodes b; after_head := after_head b;
     body_attribs := body_attribs b; body_nodes := body_nodes b;
     after_body := after_body b; after_html := after_html b |}.

Definition with_head_attribs (a : list (string * string)) (b : builder) : builder :=
  {| at_mode := at_mode b; before_html := before_html b; html_attribs := html_attribs b;
     before_head := before_head b; head_attribs := a;
     head_nodes := head_nodes b; after_head := after_head b;
     body_attribs := body_attribs b; body_nodes := body_nodes b;
     after_body := after_body b; after_html := after_html b |}.

Definition with_head (f : list node -> list node) (b : builder) : builder :=
  {| at_mode := at_mode b; before_html := before_html b; html_attribs := html_attribs b;
     before_head := before_head b; head_attribs := head_attribs b;
     head_nodes := f (head_nodes b); after_head := after_head b;
     body_attribs := body_attribs b; body_nodes := body_nodes b;
     after_body := after_body b; after_html := after_html b |}.

Definition with_after_head (f : list node -> list node) (b : builder) : builder :=
  {| at_mode := at_mode b; before_html := before_html b; html_attribs := html_attribs b;
     before_head := before_head b; head_attribs := head_attribs b;
     head_nodes := head_nodes b; after_head := f (after_head b);
     body_attribs := body_attribs b; body_nodes := body_nodes b;
     after_body := after_body b; after_html := after_html b |}.

Definition with_body_attribs (a : list (string * string)) (b : builder) : builder :=
  {| at_mode := at_mode b; before_html := before_html b; html_attribs := html_attribs b;
     before_head := before_head b; head_attribs := head_attribs b;
     head_nodes := head_nodes b; after_head := after_head b;
     body_attribs := a; body_nodes := body_nodes b;
     after_body := after_body b; after_html := after_html b |}.

Definition with_body (m : machine) (b : builder) : builder :=
  {| at_mode := at_mode b; before_html := before_html b; html_attribs := html_attribs b;
     before_head := before_head b; head_attribs := head_attribs b;
     head_nodes := head_nodes b; after_head := after_head b;
     body_attribs := body_attribs b; body_nodes := m;
     after_body := after_body b; after_html := after_html b |}.

Definition with_after_body (n : node) (b : builder) : builder :=
  {| at_mode := at_mode b; before_html := before_html b; html_attribs := html_attribs b;
     before_head := before_head b; head_attribs := head_attribs b;
     head_nodes := head_nodes b; after_head := after_head b;
     body_attribs := body_attribs b; body_nodes := body_nodes b;
     after_body := n :: after_body b; after_html := after_html b |}.

Definition with_after_html (n : node) (b : builder) : builder :=
  {| at_mode := at_mode b; before_html := before_html b; html_attribs := html_attribs b;
     before_head := before_head b; head_attribs := head_attribs b;
     head_nodes := head_nodes b; after_head := after_head b;
     body_attribs := body_attribs b; body_nodes := body_nodes b;
     after_body := after_body b; after_html := n :: after_html b |}.

Definition text_onto (s : string) (l : list node) : list node :=
  match s with
  | EmptyString => l
  | _ =>
      match l with
      | Text t :: rest => Text (t ++ s) :: rest
      | _ => Text s :: l
      end
  end.

Definition element_of (tok : token) : list node :=
  match tok with
  | TOpen t a => [Element t a []]
  | TRaw t a text => [Element t a (match text with EmptyString => [] | _ => [Text text] end)]
  | _ => []
  end.

Definition name_of (tok : token) : string :=
  match tok with
  | TOpen t _ | TRaw t _ _ | TClose t => t
  | _ => EmptyString
  end.

Definition is_start (tok : token) : bool :=
  match tok with TOpen _ _ | TRaw _ _ _ => true | _ => false end.

Definition is_end (tok : token) : bool :=
  match tok with TClose _ => true | _ => false end.

(** An attribute the [body] element does not have yet is taken from a
    later [body] tag. *)
Definition merge_attribs (old new : list (string * string)) : list (string * string) :=
  (old ++ filter (fun kv => negb (existsb (fun o => String.eqb (fst o) (fst kv)) old)) new)%list.

(** One token of a document; a token a place cannot take moves the builder
    on and is looked at again, [fuel] bounding the moves. *)
Fixpoint feed (fuel : nat) (b : builder) (tok : token) : builder :=
  match fuel with
  | O => b
  | S f =>
      let t := name_of tok in
      let falls := (is_end tok && member t ["head"; "body"; "html"; "br"])%bool in
      match at_mode b with
      | Initial =>
          match tok with
          | TComment s => with_before_html (Comment s) b
          | TDoctype => at_ BeforeHtml b
          | TText s =>
              match drop_spaces s with
              | EmptyString => b
              | rest => feed f (at_ BeforeHtml b) (TText rest)
              end
          | _ => feed f (at_ BeforeHtml b) tok
          end
      | BeforeHtml =>
          match tok with
          | TComment s => with_before_html (Comment s) b
          | TDoctype => b
          | TText s =>
              match drop_spaces s with
              | EmptyString => b
              | rest => feed f (at_ BeforeHead b) (TText rest)
              end
          | TOpen "html" a => at_ BeforeHead (with_html_attribs a b)
          | TClose _ => if falls then feed f (at_ BeforeHead b) tok else b
          | _ => feed f (at_ BeforeHead b) tok
          end
      | BeforeHead =>
          match tok with
          | TComment s => with_before_head (Comment s) b
          | TDoctype => b
          | TText s =>
              match drop_spaces s with
              | EmptyString => b
              | rest => feed f (at_ InHead b) (TText rest)
              end
          | TOpen "html" _ => b
          | TOpen "head" a => at_ InHead (with_head_attribs a b)
          | TClose _ => if falls then feed f (at_ InHead b) tok else b
          | _ => feed f (at_ InHead b) tok
          end
      | InHead =>
          match tok with
          | TComment s => with_head (cons (Comment s)) b
          | TDoctype => b
          | TText s =>
              let (ws, rest) := take_while html_space s in
              let b1 := with_head (text_onto ws) b in
              match rest with
              | EmptyString => b1
              | _ => feed f (at_ AfterHead b1) (TText rest)
              end
          | TOpen "html" _ => b
          | TOpen "head" _ => b
          | TClose "head" => at_ AfterHead b
          | TClose _ => if falls then feed f (at_ AfterHead b) tok else b
          | _ =>
              if (is_start tok && member t head_tags && negb (String.eqb t "template"))%bool
              then with_head (app (element_of tok)) b
              else feed f (at_ AfterHead b) tok
          end
      | AfterHead =>
          match tok with
          | TComment s => with_after_head (cons (Comment s)) b
          | TDoctype => b
          | TText s =>
              let (ws, rest) := take_while html_space s in
              let b1 := with_after_head (text_onto ws) b in
              match rest with
              | EmptyString => b1
              | _ => feed f (at_ InBody b1) (TText rest)
              end
          | TOpen "html" _ => b
          | TOpen "head" _ => b
          | TOpen "body" a => at_ InBody (with_body_attribs a b)
          | TClose _ => if falls then feed f (at_ InBody b) tok else b
          | _ =>
              if (is_start tok && member t head_tags && negb (String.eqb t "template"))%bool
              then with_head (app (element_of tok)) b
              else feed f (at_ InBody b) tok
          end
      | InBody =>
          match tok with
          | TOpen "body" a =>
              with_body_attribs (merge_attribs (body_attribs b) a) b
          | TClose "body" => at_ AfterBody b
          | TClose "html" => at_ AfterAfterBody b
          | _ => with_body (body_step false (body_nodes b) tok) b
          end
      | AfterBody =>
          match tok with
          | TComment s => with_after_body (Comment s) b
          | TDoctype => b
          | TOpen "html" _ => b
          | TClose "html" => at_ AfterAfterBody b
          | TText s =>
              match drop_spaces s with
              | EmptyString => with_body (body_step false (body_nodes b) tok) b
              | _ => feed f (at_ InBody b) tok
              end
          | _ => feed f (at_ InBody b) tok
          end
      | AfterAfterBody =>
          match tok with
          | TComment s => with_after_html (Comment s) b
          | TDoctype => b
          | TOpen "html" _ => b
          | TText s =>
              match drop_spaces s with
              | EmptyString => with_body (body_step false (body_nodes b) tok) b
              | _ => feed f (at_ InBody b) tok
              end
          | _ => feed f (at_ InBody b) tok
          end
      end
  end.

(** The document a builder has come to: [html] with [head] and [body],
    between what stands before and behind it. *)
Definition document_of (b : builder) : document :=
  (rev (before_html b)
   ++ [Element "html" (html_attribs b)
         (rev (before_head b)
          ++ [Element "head" (head_attribs b) (rev (head_nodes b))]
          ++ rev (after_head b)
          ++ [Element "body" (body_attribs b) (finish (body_nodes b))]
          ++ rev (after_body b))]
   ++ rev (after_html b))%list.

(** [cheerio.load(html)] *)
Definition parse (s : string) : document :=
  document_of (fold_left (feed 8) (tokenize s) start).

(** *** The serialiser *)

Definition no_break_space : string :=
  String (ascii_of_nat 194) (String (ascii_of_nat 160) EmptyString).

Fixpoint escape (in_attr : bool) (s : string) : string :=
  match s with
  | EmptyString => EmptyString
  | String c r =>
      if Ascii.eqb c "&" then "&amp;" ++ escape in_attr r
      else if (negb in_attr && Ascii.eqb c "<")%bool then "&lt;" ++ escape in_attr r
      else if (negb in_attr && Ascii.eqb c ">")%bool then "&gt;" ++ escape in_attr r
      else if (in_attr && Ascii.eqb c (ascii_of_nat 34))%bool then "&quot;" ++ escape in_attr r
      else if Str.starts_with no_break_space s then
        match r with
        | String _ r' => "&nbsp;" ++ escape in_attr r'
        | EmptyString => String c EmptyString
        end
      else String c (escape in_attr r)
  end.

Definition render_attribs (a : list (string * string)) : string :=
  String.concat EmptyString
    (map (fun kv => " " ++ fst kv ++ "=" ++ Placement.quote ++ escape true (snd kv)
                    ++ Placement.quote) a).

(** Elements whose text is written as it is. *)
Definition unescaped : list string :=
  ["style"; "script"; "xmp"; "iframe"; "noembed"; "noframes"; "plaintext"; "noscript"].

Fixpoint render (raw : bool) (n : node) : string :=
  match n with
  | Text s => if raw then s else escape false s
  | Comment s => "<!--" ++ s ++ "-->"
  | Element t a cs =>
      "<" ++ t ++ render_attribs a ++ ">"
      ++ (if void t then EmptyString
          else String.concat EmptyString (map (render (member t unescaped)) cs)
               ++ "</" ++ t ++ ">")
  end.

(** [.html()] of the children of an element that is not text-only, and of
    the root. *)
Definition render_all (l : list node) : string :=
  String.concat EmptyString (map (render false) l).

Definition lib : cheerio :=
  {| load := parse; fragment := parse_fragment; html_of := render_all |}.

End Reference.

(** ** state.ts: the state store *)

Module State.
Import Js.

(** [JSON.stringify(v, null, 2)] and [JSON.parse], built into the platform. *)
Record json : Type := {
  stringify : value -> string;
  parse : string -> completion value
}.

(** The files of the working directory, by path. *)
Definition disk : Type := string -> option string.

Definition write (path content : string) (d : disk) : disk :=
  fun p => if String.eqb p path then Some content else d p.

Definition statePath : string := "data/state.json".

Section Store.
Variable J : json.

(** [export function loadState()]: a missing file and a file that does not
    parse both read as the empty object. *)
Definition loadState (d : disk) : value :=
  match d statePath with
  | None => Obj []
  | Some raw =>
      match parse J raw with
      | Return v => v
      | Throw _ => Obj []
      end
  end.

(** [export function saveState(state)]: the directory is created when
    missing and the file is rewritten whole. *)
Definition saveState (state : value) (d : disk) : disk :=
  write statePath (stringify J state) d.
End Store.

End State.

(** ** A reference JSON printer and reader

    [JsonRef.lib] runs the state store on concrete values: the printer
    follows [JSON.stringify(v, null, 2)] (two-space indentation, fields
    holding [undefined] left out, [undefined] in an array written [null]);
    the reader accepts JSON text whose numbers are integers. *)

Module JsonRef.
Import Js.

Definition nl : string := Placement.nl.
Definition quote : ascii := ascii_of_nat 34.
Definition backslash : ascii := ascii_of_nat 92.

Fixpoint pad (n : nat) : string :=
  match n with
  | O => EmptyString
  | S k => String " " (pad k)
  end.

Definition hex_digit (n : N) : ascii :=
  if N.ltb n 10 then ascii_of_N (48 + n) else ascii_of_N (87 + n).

Fixpoint escaped (s : string) : string :=
  match s with
  | EmptyString => EmptyString
  | String c r =>
      (if Ascii.eqb c quote then String backslash (String quote EmptyString)
       else if Ascii.eqb c backslash then String backslash (String backslash EmptyString)
       else if N.eqb (Str.code c) 8 then String backslash "b"
       else if N.eqb (Str.code c) 9 then String backslash "t"
       else if N.eqb (Str.code c) 10 then String backslash "n"
       else if N.eqb (Str.code c) 12 then String backslash "f"
       else if N.eqb (Str.code c) 13 then String backslash "r"
       else if N.ltb (Str.code c) 32 then
         String backslash
           ("u00" ++ String (hex_digit (N.div (Str.code c) 16))
                       (String (hex_digit (N.modulo (Str.code c) 16)) EmptyString))
       else String c EmptyString)
      ++ escaped r
  end.

Definition quoted (s : string) : string :=
  String quote (escaped s) ++ String quote EmptyString.

Definition decimal (z : Z) : string :=
  DecimalString.NilEmpty.string_of_int (Z.to_int z).

Definition lines (l : list string) : string := String.concat ("," ++ nl) l.

Fixpoint print (ind : nat) (v : value) : string :=
  match v with
  | Undefined | Null => "null"
  | Bool true => "true"
  | Bool false => "false"
  | Num z => decimal z
  | Str s => quoted s
  | Arr items =>
      match items with
      | [] => "[]"
      | _ =>
          "[" ++ nl
          ++ lines (map (fun x => pad (ind + 2) ++ print (ind + 2) x) items)
          ++ nl ++ pad ind ++ "]"
      end
  | Obj fields =>
      match flat_map (fun kv =>
                match kv with
                | (_, Undefined) => []
                | (k, x) => [pad (ind + 2) ++ quoted k ++ ": " ++ print (ind + 2) x]
                end) fields with
      | [] => "{}"
      | shown => "{" ++ nl ++ lines shown ++ nl ++ pad ind ++ "}"
      end
  end.

Definition json_space (c : ascii) : bool :=
  (N.eqb (Str.code c) 32 || N.eqb (Str.code c) 9
   || N.eqb (Str.code c) 10 || N.eqb (Str.code c) 13)%bool.

Fixpoint skip (s : string) : string :=
  match s with
  | String c r => if json_space c then skip r else s
  | EmptyString => EmptyString
  end.

Definition hex_value (c : ascii) : option N :=
  if Str.in_range 48 57 c then Some (Str.code c - 48)%N
  else if Str.in_range 97 102 c then Some (Str.code c - 87)%N
  else if Str.in_range 65 70 c then Some (Str.code c - 55)%N
  else None.

(** The characters of a string literal after its opening quote, and the
    text after its closing quote.  Of the [\u] escapes those of the ASCII
    range are read. *)
Fixpoint string_body (s : string) : option (string * string) :=
  match s with
  | EmptyString => None
  | String c r =>
      if Ascii.eqb c quote then Some (EmptyString, r)
      else if N.ltb (Str.code c) 32 then None
      else if Ascii.eqb c backslash then
        match r with
        | String "u" (String "0" (String "0" (String h (String l r')))) =>
            match hex_value h, hex_value l, string_body r' with
            | Some a, Some b, Some (t, rest) =>
                if N.ltb a 8 then Some (String (ascii_of_N (16 * a + b)) t, rest) else None
            | _, _, _ => None
            end
        | String e r' =>
            let put (x : ascii) :=
              match string_body r' with
              | Some (t, rest) => Some (String x t, rest)
              | None => None
              end in
            if Ascii.eqb e quote then put quote
            else if Ascii.eqb e backslash then put backslash
            else if Ascii.eqb e "/" then put "/"%char
            else if Ascii.eqb e "b" then put (ascii_of_nat 8)
            else if Ascii.eqb e "t" then put (ascii_of_nat 9)
            else if Ascii.eqb e "n" then put (ascii_of_nat 10)
            else if Ascii.eqb e "f" then put (ascii_of_nat 12)
            else if Ascii.eqb e "r" then put (ascii_of_nat 13)
            else None
        | EmptyString => None
        end
      else
        match string_body r with
        | Some (t, rest) => Some (String c t, rest)
        | None => None
        end
  end.

Definition is_digit (c : ascii) : bool := Str.in_range 48 57 c.

Fixpoint digits (acc : Z) (s : string) : Z :=
  match s with
  | EmptyString => acc
  | String c r => digits (10 * acc + Z.of_N (Str.code c - 48)) r
  end.

(** An integer literal: digits without a leading zero, not followed by a
    fraction or an exponent. *)
Definition natural (s : string) : option (Z * string) :=
  let (ds, rest) := Reference.take_while is_digit s in
  match ds, rest with
  | EmptyString, _ => None
  | String "0" (String _ _), _ => None
  | _, String "." _ | _, String "e" _ | _, String "E" _ => None
  | _, _ => Some (digits 0 ds, rest)
  end.

Inductive mode : Type :=
| Value
| Items (acc : list value)
| Fields (acc : list (string * value)).

Fixpoint read (fuel : nat) (m : mode) (s : string) : option (value * string) :=
  match fuel with
  | O => None
  | S f =>
      match m with
      | Value =>
          match skip s with
          | String "[" r =>
              match skip r with
              | String "]" r' => Some (Arr [], r')
              | r' => read f (Items []) r'
              end
          | String "{" r =>
              match skip r with
              | String "}" r' => Some (Obj [], r')
              | r' => read f (Fields []) r'
              end
          | String "-" r =>
              match natural r with
              | Some (z, rest) => Some (Num (- z), rest)
              | None => None
              end
          | String c r =>
              if Ascii.eqb c quote then
                match string_body r with
                | Some (t, rest) => Some (Str t, rest)
                | None => None
                end
              else if Str.starts_with "null" (String c r) then Some (Null, Str.drop 3 r)
              else if Str.starts_with "true" (String c r) then Some (Bool true, Str.drop 3 r)
              else if Str.starts_with "false" (String c r) then Some (Bool false, Str.drop 4 r)
              else
                match natural (String c r) with
                | Some (z, rest) => Some (Num z, rest)
                | None => None
                end
          | EmptyString => None
          end
      | Items acc =>
          match read f Value s with
          | Some (v, rest) =>
              match skip rest with
              | String "," r => read f (Items (v :: acc)) r
              | String "]" r => Some (Arr (rev (v :: acc)), r)
              | _ => None
              end
          | None => None
          end
      | Fields acc =>
          match skip s with
          | String c r =>
              if Ascii.eqb c quote then
                match string_body r with
                | Some (k, rest) =>
                    match skip rest with
                    | String ":" r1 =>
                        match read f Value r1 with
                        | Some (v, rest1) =>
                            match skip rest1 with
                            | String "," r2 => read f (Fields ((k, v) :: acc)) r2
                            | String "}" r2 => Some (Obj (rev ((k, v) :: acc)), r2)
                            | _ => None
                            end
                        | None => None
                        end
                    | _ => None
                    end
                | None => None
                end
              else None
          | EmptyString => None
          end
      end
  end.

Definition parse (s : string) : completion value :=
  match read (2 * String.length s + 2) Value s with
  | Some (v, rest) =>
      match skip rest with
      | EmptyString => Return v
      | _ => Throw "Unexpected token in JSON"
      end
  | None => Throw "Unexpected token in JSON"
  end.

Definition lib : State.json := {| State.stringify := print 0; State.parse := parse |}.

End JsonRef.


(** ** llm.ts: the decision normaliser *)

Module Llm.
Import Js.
Import Placement.

Record WidgetChoiceResult : Type := {
  best_widget_id : string;
  placement_strategy : position_t;
  cta_text : string
}.

(** [function normalizePlacementStrategy(raw)].  The argument is the
    [placement_strategy] field of the parsed answer, whatever its type: on a
    truthy value that is not a string [.toLowerCase] is not a function and
    the call throws a [TypeError]. *)
Definition normalizePlacementStrategy (raw : value) : completion position_t :=
  match or_else raw (Str EmptyString) with
  | Str r =>
      let val := Str.toLowerCase r in
      if (Str.includes "top" val || Str.includes "нач" val)%bool then Return top
      else if (Str.includes "bottom" val || Str.includes "end" val
               || Str.includes "кон" val)%bool then Return bottom
      else Throw ("placement_strategy должен быть top или bottom, а не: " ++ r)
  | _ => Throw "val.toLowerCase is not a function"
  end.

(** The [try] block of [pickWidgetByContent] once [JSON.parse] has returned
    [json], with its [catch], which rethrows every failure under one
    message; [text] is the answer of the model. *)
Definition choice_of_json (text : string) (json : value) : completion WidgetChoiceResult :=
  let attempt :=
    match json with
    | Undefined | Null => Throw "Cannot read properties of null"
    | _ =>
        bind (normalizePlacementStrategy (get json "placement_strategy"))
          (fun placement =>
             match get json "best_widget_id", get json "cta_text" with
             | Str id, Str cta =>
                 Return {| best_widget_id := id;
                           placement_strategy := placement;
                           cta_text := cta |}
             | _, _ => Throw "Некорректный формат ответа LLM"
             end)
    end in
  match attempt with
  | Return r => Return r
  | Throw _ => Throw ("Ошибка парсинга ответа LLM: " ++ text)
  end.

End Llm.

(** ** The collaborators of the drivers *)

Module World.
Import Js.

(** The two sides of a [===] in the drivers: a string, or the object
    [insertWidgetHtml] returns.  An object is never strictly equal to a
    string. *)
Inductive operand : Type :=
| OfString (s : string)
| OfResult (r : Placement.InsertResult).

Definition strict_equal (a b : operand) : bool :=
  match a, b with
  | OfString x, OfString y => String.eqb x y
  | _, _ => false
  end.

(** The widgets handed to the model: all of them, or those of one type. *)
Inductive catalog : Type := all_widgets | webinar | lead_magnet.

(** What a run does that can be seen from outside, in order. *)
Inductive event : Type :=
| Listed (per_page : Z) (page : nat)
| Dispatched (batch : list Z)
| Updated (postId : Z) (content : operand)
| Reported (postId : Z) (changed : bool)
| Failed (postId : Z) (msg : string)
| Saved (state : value).

(** The content source, the model behind [pickWidgetByContent] and the
    widget catalogue behind [getWidgetHtmlById].  [getPost] gives
    [post.content?.rendered || ''] of the post it fetches and [listPosts] the
    identifiers of the page it fetches.  [schedule] is the part of the
    runtime in [Promise.all]: the tasks of a batch run side by side, and for
    the batch dispatched after the events so far it names, step by step,
    the task that moves next (by its place among the tasks that still have
    a step to make). *)
Record world : Type := {
  getPost : Z -> completion string;
  listPosts : Z -> nat -> completion (list Z);
  pickWidgetByContent : catalog -> string -> completion Llm.WidgetChoiceResult;
  getWidgetHtmlById : string -> completion string;
  updatePostContent : Z -> operand -> completion unit;
  schedule : list event -> list nat
}.

End World.

(** ** runOne.ts: the single-article driver *)

Module RunOne.
Import Js.
Import World.
Import Placement.
Import Llm.

Record run : Type := {
  events : list event;
  final_html : option string;
  result : completion unit
}.

Definition failed (msg : string) : run :=
  {| events := []; final_html := None; result := Throw msg |}.

Section Driver.
Variable lib : Dom.cheerio.
Variable w : world.

(** Steps 1 to 3 of [main]: both widgets are chosen on the original text;
    the lead magnet goes in first and the webinar into what that gives. *)
Definition compose (articleText : string) : completion string :=
  bind (pickWidgetByContent w webinar articleText) (fun webinarResult =>
  bind (getWidgetHtmlById w (best_widget_id webinarResult)) (fun webinar_html =>
  bind (pickWidgetByContent w lead_magnet articleText) (fun leadmagnetResult =>
  bind (getWidgetHtmlById w (best_widget_id leadmagnetResult)) (fun leadmagnet_html =>
    let htmlWithBottom :=
      html (insertWidgetHtml lib articleText (best_widget_id leadmagnetResult)
              leadmagnet_html (cta_text leadmagnetResult)
              (placement_strategy leadmagnetResult)) in
    let finalHtml :=
      html (insertWidgetHtml lib htmlWithBottom (best_widget_id webinarResult)
              webinar_html (cta_text webinarResult)
              (placement_strategy webinarResult)) in
    Return finalHtml)))).

(** [async function main()] for [npm run run:one -- <id> [--dry-run]]; a
    rejection ends the process with exit code 1. *)
Definition main (postId : Z) (dryRun : bool) : run :=
  if Z.eqb postId 0 then failed "exit 1"
  else
    match getPost w postId with
    | Throw m => failed m
    | Return articleText =>
        if Nat.leb 2 (countWidgets articleText) then
          {| events := []; final_html := Some articleText; result := Return tt |}
        else
          match compose articleText with
          | Throw m => failed m
          | Return finalHtml =>
              if dryRun then
                {| events := []; final_html := Some finalHtml; result := Return tt |}
              else if String.eqb articleText finalHtml then
                {| events := []; final_html := Some finalHtml; result := Return tt |}
              else
                {| events := [Updated postId (OfString finalHtml)];
                   final_html := Some finalHtml;
                   result := updatePostContent w postId (OfString finalHtml) |}
          end
    end.

End Driver.

End RunOne.

(** ** The batch driver *)

Module Batch.
Import Js.
Import World.
Import Placement.
Import Llm.

(** What [parseArgs] returns.  The numbers are whole numbers, negative ones
    among them: a flag with a fraction, or one that reads as an infinity, is
    outside the model. *)
Record args : Type := {
  dryRun : bool;
  limit : Z;
  par : Z
}.

(** [Number(flag) || fallback] on the whole numbers: [None] is a flag that
    is absent or no number, and zero gives way to the fallback like it; a
    negative number is kept. *)
Definition number_or (flag : option Z) (fallback : Z) : Z :=
  match flag with
  | Some z => if Z.eqb z 0 then fallback else z
  | None => fallback
  end.

(** [function parseArgs()], from the presence of [--dry-run] and the values
    of [--limit=] and [--par=]. *)
Definition parseArgs (dry : bool) (limitFlag parFlag : option Z) : args :=
  {| dryRun := dry; limit := number_or limitFlag 20; par := number_or parFlag 3 |}.

(** [Set<number>] as the list of its members in insertion order;
    membership compares primitive values, and two objects read from a file
    are never the same member. *)
Definition same_value (a b : value) : bool :=
  match a, b with
  | Undefined, Undefined | Null, Null => true
  | Bool x, Bool y => Bool.eqb x y
  | Num x, Num y => Z.eqb x y
  | Str x, Str y => String.eqb x y
  | _, _ => false
  end.

Definition has (s : list value) (v : value) : bool := existsb (same_value v) s.

Definition add (v : value) (s : list value) : list value :=
  if has s v then s else (s ++ [v])%list.

(** The set built from the members of an iterable, first occurrence
    first. *)
Definition set_of (items : list value) : list value :=
  fold_left (fun s v => add v s) items [].

Definition strategy_text (p : position_t) : string :=
  match p with top => "top" | bottom => "bottom" end.

Record outcome : Type := {
  calls : list event;
  answer : completion bool
}.

(** [l.slice(0, n)]: the first [n] members, and all but the last [-n] when
    [n] is negative. *)
Definition slice0 {A} (n : Z) (l : list A) : list A :=
  if Z.leb 0 n then firstn (Z.to_nat n) l
  else firstn (length l - Z.to_nat (- n)) l.

(** [for (let i = 0; i < toProcess.length; i += par) batches.push(...)]
    for a step of at least one. *)
Fixpoint chunks (fuel par : nat) (l : list Z) : list (list Z) :=
  match fuel with
  | O => []
  | S f =>
      match l with
      | [] => []
      | _ => firstn par l :: chunks f par (skipn par l)
      end
  end.

(** The same loop for any step: with a step below one [i] never reaches the
    length of a list that has a member, and the loop does not end. *)
Definition batches_of (par : Z) (l : list Z) : option (list (list Z)) :=
  match l with
  | [] => Some []
  | _ => if Z.leb 1 par then Some (chunks (length l) (Z.to_nat par) l) else None
  end.

(** The [k]-th of the queues that still hold an event gives its first. *)
Fixpoint take (k : nat) (queues : list (list event))
    : option (event * list (list event)) :=
  match queues with
  | [] => None
  | q :: rest =>
      match q with
      | [] => option_map (fun er => (fst er, [] :: snd er)) (take k rest)
      | e :: q' =>
          match k with
          | O => Some (e, q' :: rest)
          | S k' => option_map (fun er => (fst er, q :: snd er)) (take k' rest)
          end
      end
  end.

(** The events of tasks that run side by side, each task keeping the order
    of its own: the picks are followed as far as they go, and what is left
    then runs task after task. *)
Fixpoint interleave (picks : list nat) (queues : list (list event)) : list event :=
  match picks with
  | [] => concat queues
  | k :: ps =>
      match take k queues with
      | Some (e, qs) => e :: interleave ps qs
      | None => interleave ps queues
      end
  end.

Record state : Type := {
  processed : list value;
  totalProcessed : nat;
  page : nat;
  store : State.disk;
  trace : list event
}.

Section Driver.
Variable lib : Dom.cheerio.
Variable J : State.json.
Variable w : world.
Variable a : args.

(** [async function processPost(postId, widgets, dryRun)].  The strategy
    of the answer arrives in the engine as the lead text and the position
    is left to its default; [newHtml] is the object the engine returns. *)
Definition processPost (postId : Z) : outcome :=
  match
    bind (getPost w postId) (fun articleText =>
    bind (pickWidgetByContent w all_widgets articleText) (fun llmResult =>
    bind (getWidgetHtmlById w (best_widget_id llmResult)) (fun embed_html =>
      Return (articleText,
              insertWidgetHtml lib articleText (best_widget_id llmResult) embed_html
                (strategy_text (placement_strategy llmResult)) top))))
  with
  | Throw m => {| calls := []; answer := Throw m |}
  | Return (articleText, newHtml) =>
      if strict_equal (OfString articleText) (OfResult newHtml) then
        {| calls := []; answer := Return false |}
      else if dryRun a then
        {| calls := []; answer := Return true |}
      else
        {| calls := [Updated postId (OfResult newHtml)];
           answer := bind (updatePostContent w postId (OfResult newHtml))
                       (fun _ => Return true) |}
  end.

(** One task of [Promise.all], the [try] with its [catch]: the calls of
    [processPost], then the report and [processed.add], or the failure
    caught. *)
Definition steps (postId : Z) : list event :=
  let r := processPost postId in
  (calls r
   ++ [match answer r with
       | Return changed => Reported postId changed
       | Throw m => Failed postId m
       end])%list.

(** [processed.add(post.id)] comes with the report of a task. *)
Definition settle (s : list value) (e : event) : list value :=
  match e with
  | Reported postId _ => add (Num postId) s
  | _ => s
  end.

Definition log (e : event) (st : state) : state :=
  {| processed := processed st;
     totalProcessed := totalProcessed st;
     page := page st;
     store := store st;
     trace := (trace st ++ [e])%list |}.

(** [await Promise.all(batch.map(...)); totalProcessed += batch.length].
    The tasks of the batch start together and the runtime interleaves
    them. *)
Definition run_batch (st : state) (batch : list Z) : state :=
  let st0 := log (Dispatched batch) st in
  let evs := interleave (schedule w (trace st0)) (map steps batch) in
  {| processed := fold_left settle evs (processed st);
     totalProcessed := totalProcessed st + length batch;
     page := page st;
     store := store st;
     trace := (trace st0 ++ evs)%list |}.

(** [for (const batch of batches)], with the flag [stop] it may raise. *)
Fixpoint run_batches (batches : list (list Z)) (st : state) : state * bool :=
  match batches with
  | [] => (st, false)
  | batch :: rest =>
      let st' := run_batch st batch in
      if Nat.leb 600 (totalProcessed st') then (st', true)
      else run_batches rest st'
  end.

(** [saveState({ processed: Array.from(processed) })] *)
Definition checkpoint (st : state) : state :=
  let s := Obj [("processed", Arr (processed st))] in
  {| processed := processed st;
     totalProcessed := totalProcessed st;
     page := page st;
     store := State.saveState J s (store st);
     trace := (trace st ++ [Saved s])%list |}.

Definition next_page (st : state) : state :=
  {| processed := processed st;
     totalProcessed := totalProcessed st;
     page := S (page st);
     store := store st;
     trace := trace st |}.

(** One turn of the [while] loop: it goes on to the next page, or breaks
    out to the closing save, or the request for the page fails and [main]
    is rejected, or the loop that cuts the batches never ends. *)
Inductive turn_end : Type :=
| Again (stop : bool) (st : state)
| Break (st : state)
| Rejected (st : state) (msg : string)
| Hangs (st : state).

Definition turn (st : state) : turn_end :=
  let st1 := log (Listed (limit a) (page st)) st in
  match listPosts w (limit a) (page st) with
  | Throw m => Rejected st1 m
  | Return posts =>
      match posts with
      | [] => Break st1
      | _ =>
          let toProcess :=
            slice0 (limit a)
              (filter (fun id => negb (has (processed st1) (Num id))) posts) in
          match toProcess with
          | [] => Break st1
          | _ =>
              match batches_of (par a) toProcess with
              | None => Hangs st1
              | Some batches =>
                  let (st2, stop) := run_batches batches st1 in
                  Again stop (checkpoint (next_page st2))
              end
          end
      end
  end.

(** [while (!stop && totalProcessed < 600)], then the closing
    [saveState].  [None] stands for a run without an end: a turn that
    hangs, or a loop cut short by [fuel]. *)
Fixpoint loop (fuel : nat) (stop : bool) (st : state) : option (state * completion unit) :=
  if (negb stop && Nat.ltb (totalProcessed st) 600)%bool then
    match fuel with
    | O => None
    | S f =>
        match turn st with
        | Again stop' st' => loop f stop' st'
        | Break st' => Some (checkpoint st', Return tt)
        | Rejected st' m => Some (st', Throw m)
        | Hangs _ => None
        end
    end
  else Some (checkpoint st, Return tt).

(** [new Set(iterable)]: the members of an array, the characters of a
    string; [null] and [undefined] give the empty set and any other value is
    not iterable. *)
Definition members (v : value) : completion (list value) :=
  match v with
  | Arr items => Return items
  | Str s => Return (map Str (Str.characters s))
  | Undefined | Null => Return []
  | _ => Throw "object is not iterable"
  end.

(** [new Set(state.processed || [])] for the state [loadState] returns; of
    [null] no property can be read. *)
Definition loaded (d : State.disk) : completion (list value) :=
  match State.loadState J d with
  | Null | Undefined => Throw "Cannot read properties of null (reading 'processed')"
  | state =>
      bind (members (or_else (get state "processed") (Arr [])))
        (fun items => Return (set_of items))
  end.

Definition initial (processed0 : list value) (d : State.disk) : state :=
  {| processed := processed0;
     totalProcessed := 0;
     page := 1;
     store := d;
     trace := [] |}.

(** [async function main()]; a state file whose [processed] cannot be
    read or iterated rejects it before the first page. *)
Definition main (d : State.disk) : option (state * completion unit) :=
  match loaded d with
  | Throw m => Some (initial [] d, Throw m)
  | Return processed0 => loop 600 false (initial processed0 d)
  end.

End Driver.

End Batch.

(** ** Text read from files and answers *)

Module Lines.

(** [String.prototype.trim]: white space is taken off both ends.  The end
    is the first place from which only white space follows. *)
Definition trim_start (s : string) : string := Str.drop (Str.spaces s) s.

Fixpoint trim_end (s : string) : string :=
  match s with
  | EmptyString => EmptyString
  | String c r =>
      if Nat.eqb (Str.spaces s) (String.length s) then EmptyString
      else String c (trim_end r)
  end.

Definition trim (s : string) : string := trim_end (trim_start s).

Definition LF : ascii := ascii_of_nat 10.
Definition CR : ascii := ascii_of_nat 13.

Definition onto_head (c : ascii) (l : list string) : list string :=
  match l with
  | h :: t => String c h :: t
  | [] => [String c EmptyString]
  end.

(** [text.split(/\r?\n/)] *)
Fixpoint split_lines (s : string) : list string :=
  match s with
  | EmptyString => [EmptyString]
  | String c r =>
      if Ascii.eqb c LF then EmptyString :: split_lines r
      else
        match r with
        | String d r' =>
            if (Ascii.eqb c CR && Ascii.eqb d LF)%bool then EmptyString :: split_lines r'
            else onto_head c (split_lines r)
        | EmptyString => onto_head c (split_lines r)
        end
  end.

Definition nonempty (s : string) : bool := negb (String.eqb s EmptyString).

(** [readFileSync(path, "utf8").split(/\r?\n/).map(s => s.trim()).filter(Boolean)],
    the list of addresses of checkWidgetPresenceFromList.ts and
    resolveIds.ts. *)
Definition lines_of (text : string) : list string :=
  filter nonempty (map trim (split_lines text)).

End Lines.

(** ** llm.ts: the answer of the model *)

Module LlmAnswer.
Import Js.
Import Llm.

Definition tick : ascii := ascii_of_nat 96.
Definition fence : string := String tick (String tick (String tick EmptyString)).

(** [[\r\n]+]: the number of line ends at the head. *)
Fixpoint line_ends (s : string) : nat :=
  match s with
  | String c r =>
      if (Ascii.eqb c Lines.CR || Ascii.eqb c Lines.LF)%bool then S (line_ends r) else 0
  | EmptyString => 0
  end.

(** [s.replace(/^<opening>[\r\n]+/i, '')] for an opening given in lower
    case. *)
Definition strip_opening (opening s : string) : string :=
  if Str.starts_with_ci opening s then
    let r := Str.drop (String.length opening) s in
    match line_ends r with
    | O => s
    | k => Str.drop k r
    end
  else s.

(** [s.replace(/```\s*$/i, '')]: the text is cut at the first fence after
    which only white space follows. *)
Fixpoint strip_closing (s : string) : string :=
  match s with
  | EmptyString => EmptyString
  | String c r =>
      if (Str.starts_with fence s
          && Nat.eqb (Str.spaces (Str.drop 3 s)) (String.length (Str.drop 3 s)))%bool
      then EmptyString
      else String c (strip_closing r)
  end.

(** The markdown wrapping is taken off the answer. *)
Definition unfence (text : string) : string :=
  strip_closing
    (strip_opening fence
       (strip_opening (fence ++ "json") (Lines.trim text))).

(** [export async function pickWidgetByContent(articleText, widgets)] from
    the completion the model returned: [content] is
    [resp.choices[0]?.message?.content], absent when [None]. *)
Definition pickWidgetByContent (J : State.json) (content : option string)
    : completion WidgetChoiceResult :=
  let text := unfence (match content with Some c => c | None => EmptyString end) in
  match State.parse J text with
  | Return json => choice_of_json text json
  | Throw _ => Throw ("Ошибка парсинга ответа LLM: " ++ text)
  end.

End LlmAnswer.

(** ** placement.ts: the widget catalogue *)

Module Catalog.
Import Js.

(** [export interface WidgetInfo] *)
Record WidgetInfo : Type := {
  id : string;
  type : string;
  topics : list string;
  embed_html : string;
  default_placement : Placement.position_t
}.

(** [export function getWidgetHtmlById(widgetId)] over the widgets read from
    widgets.json. *)
Definition getWidgetHtmlById (widgets : list WidgetInfo) (widgetId : string)
    : completion (string * Placement.position_t) :=
  match find (fun w => String.eqb (id w) widgetId) widgets with
  | Some widget => Return (embed_html widget, default_placement widget)
  | None => Throw ("Виджет с id=" ++ widgetId ++ " не найден в widgets.json")
  end.

End Catalog.

(** ** The maintenance scripts *)

Module Scripts.
Import Js.

(** [type Row] of resolveIds.ts, with the [has_widget] the presence pass
    writes; [id: number | ""] is [None] for the empty string. *)
Record Row : Type := {
  url : string;
  slug : string;
  id : option Z;
  subtype : string;
  endpoint : string;
  has_widget : option bool
}.

(** [row.id] and [row.endpoint] as conditions. *)
Definition has_id (r : Row) : bool :=
  match id r with
  | Some z => negb (Z.eqb z 0)
  | None => false
  end.

Definition has_endpoint (r : Row) : bool := negb (String.eqb (endpoint r) EmptyString).

Definition with_endpoint (r : Row) (e : string) : Row :=
  {| url := url r; slug := slug r; id := id r; subtype := subtype r;
     endpoint := e; has_widget := has_widget r |}.

Definition with_has_widget (r : Row) (b : bool) : Row :=
  {| url := url r; slug := slug r; id := id r; subtype := subtype r;
     endpoint := endpoint r; has_widget := Some b |}.

(** *** fixEndpoints.ts *)

Definition fix_row (row : Row) : Row :=
  if (has_id row && negb (has_endpoint row))%bool then
    with_endpoint row (if String.eqb (subtype row) "page" then "pages" else "posts")
  else row.

Definition fixEndpoints (arr : list Row) : list Row := map fix_row arr.

(** *** The presence pass over article_urls.ids.json *)

Definition word_char (c : ascii) : bool :=
  (Str.in_range 48 57 c || Str.in_range 65 90 c || Str.in_range 97 122 c
   || Ascii.eqb c "_")%bool.

(** [/<!--\s*ai-cta:start id=\w+/i] at the head of the text. *)
Definition widget_marker_at (s : string) : bool :=
  (Str.starts_with_ci "<!--" s
   && let s1 := Str.drop 4 s in
      let s2 := Str.drop (Str.spaces s1) s1 in
      Str.starts_with_ci "ai-cta:start id=" s2
      && match Str.drop 16 s2 with
         | String c _ => word_char c
         | EmptyString => false
         end)%bool.

(** [function hasWidgetMarker(html)] *)
Fixpoint hasWidgetMarker (html : string) : bool :=
  (widget_marker_at html
   || match html with
      | EmptyString => false
      | String _ r => hasWidgetMarker r
      end)%bool.

(** The REST interface the scripts call: [data.content?.rendered] of
    [GET <endpoint>/<id>] and the [POST] of new content. *)
Record rest : Type := {
  rendered : string -> Z -> completion value;
  post_content : string -> Z -> string -> completion unit
}.

(** [async function hasWidget(id, endpoint)] for a row. *)
Definition hasWidget (w : rest) (r : Row) : bool :=
  if (negb (has_id r) || negb (has_endpoint r))%bool then false
  else
    match id r with
    | Some z =>
        match rendered w (endpoint r) z with
        | Return (Str html) => hasWidgetMarker html
        | _ => false
        end
    | None => false
    end.

(** [main] of the presence pass: every row gets its [has_widget]. *)
Definition mark (w : rest) (arr : list Row) : list Row :=
  map (fun row =>
         if (has_id row && has_endpoint row)%bool
         then with_has_widget row (hasWidget w row)
         else with_has_widget row false) arr.

(** *** The pass that strips the end-markers *)

Inductive action : Type :=
| Posted (endpoint : string) (id : Z) (content : string)
| Cleaned (id : Z)
| Skipped (id : Z)
| Errored (id : Z) (msg : string).

(** [async function processOne(id, endpoint)] *)
Definition processOne (w : rest) (id : Z) (endpoint : string) : list action :=
  match rendered w endpoint id with
  | Throw m => [Errored id m]
  | Return v =>
      match or_else v (Str EmptyString) with
      | Str orig =>
          let cleaned := Placement.cleanWpPostContentMarkers orig in
          if negb (String.eqb orig cleaned) then
            match post_content w endpoint id cleaned with
            | Return _ => [Posted endpoint id cleaned; Cleaned id]
            | Throw m => [Posted endpoint id cleaned; Errored id m]
            end
          else [Skipped id]
      | _ => [Errored id "html.replace is not a function"]
      end
  end.

(** Its [main]: the rows with an id and an endpoint, one after the other. *)
Definition clean_all (w : rest) (arr : list Row) : list action :=
  flat_map (fun row =>
              match id row with
              | Some z => processOne w z (endpoint row)
              | None => []
              end)
    (filter (fun r => (has_id r && has_endpoint r)%bool) arr).

(** *** checkWidgetPresence.ts and checkWidgetPresenceFromList.ts *)

Definition WIDGET_PATTERN : string := "https://shkolamasterov.online/pl/lite/widget".

(** [async function checkUrl(url)]; [get] is [axios.get(url).data]. *)
Definition checkUrl (get : string -> completion value) (url : string) : bool :=
  match get url with
  | Return (Str data) => Str.includes WIDGET_PATTERN data
  | _ => false
  end.

(** The results of [main] in checkWidgetPresenceFromList.ts. *)
Definition check_list (get : string -> completion value) (text : string)
    : list (string * bool) :=
  map (fun url => (url, checkUrl get url)) (Lines.lines_of text).

(** *** The re-run of the posts without a widget *)

(** [arr.filter(r => r.has_widget === false && r.id && r.endpoint).map(r => r.id)] *)
Definition missing_ids (arr : list Row) : list Z :=
  flat_map (fun r =>
              match has_widget r, id r with
              | Some false, Some z =>
                  if (has_id r && has_endpoint r)%bool then [z] else []
              | _, _ => []
              end) arr.

(** *** resolveIds.ts *)

(** What the lookups answer: the first post or page of a slug, and the
    entries of a search with their [id], [subtype] and [url]. *)
Record entry : Type := {
  entry_id : Z;
  entry_subtype : string;
  entry_url : option string
}.

Record lookups : Type := {
  toSlug : string -> string;
  byTypeData : string -> string -> completion (option (list Z));
  searchData : string -> completion (option (list entry))
}.

(** [async function byType(type, slug)]: [data[0]] of an array, else
    [null]. *)
Definition byType (l : lookups) (type slug : string) : completion (option Z) :=
  bind (byTypeData l type slug)
    (fun data => Return match data with Some (x :: _) => Some x | _ => None end).

(** [async function bySearch(slug)]: the first entry whose address holds
    [/slug/], else the first entry. *)
Definition bySearch (l : lookups) (slug : string) : completion (option entry) :=
  bind (searchData l slug)
    (fun data =>
       Return
         match data with
         | None => None
         | Some entries =>
             match find (fun x =>
                           match entry_url x with
                           | Some u => Str.includes ("/" ++ slug ++ "/") u
                           | None => false
                           end) entries with
             | Some exact => Some exact
             | None => hd_error entries
             end
         end).

Definition unresolved (u s : string) : Row :=
  {| url := u; slug := s; id := None; subtype := EmptyString;
     endpoint := EmptyString; has_widget := None |}.

(** [async function resolveOne(url)] *)
Definition resolveOne (l : lookups) (u : string) : completion Row :=
  let s := toSlug l u in
  bind (byType l "posts" s) (fun hit =>
    match hit with
    | Some i =>
        Return {| url := u; slug := s; id := Some i; subtype := "post";
                  endpoint := "posts"; has_widget := None |}
    | None =>
        bind (byType l "pages" s) (fun hit =>
          match hit with
          | Some i =>
              Return {| url := u; slug := s; id := Some i; subtype := "page";
                        endpoint := "pages"; has_widget := None |}
          | None =>
              bind (bySearch l s) (fun found =>
                Return
                  match found with
                  | Some e =>
                      if (negb (Z.eqb (entry_id e) 0)
                          && negb (String.eqb (entry_subtype e) EmptyString))%bool
                      then {| url := u; slug := s; id := Some (entry_id e);
                              subtype := entry_subtype e;
                              endpoint := entry_subtype e ++ "s";
                              has_widget := None |}
                      else unresolved u s
                  | None => unresolved u s
                  end)
          end)
    end).

(** The rows [main] collects, a failed lookup giving the empty row. *)
Definition resolve_all (l : lookups) (raw : list string) : list Row :=
  map (fun u =>
         match resolveOne l u with
         | Return row => row
         | Throw _ => unresolved u (toSlug l u)
         end) raw.

(** The lines of the .csv file. *)
Definition csv_field (i : option Z) : string :=
  match i with
  | Some z => DecimalString.NilEmpty.string_of_int (Z.to_int z)
  | None => EmptyString
  end.

Definition csv_line (r : Row) : string :=
  String.concat "," [url r; slug r; csv_field (id r); subtype r; endpoint r].

End Scripts.

(** ** Notions the properties are stated with *)

Module Notions.
Import Js.
Import World.
Import Placement.

(** The lowered text holds a token of the top set, of the bottom set. *)
Definition means_top (r : string) : bool :=
  let val := Str.toLowerCase r in
  (Str.includes "top" val || Str.includes "нач" val)%bool.

Definition means_bottom (r : string) : bool :=
  let val := Str.toLowerCase r in
  (Str.includes "bottom" val || Str.includes "end" val || Str.includes "кон" val)%bool.

(** Text that opens no comment: it holds no [<!] and does not end in [<]. *)
Definition opens_no_comment (s : string) : bool :=
  negb (Str.includes "<!" (s ++ "!")).

(** A full match of the end-marker pattern, whatever follows it. *)
Definition is_marker (m : string) : Prop :=
  forall rest, marker_len (m ++ rest) = Some (String.length m).

(** Pieces of markup with an end-marker before each piece but the first:
    joined as written, and joined without the markers. *)
Fixpoint with_markers (first : string) (rest : list (string * string)) : string :=
  match rest with
  | [] => first
  | (m, piece) :: r => first ++ m ++ with_markers piece r
  end.

Fixpoint without_markers (first : string) (rest : list (string * string)) : string :=
  match rest with
  | [] => first
  | (_, piece) :: r => first ++ without_markers piece r
  end.

(** The engine run [n] times over its own output, with the same widget. *)
Fixpoint insert_times (lib : Dom.cheerio) (n : nat)
    (html0 widgetId widgetHtml ctaText : string) (pos : position_t) : string :=
  match n with
  | O => html0
  | S k =>
      html (insertWidgetHtml lib (insert_times lib k html0 widgetId widgetHtml ctaText pos)
              widgetId widgetHtml ctaText pos)
  end.

(** What a trace shows: the identifiers handed to tasks, how each task
    ended ([true] for a return, [false] for a caught failure), and the
    states written to the store. *)
Definition dispatched (t : list event) : list Z :=
  flat_map (fun e => match e with Dispatched b => b | _ => [] end) t.

Definition settled (t : list event) : list (Z * bool) :=
  flat_map (fun e =>
              match e with
              | Reported id _ => [(id, true)]
              | Failed id _ => [(id, false)]
              | _ => []
              end) t.

Definition saves (t : list event) : list value :=
  flat_map (fun e => match e with Saved s => [s] | _ => [] end) t.

Definition updates (t : list event) : list (Z * operand) :=
  flat_map (fun e => match e with Updated id c => [(id, c)] | _ => [] end) t.

Definition mem (id : Z) (l : list Z) : bool := existsb (Z.eqb id) l.

(** No two members of the list are the same value: the list is a [Set] in
    its insertion order. *)
Fixpoint distinct (l : list value) : bool :=
  match l with
  | [] => true
  | v :: r => (negb (Batch.has r v) && distinct r)%bool
  end.

(** The state [saveState] is called with for a set. *)
Definition state_of (processed : list value) : value :=
  Obj [("processed", Arr processed)].

(** The task of a post returns (and is not caught). *)
Definition returns (lib : Dom.cheerio) (w : world) (a : Batch.args) (id : Z) : bool :=
  match Batch.answer (Batch.processPost lib w a id) with
  | Return _ => true
  | Throw _ => false
  end.

(** The batches the [for] loop gets to run when [total] tasks were counted
    before it: all of them up to and including the one that reaches 600. *)
Fixpoint ran (batches : list (list Z)) (total : nat) : list (list Z) :=
  match batches with
  | [] => []
  | b :: rest =>
      b :: (if Nat.leb 600 (total + length b) then [] else ran rest (total + length b))
  end.

(** The posts of a page that are not in the set, cut at [limit]. *)
Definition fresh (processed : list value) (posts : list Z) (limit : Z) : list Z :=
  Batch.slice0 limit (filter (fun id => negb (Batch.has processed (Num id))) posts).

Definition after (t : Batch.turn_end) : Batch.state :=
  match t with
  | Batch.Again _ st | Batch.Break st | Batch.Rejected st _ | Batch.Hangs st => st
  end.

End Notions.

(** ** Concrete sites and runs *)

Module Cases.
Import Js.
Import World.
Import Placement.
Import Llm.

(** The embed code of a widget of the platform. *)
Definition embed (id : string) : string :=
  "<script src='https://shkolamasterov.online/pl/lite/widget/script.js?id=" ++ id
  ++ "'></script>".

(** A site: the bodies of its posts, its pages and its widget catalogue.
    The model answers with one fixed choice per catalogue and every update
    is accepted. *)
Definition site (body : Z -> completion string)
    (pages : Z -> nat -> completion (list Z))
    (catalogue : string -> completion string) : world :=
  {| getPost := body;
     listPosts := pages;
     pickWidgetByContent := fun c _ =>
       Return
         match c with
         | webinar =>
             {| best_widget_id := "web1"; placement_strategy := top; cta_text := "Join us!" |}
         | lead_magnet =>
             {| best_widget_id := "lm1"; placement_strategy := bottom; cta_text := "Take it!" |}
         | all_widgets =>
             {| best_widget_id := "w1"; placement_strategy := top; cta_text := "Click!" |}
         end;
     getWidgetHtmlById := catalogue;
     updatePostContent := fun _ _ => Return tt;
     schedule := fun _ => [] |}.

Definition ids_from (start : Z) (n : nat) : list Z :=
  map (fun k => (start + Z.of_nat k)%Z) (seq 0 n).

Definition no_files : State.disk := fun _ => None.

(** A source of three posts on one page; post 43 cannot be fetched. *)
Definition three_posts : world :=
  site (fun id => if Z.eqb id 43 then Throw "Request failed with status code 500"
                  else Return "<p>Hello</p>")
       (fun _ page => Return (if Nat.eqb page 1 then [42; 43; 44]%Z else []))
       (fun id => Return (embed id)).

(** The same source with a runtime in which the task of the third post of
    a batch is the first to come to its end. *)
Definition racing_posts : world :=
  {| getPost := getPost three_posts;
     listPosts := listPosts three_posts;
     pickWidgetByContent := pickWidgetByContent three_posts;
     getWidgetHtmlById := getWidgetHtmlById three_posts;
     updatePostContent := updatePostContent three_posts;
     schedule := fun _ => [2] |}.

(** The same source with every post in order. *)
Definition three_good_posts : world :=
  site (fun _ => Return "<p>Hello</p>")
       (fun _ page => Return (if Nat.eqb page 1 then [42; 43; 44]%Z else []))
       (fun id => Return (embed id)).

(** A state file that holds 42. *)
Definition done_42 : State.disk :=
  State.saveState JsonRef.lib (Notions.state_of [Num 42]) no_files.

(** A source of seven pages of 99 posts. *)
Definition seven_pages : world :=
  site (fun _ => Return "Hello")
       (fun per_page page =>
          Return (if Nat.leb page 7
                  then ids_from (Z.of_nat (page - 1) * per_page + 1) (Z.to_nat per_page)
                  else []))
       (fun id => Return (embed id)).

(** A post whose text is what the chosen widget wraps in an [article]. *)
Definition echo_site : world :=
  site (fun _ => Return "Hello")
       (fun _ _ => Return [])
       (fun _ => Return "<article>Hello</article>").

(** A post that already shows one widget. *)
Definition one_widget_post : world :=
  site (fun _ => Return ("<p>Hello</p>" ++ embed "old"))
       (fun _ _ => Return [])
       (fun id => Return (embed id)).

(** A post that already shows two widgets. *)
Definition two_widget_post : world :=
  site (fun _ => Return ("<p>Hello</p>" ++ embed "a" ++ embed "b"))
       (fun _ _ => Return [])
       (fun id => Return (embed id)).

End Cases.

(** ** Further notions *)

Module Measures.
Import Js.
Import World.

(** The pattern matches at some place of the text. *)
Section Somewhere.
Variable match_len : string -> option nat.

Fixpoint matches_somewhere (s : string) : bool :=
  match s with
  | EmptyString => false
  | String _ r =>
      (match match_len s with Some (S _) => true | _ => false end
       || matches_somewhere r)%bool
  end.
End Somewhere.

(** The canonical embed signature the guard counts. *)
Definition signature : string := "shkolamasterov.online/pl/lite/widget".

(** The character occurs in the text. *)
Fixpoint holds (c : ascii) (s : string) : bool :=
  match s with
  | EmptyString => false
  | String x r => (Ascii.eqb x c || holds c r)%bool
  end.

(** The text has no capital letter of Basic Latin. *)
Fixpoint no_capital (p : string) : bool :=
  match p with
  | EmptyString => true
  | String a r => (negb (Str.in_range 65 90 a) && no_capital r)%bool
  end.

(** The last state written, if any. *)
Definition latest (l : list value) : option value :=
  match rev l with
  | s :: _ => Some s
  | [] => None
  end.

(** A printable character of Basic Latin: it is no white space and no part
    of a white-space character. *)
Definition solid (c : ascii) : bool := Str.in_range 33 127 c.

(** The text ends in a printable character. *)
Fixpoint ends_solid (s : string) : bool :=
  match s with
  | EmptyString => false
  | String c EmptyString => solid c
  | String _ r => ends_solid r
  end.

(** A line as an address list has them: it begins and ends with a printable
    character and holds no line feed. *)
Definition clean_line (u : string) : bool :=
  (match u with String c _ => solid c | EmptyString => false end
   && ends_solid u && negb (holds Lines.LF u))%bool.

(** The updates the task of a post sends to the site. *)
Definition sent (lib : Dom.cheerio) (w : world) (a : Batch.args) (id : Z)
    : list (Z * operand) :=
  Notions.updates (Batch.calls (Batch.processPost lib w a id)).

End Measures.

(** * Properties *)

(** ** The decision normaliser *)

Module LlmFacts.
Import Js.
Import Placement.
Import Llm.
Import Notions.

Lemma normalize_string (r : string) :
  normalizePlacementStrategy (Str r) =
  if means_top r then Return top
  else if means_bottom r then Return bottom
  else Throw ("placement_strategy должен быть top или bottom, а не: " ++ r).
Proof.
  unfold normalizePlacementStrategy, or_else, means_top, means_bottom.
  destruct r as [|c r']; reflexivity.
Qed.

(** C6. The normaliser sends "top", "начало" and "Top!!" to [top], sends
    "bottom", "конец" and "end" to [bottom], does so whatever the case of
    the letters, and throws on "middle"; in general it returns [top] exactly
    when the lowered text holds a top token, [bottom] exactly when it holds
    no top token but a bottom token, and throws exactly when it holds
    neither, in which case [pickWidgetByContent] rejects the answer too. *)
Theorem normalizer_synonym_mapping :
  normalizePlacementStrategy (Str "top") = Return top /\
  normalizePlacementStrategy (Str "начало") = Return top /\
  normalizePlacementStrategy (Str "Top!!") = Return top /\
  normalizePlacementStrategy (Str "bottom") = Return bottom /\
  normalizePlacementStrategy (Str "конец") = Return bottom /\
  normalizePlacementStrategy (Str "end") = Return bottom /\
  normalizePlacementStrategy (Str "TOP") = Return top /\
  normalizePlacementStrategy (Str "НАЧАЛО") = Return top /\
  normalizePlacementStrategy (Str "Bottom") = Return bottom /\
  normalizePlacementStrategy (Str "КОНЕЦ") = Return bottom /\
  normalizePlacementStrategy (Str "END") = Return bottom /\
  normalizePlacementStrategy (Str "middle") =
    Throw "placement_strategy должен быть top или bottom, а не: middle" /\
  (forall r,
     match normalizePlacementStrategy (Str r) with
     | Return top => means_top r = true
     | Return bottom => means_top r = false /\ means_bottom r = true
     | Throw _ => means_top r = false /\ means_bottom r = false
     end) /\
  (forall text id cta,
     choice_of_json text
       (Obj [("best_widget_id", Str id); ("placement_strategy", Str "middle");
             ("cta_text", Str cta)])
     = Throw ("Ошибка парсинга ответа LLM: " ++ text)).
Proof.
  repeat (split; [vm_compute; reflexivity|]).
  split.
  - intros r. rewrite normalize_string.
    destruct (means_top r) eqn:Ht; [reflexivity|].
    destruct (means_bottom r) eqn:Hb; split; reflexivity.
  - intros text id cta. reflexivity.
Qed.

End LlmFacts.

(** ** The placement engine *)

Module PlacementFacts.
Import Dom.
Import Placement.
Import Notions.

Lemma append_assoc (a b c : string) : ((a ++ b) ++ c = a ++ (b ++ c))%string.
Proof. induction a as [|x a IH]; simpl; [reflexivity | now rewrite IH]. Qed.

Lemma select_all_app (tag : string) (d1 d2 : document) :
  select_all tag (d1 ++ d2)%list = (select_all tag d1 ++ select_all tag d2)%list.
Proof. apply flat_map_app. Qed.

Lemma some_nil {A} : some (@nil A) = false.
Proof. reflexivity. Qed.

(** *** The scanner of the end-markers *)

Lemma lower_ascii_lt (c : ascii) : Ascii.eqb "<" (Str.lower_ascii c) = true -> c = "<"%char.
Proof.
  destruct c as [[] [] [] [] [] [] [] []]; vm_compute; intro H;
    solve [reflexivity | discriminate H].
Qed.

Lemma lower_ascii_bang (c : ascii) : Ascii.eqb "!" (Str.lower_ascii c) = true -> c = "!"%char.
Proof.
  destruct c as [[] [] [] [] [] [] [] []]; vm_compute; intro H;
    solve [reflexivity | discriminate H].
Qed.

(** A marker begins with [<!]. *)
Lemma marker_len_head (s : string) (n : nat) :
  marker_len s = Some n -> Str.starts_with "<!" s = true.
Proof.
  unfold marker_len.
  destruct (Str.starts_with_ci "<!--" s) eqn:H; [intros _ | intros X; discriminate X].
  destruct s as [|c [|d s]]; cbn [Str.starts_with_ci] in H.
  - discriminate H.
  - apply andb_true_iff in H. destruct H as [_ H]. discriminate H.
  - apply andb_true_iff in H. destruct H as [Hc H].
    apply andb_true_iff in H. destruct H as [Hd _].
    apply lower_ascii_lt in Hc. apply lower_ascii_bang in Hd. subst. reflexivity.
Qed.

Lemma delete_from_keep (c : ascii) (s : string) :
  marker_len (String c s) = None ->
  Str.delete_from marker_len 0 (String c s) = String c (Str.delete_from marker_len 0 s).
Proof. intros H. simpl. rewrite H. reflexivity. Qed.

Lemma delete_from_skip (x rest : string) :
  Str.delete_from marker_len (String.length x) (x ++ rest)
  = Str.delete_from marker_len 0 rest.
Proof.
  induction x as [|c x IH]; simpl.
  - destruct rest; reflexivity.
  - exact IH.
Qed.

Lemma delete_from_plain (s rest : string) :
  opens_no_comment s = true ->
  Str.delete_from marker_len 0 (s ++ rest) = s ++ Str.delete_from marker_len 0 rest.
Proof.
  unfold opens_no_comment. induction s as [|c s IH]; intros H.
  - reflexivity.
  - apply negb_true_iff in H.
    change (Str.includes "<!" (String c (s ++ "!")))
      with (Str.starts_with "<!" (String c (s ++ "!"))
            || Str.includes "<!" (s ++ "!"))%bool in H.
    apply orb_false_iff in H. destruct H as [Hhead Htail].
    change (String c s ++ rest) with (String c (s ++ rest)).
    rewrite delete_from_keep.
    + rewrite IH; [reflexivity | now apply negb_true_iff].
    + destruct (marker_len (String c (s ++ rest))) eqn:Hm; [|reflexivity].
      apply marker_len_head in Hm. exfalso.
      destruct s as [|d s]; cbn [Str.starts_with String.append] in Hm, Hhead.
      * destruct (Ascii.eqb "<" c); [discriminate Hhead|discriminate Hm].
      * destruct (Ascii.eqb "<" c); [|discriminate Hm].
        destruct (Ascii.eqb "!" d); [discriminate Hhead | discriminate Hm].
Qed.

Lemma delete_from_marker (m rest : string) :
  is_marker m ->
  Str.delete_from marker_len 0 (m ++ rest) = Str.delete_from marker_len 0 rest.
Proof.
  intros Hm. destruct m as [|c m].
  - specialize (Hm EmptyString). discriminate Hm.
  - specialize (Hm rest). simpl in *. rewrite Hm. apply delete_from_skip.
Qed.

Lemma canonical_marker : is_marker "<!-- /wp:post-content -->".
Proof. intros rest. reflexivity. Qed.

(** *** The block *)

Lemma delete_from_pieces (first : string) (rest : list (string * string)) (tail : string) :
  opens_no_comment first = true ->
  Forall (fun mp => is_marker (fst mp) /\ opens_no_comment (snd mp) = true) rest ->
  Str.delete_from marker_len 0 (with_markers first rest ++ tail)
  = without_markers first rest ++ Str.delete_from marker_len 0 tail.
Proof.
  revert first. induction rest as [|[m piece] rest IH]; intros first Hf Hrest.
  - cbn [with_markers without_markers]. now apply delete_from_plain.
  - pose proof (Forall_inv Hrest) as [Hm Hp]. cbn [fst snd] in Hm, Hp.
    cbn [with_markers without_markers]. rewrite !append_assoc.
    rewrite (delete_from_plain first) by exact Hf.
    rewrite (delete_from_marker m) by exact Hm.
    rewrite IH; [reflexivity | exact Hp | exact (Forall_inv_tail Hrest)].
Qed.

(** C9, as the engine has it.  The block is passed once through the scanner
    of the wp:post-content end-markers and through nothing else.  For a
    widget identifier, a lead text and pieces of widget markup that open no
    comment, with an end-marker between each two pieces, however many: every
    marker is taken out of the block, and the rest of the block stays as
    written, a contact-form-7 shortcode or a generated form included. *)
Theorem block_recleaned_of_end_markers (widgetId ctaText first : string)
    (rest : list (string * string)) :
  opens_no_comment widgetId = true ->
  opens_no_comment ctaText = true ->
  opens_no_comment first = true ->
  Forall (fun mp => is_marker (fst mp) /\ opens_no_comment (snd mp) = true) rest ->
  block_of widgetId (with_markers first rest) ctaText
  = raw_block widgetId (without_markers first rest) ctaText.
Proof.
  intros Hw Hc Hf Hrest.
  unfold block_of, raw_block, marker_of, Str.delete_all.
  repeat rewrite append_assoc.
  change ("<!-- ai-cta:start id=" ++ widgetId ++ ?r)%string
    with ("<!-- ai-cta:start id=" ++ (widgetId ++ r))%string.
  set (tail := (nl ++ "<!-- ai-cta:end -->")%string).
  assert (Htail : Str.delete_from marker_len 0 tail = tail) by reflexivity.
  assert (Hlit : forall x,
             Str.delete_from marker_len 0 ("<!-- ai-cta:start id=" ++ x)
             = ("<!-- ai-cta:start id=" ++ Str.delete_from marker_len 0 x)%string)
    by (intros x; reflexivity).
  rewrite Hlit.
  rewrite (delete_from_plain widgetId) by exact Hw.
  rewrite (delete_from_plain " -->") by reflexivity.
  rewrite (delete_from_plain nl) by reflexivity.
  rewrite (delete_from_plain "<p class=") by reflexivity.
  rewrite (delete_from_plain quote) by reflexivity.
  rewrite (delete_from_plain "ai-cta-text") by reflexivity.
  rewrite (delete_from_plain quote) by reflexivity.
  rewrite (delete_from_plain ">") by reflexivity.
  rewrite (delete_from_plain ctaText) by exact Hc.
  rewrite (delete_from_plain "</p>") by reflexivity.
  rewrite (delete_from_plain nl) by reflexivity.
  rewrite (delete_from_pieces first rest tail Hf Hrest).
  rewrite Htail. reflexivity.
Qed.

Lemma block_recleaned_of_end_markers_witness :
  let form := "[contact-form-7 id=1]<div class='wpcf7'>form</div>" in
  let script := "<script src='https://shkolamasterov.online/pl/lite/widget/s.js'></script>" in
  block_of "w1"
    (form ++ "<!-- /wp:post-content -->" ++ script ++ "<!--/WP:Post-Content-->" ++ "<b>!</b>"
     ++ "<!--  /wp:post-content  -->")
    "Click!"
  = raw_block "w1" (form ++ script ++ "<b>!</b>") "Click!".
Proof.
  intros form script.
  apply (block_recleaned_of_end_markers "w1" "Click!" form
           [("<!-- /wp:post-content -->", script);
            ("<!--/WP:Post-Content-->", "<b>!</b>");
            ("<!--  /wp:post-content  -->", EmptyString)]);
    try reflexivity.
  repeat constructor; try reflexivity; intros tail; reflexivity.
Defined.

(** C9 as worded fails: a shortcode and a generated form carried by the
    widget markup pass the pre-clean of the document, the cleaning of the
    block and the cleaning of the result, and stand in the output. *)
Lemma block_keeps_contact_form_artifacts :
  let widgetHtml := "[contact-form-7 id=1]<div class='wpcf7'>form</div>" in
  let r := insertWidgetHtml Reference.lib "<p>Hello</p>" "w1" widgetHtml "Click!" top in
  Str.count_all shortcode_len widgetHtml = 1 /\
  Str.count_all shortcode_len (html r) = 1 /\
  html r
  = "<p>Hello</p>" ++ nl ++ "<!-- ai-cta:start id=w1 -->" ++ nl
    ++ "<p class=" ++ quote ++ "ai-cta-text" ++ quote ++ ">Click!</p>" ++ nl
    ++ "[contact-form-7 id=1]<div class=" ++ quote ++ "wpcf7" ++ quote ++ ">form</div>"
    ++ nl ++ "<!-- ai-cta:end -->" ++ nl /\
  placement r = Some {| container := body; position := top; method := afterFirstP |}.
Proof. vm_compute. repeat split; reflexivity. Qed.

(** *** Where the block goes *)









Section Fallback.
Variable lib : cheerio.


(** The scenario of C8, as the engine has it.  When the document inspected
    is the article with its one paragraph, alone or in the [body] that
    [cheerio.load] supplies, the engine hands back the inside of the
    article, the paragraph followed by the block between two line feeds,
    without the [article] tags, and reports [afterFirstP] in the container
    [article]. *)
Theorem top_insertion_scenario (html0 widgetHtml : string) :
  inspected lib html0 = [Element "article" [] [Element "p" [] [Text "Hello"]]] \/
  inspected lib html0
  = [Element "html" []
       [Element "head" [] [];
        Element "body" [] [Element "article" [] [Element "p" [] [Text "Hello"]]]]] ->
  insertWidgetHtml lib html0 "w1" widgetHtml "Click!" top =
  {| html :=
       cleanWpPostContentMarkers
         (html_of lib
            (Element "p" [] [Text "Hello"]
             :: fragment lib (nl ++ block_of "w1" widgetHtml "Click!" ++ nl)));
     placement := Some {| container := article; position := top; method := afterFirstP |} |}.
Proof.
  intros [Hd|Hd]; unfold insertWidgetHtml, place; rewrite Hd;
    cbn; rewrite app_nil_r; reflexivity.
Qed.

End Fallback.



Lemma top_insertion_scenario_witness :
  inspected Reference.lib "<article><p>Hello</p></article>"
  = [Element "html" []
       [Element "head" [] [];
        Element "body" [] [Element "article" [] [Element "p" [] [Text "Hello"]]]]] /\
  insertWidgetHtml Reference.lib "<article><p>Hello</p></article>" "w1" "<div>W</div>"
    "Click!" top =
  {| html :=
       "<p>Hello</p>" ++ nl ++ "<!-- ai-cta:start id=w1 -->" ++ nl
       ++ "<p class=" ++ quote ++ "ai-cta-text" ++ quote ++ ">Click!</p>" ++ nl
       ++ "<div>W</div>" ++ nl ++ "<!-- ai-cta:end -->" ++ nl;
     placement := Some {| container := article; position := top; method := afterFirstP |} |}.
Proof.
  split; [reflexivity|].
  rewrite (top_insertion_scenario Reference.lib "<article><p>Hello</p></article>" "<div>W</div>");
    [reflexivity | right; reflexivity].
Defined.

(** C8 as worded fails: the output of the scenario has the marker after the
    paragraph and [afterFirstP] as method, but neither the opening nor the
    closing [article] tag. *)
Lemma top_insertion_output_has_no_article_tags :
  let r := insertWidgetHtml Reference.lib "<article><p>Hello</p></article>" "w1"
             "<div>W</div>" "Click!" top in
  Str.includes ("<p>Hello</p>" ++ nl ++ "<!-- ai-cta:start id=w1 -->") (html r) = true /\
  Str.includes ("<article><p>Hello</p>" ++ nl ++ "<!-- ai-cta:start id=w1 -->") (html r) = false /\
  Str.includes ("<!-- ai-cta:end -->" ++ nl ++ "</article>") (html r) = false /\
  Str.includes "<article" (html r) = false /\
  Str.includes "</article>" (html r) = false.
Proof. vm_compute. repeat split; reflexivity. Qed.

End PlacementFacts.

(** ** The batch driver *)

Module BatchFacts.
Import Js.
Import World.
Import Batch.
Import Notions.

Lemma dispatched_app (t u : list event) :
  dispatched (t ++ u) = (dispatched t ++ dispatched u)%list.
Proof. apply flat_map_app. Qed.

Lemma settled_app (t u : list event) : settled (t ++ u) = (settled t ++ settled u)%list.
Proof. apply flat_map_app. Qed.

Lemma saves_app (t u : list event) : saves (t ++ u) = (saves t ++ saves u)%list.
Proof. apply flat_map_app. Qed.

Lemma same_value_eq (u v : value) : same_value u v = true -> u = v.
Proof.
  destruct u, v; simpl; try discriminate; intros H; try reflexivity.
  - f_equal. now apply Bool.eqb_prop.
  - f_equal. now apply Z.eqb_eq.
  - f_equal. now apply String.eqb_eq.
Qed.

Lemma has_app (s t : list value) (v : value) : has (s ++ t) v = (has s v || has t v)%bool.
Proof. apply existsb_app. Qed.

Lemma has_add (s : list value) (u v : value) :
  has (add v s) u = (has s u || same_value u v)%bool.
Proof.
  unfold add. destruct (has s v) eqn:Hv.
  - destruct (same_value u v) eqn:Huv.
    + apply same_value_eq in Huv. subst. now rewrite Hv.
    + now rewrite orb_false_r.
  - rewrite has_app. simpl. now rewrite orb_false_r.
Qed.

Lemma has_add_num (s : list value) (i j : Z) :
  has (add (Num j) s) (Num i) = (has s (Num i) || Z.eqb i j)%bool.
Proof. apply has_add. Qed.

(** *** The set in insertion order *)

Lemma same_value_sym (u v : value) : same_value u v = same_value v u.
Proof.
  destruct u, v; simpl; try reflexivity.
  - destruct b, b0; reflexivity.
  - apply Z.eqb_sym.
  - apply String.eqb_sym.
Qed.

Lemma distinct_before (s : list value) (v : value) (r : list value) :
  distinct (s ++ v :: r) = true -> has s v = false.
Proof.
  induction s as [|x s IH]; [reflexivity|].
  cbn [app distinct]. intros H. apply andb_true_iff in H. destruct H as [Hx Hs].
  apply negb_true_iff in Hx. rewrite has_app in Hx. apply orb_false_iff in Hx.
  destruct Hx as [_ Hx]. cbn [has existsb] in Hx. apply orb_false_iff in Hx.
  destruct Hx as [Hxv _].
  cbn [has existsb]. rewrite same_value_sym, Hxv. exact (IH Hs).
Qed.

Lemma distinct_snoc (s : list value) (v : value) :
  distinct s = true -> has s v = false -> distinct (s ++ [v]) = true.
Proof.
  induction s as [|x s IH]; [reflexivity|].
  cbn [app distinct has existsb]. intros H Hv.
  apply andb_true_iff in H. destruct H as [Hx Hs].
  apply orb_false_iff in Hv. destruct Hv as [Hvx Hv].
  apply andb_true_iff. split; [|exact (IH Hs Hv)].
  apply negb_true_iff. rewrite has_app. cbn [has existsb].
  apply negb_true_iff in Hx. rewrite Hx, same_value_sym, Hvx. reflexivity.
Qed.

Lemma distinct_add (v : value) (s : list value) :
  distinct s = true -> distinct (add v s) = true.
Proof.
  intros H. unfold add. destruct (has s v) eqn:E; [exact H|].
  now apply distinct_snoc.
Qed.

Lemma fold_add_distinct (l s : list value) :
  distinct (s ++ l) = true -> fold_left (fun s v => add v s) l s = (s ++ l)%list.
Proof.
  revert s. induction l as [|v l IH]; intros s H.
  - cbn. now rewrite app_nil_r.
  - cbn [fold_left]. unfold add at 2. rewrite (distinct_before s v l H).
    rewrite IH; rewrite <- app_assoc; [reflexivity | exact H].
Qed.

Lemma set_of_distinct (l : list value) : distinct l = true -> set_of l = l.
Proof. intros H. unfold set_of. now rewrite fold_add_distinct. Qed.

Lemma distinct_set_of (l : list value) : distinct (set_of l) = true.
Proof.
  unfold set_of.
  assert (G : forall s, distinct s = true ->
                        distinct (fold_left (fun s v => add v s) l s) = true).
  { induction l as [|v l IH]; intros s H; [exact H|].
    cbn [fold_left]. apply IH. now apply distinct_add. }
  now apply G.
Qed.

(** *** Tasks side by side *)

Lemma take_perm (k : nat) (queues : list (list event)) (e : event)
    (qs : list (list event)) :
  take k queues = Some (e, qs) -> Permutation (concat queues) (e :: concat qs).
Proof.
  revert k e qs. induction queues as [|q rest IH]; intros k e qs H; [discriminate H|].
  cbn [take] in H. destruct q as [|e0 q'].
  - destruct (take k rest) as [[e' qs']|] eqn:T; [|discriminate H].
    cbn in H. injection H as <- <-. cbn [concat app]. now apply (IH k).
  - destruct k as [|k'].
    + injection H as <- <-. reflexivity.
    + destruct (take k' rest) as [[e' qs']|] eqn:T; [|discriminate H].
      cbn in H. injection H as <- <-. cbn [concat].
      apply Permutation_trans with ((e0 :: q') ++ e' :: concat qs')%list.
      * apply Permutation_app_head. now apply (IH k').
      * apply Permutation_sym, Permutation_middle.
Qed.

(** Whatever the picks, the events are those of the tasks. *)
Lemma interleave_perm (picks : list nat) (queues : list (list event)) :
  Permutation (interleave picks queues) (concat queues).
Proof.
  revert queues. induction picks as [|k ps IH]; intros queues; [reflexivity|].
  cbn [interleave]. destruct (take k queues) as [[e qs]|] eqn:T; [|apply IH].
  apply Permutation_trans with (e :: concat qs).
  - constructor. apply IH.
  - apply Permutation_sym. now apply (take_perm k).
Qed.

Lemma existsb_perm {A} (f : A -> bool) (l l' : list A) :
  Permutation l l' -> existsb f l = existsb f l'.
Proof.
  induction 1 as [|x l l' _ IH|x y l|l l' l'' _ IH1 _ IH2]; cbn.
  - reflexivity.
  - now rewrite IH.
  - destruct (f x), (f y); reflexivity.
  - congruence.
Qed.

Lemma flat_map_perm {A B} (f : A -> list B) (l l' : list A) :
  Permutation l l' -> Permutation (flat_map f l) (flat_map f l').
Proof.
  induction 1 as [|x l l' _ IH|x y l|l l' l'' _ IH1 _ IH2]; cbn.
  - reflexivity.
  - now apply Permutation_app_head.
  - rewrite !app_assoc. apply Permutation_app_tail, Permutation_app_comm.
  - now apply Permutation_trans with (flat_map f l').
Qed.

(** The set after the reports of some events. *)
Lemma settle_has (evs : list event) (s : list value) (i : Z) :
  has (fold_left settle evs s) (Num i)
  = (has s (Num i) || existsb (fun p => Z.eqb i (fst p) && snd p) (settled evs))%bool.
Proof.
  revert s. induction evs as [|e evs IH]; intros s.
  - cbn. now rewrite orb_false_r.
  - cbn [fold_left]. rewrite IH. destruct e; cbn [settle settled flat_map app existsb fst snd];
      fold (settled evs); try reflexivity.
    + rewrite has_add_num, andb_true_r. now rewrite orb_assoc.
    + now rewrite andb_false_r.
Qed.

Lemma mem_app (i : Z) (l r : list Z) : mem i (l ++ r) = (mem i l || mem i r)%bool.
Proof. apply existsb_app. Qed.

Section Run.
Variable lib : Dom.cheerio.
Variable J : State.json.
Variable w : world.
Variable a : args.

#[local] Abbreviation processPost := (processPost lib w a).
#[local] Abbreviation steps := (steps lib w a).
#[local] Abbreviation run_batch := (run_batch lib w a).
#[local] Abbreviation run_batches := (run_batches lib w a).
#[local] Abbreviation turn := (turn lib J w a).
#[local] Abbreviation loop := (loop lib J w a).
#[local] Abbreviation returns := (returns lib w a).

(** A task calls nothing but [updatePostContent]. *)
Lemma calls_only_update (id : Z) :
  dispatched (calls (processPost id)) = [] /\
  settled (calls (processPost id)) = [] /\
  saves (calls (processPost id)) = [].
Proof.
  unfold Batch.processPost.
  destruct (bind _ _) as [[articleText newHtml]|m]; [|repeat split].
  destruct (strict_equal _ _); [repeat split|].
  destruct (dryRun a); repeat split.
Qed.

(** A task settles once, by its report or by the failure caught. *)
Lemma steps_trace (id : Z) :
  dispatched (steps id) = [] /\
  settled (steps id) = [(id, returns id)] /\
  saves (steps id) = [].
Proof.
  destruct (calls_only_update id) as (Hd & Hs & Hv).
  unfold Batch.steps, Notions.returns.
  rewrite dispatched_app, settled_app, saves_app, Hd, Hs, Hv.
  destruct (answer _); repeat split.
Qed.

Lemma tasks_trace (batch : list Z) :
  dispatched (concat (map steps batch)) = [] /\
  settled (concat (map steps batch)) = map (fun id => (id, returns id)) batch /\
  saves (concat (map steps batch)) = [].
Proof.
  induction batch as [|id batch (H1 & H2 & H3)]; [repeat split|].
  destruct (steps_trace id) as (T1 & T2 & T3).
  cbn [map concat]. rewrite dispatched_app, settled_app, saves_app.
  rewrite H1, H2, H3, T1, T2, T3. repeat split.
Qed.

Lemma returned_in (i : Z) (batch : list Z) :
  existsb (fun p => Z.eqb i (fst p) && snd p) (map (fun id => (id, returns id)) batch)
  = (mem i batch && returns i)%bool.
Proof.
  induction batch as [|id batch IH]; [reflexivity|].
  cbn [map existsb mem fst snd]. fold (mem i batch). rewrite IH.
  destruct (Z.eqb i id) eqn:E.
  - apply Z.eqb_eq in E. subst id. cbn.
    destruct (returns i), (mem i batch); reflexivity.
  - reflexivity.
Qed.

(** *** One batch, and the batches of a page *)

Lemma run_batch_spec (st : state) (batch : list Z) :
  exists evs,
    trace (run_batch st batch) = (trace st ++ Dispatched batch :: evs)%list /\
    dispatched evs = [] /\
    Permutation (settled evs) (map (fun id => (id, returns id)) batch) /\
    saves evs = [] /\
    totalProcessed (run_batch st batch) = totalProcessed st + length batch /\
    page (run_batch st batch) = page st /\
    store (run_batch st batch) = store st /\
    forall i, has (processed (run_batch st batch)) (Num i)
              = (has (processed st) (Num i) || (mem i batch && returns i))%bool.
Proof.
  unfold Batch.run_batch. cbn [totalProcessed page store trace processed log].
  set (evs := interleave (schedule w (trace st ++ [Dispatched batch])) (map steps batch)).
  pose proof (interleave_perm (schedule w (trace st ++ [Dispatched batch]))
                (map steps batch)) as Hp.
  fold evs in Hp.
  destruct (tasks_trace batch) as (T1 & T2 & T3).
  exists evs. split; [now rewrite <- app_assoc|].
  split.
  { apply Permutation_nil. rewrite <- T1. apply Permutation_sym.
    unfold dispatched. now apply flat_map_perm. }
  split.
  { rewrite <- T2. unfold settled. now apply flat_map_perm. }
  split.
  { apply Permutation_nil. rewrite <- T3. apply Permutation_sym.
    unfold saves. now apply flat_map_perm. }
  repeat split. intros i. rewrite settle_has. f_equal.
  rewrite <- returned_in, <- T2. apply existsb_perm.
  unfold settled. now apply flat_map_perm.
Qed.

Lemma run_batches_spec (batches : list (list Z)) (st : state) :
  let st' := fst (run_batches batches st) in
  let done := concat (ran batches (totalProcessed st)) in
  exists evs,
    trace st' = (trace st ++ evs)%list /\
    dispatched evs = done /\
    Permutation (settled evs) (map (fun id => (id, returns id)) done) /\
    saves evs = [] /\
    totalProcessed st' = totalProcessed st + length done /\
    page st' = page st /\
    store st' = store st /\
    forall i, has (processed st') (Num i)
              = (has (processed st) (Num i) || (mem i done && returns i))%bool.
Proof.
  revert st. induction batches as [|b rest IH]; intros st; cbn zeta.
  - exists []. cbn. rewrite app_nil_r, Nat.add_0_r. repeat split; try reflexivity.
    intros i. now rewrite orb_false_r.
  - cbn [Batch.run_batches ran].
    destruct (run_batch_spec st b) as (evs & B1 & B2 & B3 & B4 & B5 & B6 & B7 & B8).
    rewrite B5.
    destruct (Nat.leb 600 (totalProcessed st + length b)) eqn:Hcap.
    + cbn [fst concat]. rewrite app_nil_r. exists (Dispatched b :: evs).
      cbn [dispatched settled saves flat_map app].
      fold (dispatched evs) (settled evs) (saves evs). rewrite B2, app_nil_r.
      repeat split; assumption.
    + specialize (IH (run_batch st b)). cbn zeta in IH. rewrite B5 in IH.
      destruct IH as (evs' & I1 & I2 & I3 & I4 & I5 & I6 & I7 & I8).
      exists (Dispatched b :: evs ++ evs')%list.
      cbn [concat]. rewrite I1, B1, <- app_assoc. cbn [app].
      split; [reflexivity|].
      cbn [dispatched settled saves flat_map app].
      fold (dispatched (evs ++ evs')) (settled (evs ++ evs')) (saves (evs ++ evs')).
      rewrite dispatched_app, settled_app, saves_app, B2, B4, I2, I4, map_app.
      cbn [app]. split; [reflexivity|].
      split; [now apply Permutation_app|]. split; [reflexivity|].
      rewrite I5, I6, I7, B6, B7, length_app, Nat.add_assoc.
      repeat split. intros i. rewrite I8, B8, mem_app.
      destruct (has (processed st) (Num i)), (mem i b), (returns i),
        (mem i (concat (ran rest (totalProcessed st + length b)))); reflexivity.
Qed.

(** Below the cap the loop over the batches raises no stop. *)
Lemma run_batches_on (batches : list (list Z)) (st : state) :
  totalProcessed st + length (concat batches) < 600 ->
  snd (run_batches batches st) = false.
Proof.
  revert st. induction batches as [|b rest IH]; intros st H; [reflexivity|].
  cbn [Batch.run_batches concat] in *. rewrite length_app in H.
  destruct (run_batch_spec st b) as (evs & _ & _ & _ & _ & B5 & _).
  rewrite B5. destruct (Nat.leb 600 (totalProcessed st + length b)) eqn:E.
  - apply Nat.leb_le in E. lia.
  - apply IH. rewrite B5. lia.
Qed.

(** The count of a page grows with its first batch. *)
Lemma ran_first (b : list Z) (rest : list (list Z)) (total : nat) :
  length b <= length (concat (ran (b :: rest) total)).
Proof. cbn [ran concat]. rewrite length_app. lia. Qed.

(** For a step of at least one the batches cut the list into its pieces. *)
Lemma concat_chunks (par : nat) (l : list Z) (fuel : nat) :
  1 <= par -> length l <= fuel -> concat (chunks fuel par l) = l.
Proof.
  intros Hpar. revert l. induction fuel as [|f IH]; intros l Hl.
  - destruct l; [reflexivity | cbn in Hl; lia].
  - destruct l as [|x l]; [reflexivity|].
    cbn [chunks concat]. rewrite IH.
    + apply firstn_skipn.
    + rewrite length_skipn. cbn [length] in *. lia.
Qed.

(** Below the cap every batch runs. *)
Lemma ran_all (batches : list (list Z)) (total : nat) :
  total + length (concat batches) < 600 -> ran batches total = batches.
Proof.
  revert total. induction batches as [|b rest IH]; intros total H; [reflexivity|].
  cbn [ran concat] in *. rewrite length_app in H.
  destruct (Nat.leb 600 (total + length b)) eqn:E.
  - apply Nat.leb_le in E. lia.
  - f_equal. apply IH. lia.
Qed.

(** What runs is a prefix of the batches. *)
Lemma ran_prefix (batches : list (list Z)) (total : nat) :
  exists rest, batches = (ran batches total ++ rest)%list.
Proof.
  revert total. induction batches as [|b rest IH]; intros total.
  - exists []. reflexivity.
  - cbn [ran]. destruct (Nat.leb 600 (total + length b)).
    + exists rest. reflexivity.
    + destruct (IH (total + length b)) as [r Hr]. exists r. cbn. now rewrite <- Hr.
Qed.

(** *** One turn of the loop *)

Lemma batches_of_some (tp : list Z) (batches : list (list Z)) :
  tp <> [] -> batches_of (par a) tp = Some batches ->
  (1 <= par a)%Z /\ batches = chunks (length tp) (Z.to_nat (par a)) tp.
Proof.
  unfold batches_of. destruct tp as [|x tp]; [congruence|]. intros _.
  destruct (Z.leb 1 (par a)) eqn:E; [|discriminate].
  intros H. injection H as <-. apply Z.leb_le in E. now split.
Qed.

Lemma turn_again (st : state) (stop : bool) (st' : state) :
  turn st = Again stop st' ->
  exists posts evs,
    listPosts w (limit a) (page st) = Return posts /\
    fresh (processed st) posts (limit a) <> [] /\
    (1 <= par a)%Z /\
    let tp := fresh (processed st) posts (limit a) in
    let batches := chunks (length tp) (Z.to_nat (par a)) tp in
    let done := concat (ran batches (totalProcessed st)) in
    trace st'
    = (trace st ++ Listed (limit a) (page st) :: evs
       ++ [Saved (state_of (processed st'))])%list /\
    dispatched evs = done /\
    Permutation (settled evs) (map (fun id => (id, returns id)) done) /\
    saves evs = [] /\
    totalProcessed st' = totalProcessed st + length done /\
    page st' = S (page st) /\
    store st' = State.saveState J (state_of (processed st')) (store st) /\
    stop = snd (run_batches batches (log (Listed (limit a) (page st)) st)) /\
    forall i, has (processed st') (Num i)
              = (has (processed st) (Num i) || (mem i done && returns i))%bool.
Proof.
  unfold Batch.turn. cbn [log processed].
  destruct (listPosts w (limit a) (page st)) as [posts|m]; [|discriminate].
  destruct posts as [|p posts]; [discriminate|].
  fold (fresh (processed st) (p :: posts) (limit a)).
  remember (fresh (processed st) (p :: posts) (limit a)) as tp eqn:Htp.
  destruct tp as [|x tp']; [discriminate|].
  remember (x :: tp') as tp eqn:Hx.
  assert (Hne : tp <> []) by (rewrite Hx; discriminate).
  destruct (batches_of (par a) tp) as [batches|] eqn:Hb; [|discriminate].
  destruct (batches_of_some tp batches Hne Hb) as [Hpar ->].
  set (st1 := log (Listed (limit a) (page st)) st).
  set (batches := chunks (length tp) (Z.to_nat (par a)) tp).
  destruct (run_batches batches st1) as [st2 stop2] eqn:Hrun.
  intros H. injection H as <- <-.
  pose proof (run_batches_spec batches st1) as S. rewrite Hrun in S. cbn [fst] in S.
  cbn zeta in S. destruct S as (evs & S1 & S2 & S3 & S4 & S5 & S6 & S7 & S8).
  subst st1. cbn [log totalProcessed page store trace processed] in *.
  exists (p :: posts), evs.
  split; [reflexivity|]. split; [rewrite <- Htp; exact Hne|]. split; [exact Hpar|].
  cbn [checkpoint next_page trace processed totalProcessed page store snd].
  rewrite <- Htp. cbn zeta. fold batches.
  rewrite S1, <- !app_assoc. cbn [app]. unfold state_of. rewrite S6, S7, Hrun.
  repeat split; assumption.
Qed.

Lemma turn_other (st : state) :
  match turn st with
  | Again _ _ => True
  | Break st' | Rejected st' _ | Hangs st' =>
      processed st' = processed st /\
      totalProcessed st' = totalProcessed st /\
      store st' = store st /\
      trace st' = (trace st ++ [Listed (limit a) (page st)])%list
  end.
Proof.
  unfold Batch.turn.
  destruct (listPosts w (limit a) (page st)) as [posts|m]; [|repeat split].
  destruct posts as [|p posts]; [repeat split|].
  destruct (slice0 _ _); [repeat split|].
  destruct (batches_of _ _); [|repeat split].
  destruct (run_batches _ _). exact I.
Qed.

(** With a step of at least one no turn hangs. *)
Lemma turn_ends (st : state) :
  (1 <= par a)%Z -> match turn st with Hangs _ => False | _ => True end.
Proof.
  intros Hpar. unfold Batch.turn.
  destruct (listPosts w (limit a) (page st)) as [posts|m]; [|exact I].
  destruct posts as [|p posts]; [exact I|].
  destruct (slice0 _ _) as [|x tp]; [exact I|].
  unfold batches_of. apply Z.leb_le in Hpar. rewrite Hpar.
  destruct (run_batches _ _). exact I.
Qed.

(** *** The loop ends *)

Lemma fresh_progress (tp : list Z) (total : nat) :
  (1 <= par a)%Z -> tp <> [] ->
  1 <= length (concat (ran (chunks (length tp) (Z.to_nat (par a)) tp) total)).
Proof.
  intros Hpar Htp. destruct tp as [|x tp]; [contradiction|].
  cbn [length chunks].
  eapply Nat.le_trans; [|apply ran_first].
  destruct (Z.to_nat (par a)) as [|k] eqn:E; [lia|]. cbn. lia.
Qed.

Lemma loop_returns (fuel : nat) (stop : bool) (st : state) :
  (1 <= par a)%Z -> 600 <= fuel + totalProcessed st ->
  exists r, loop fuel stop st = Some r.
Proof.
  intros Hpar. revert stop st.
  induction fuel as [|f IH]; intros stop st Hfuel; cbn [Batch.loop].
  - destruct (negb stop && Nat.ltb (totalProcessed st) 600)%bool eqn:C; [|eauto].
    apply andb_true_iff in C. destruct C as [_ C]. apply Nat.ltb_lt in C. lia.
  - destruct (negb stop && Nat.ltb (totalProcessed st) 600)%bool; [|eauto].
    pose proof (turn_ends st Hpar) as E.
    destruct (turn st) as [stop' st'| | |] eqn:T; [|eauto|eauto|contradiction].
    apply IH.
    destruct (turn_again st stop' st' T)
      as (posts & evs & _ & Hne & _ & _ & _ & _ & _ & Htot & _).
    pose proof (fresh_progress _ (totalProcessed st) Hpar Hne). cbn zeta in Htot. lia.
Qed.

(** A property of the state kept by every turn and by the saves holds at
    the end of the loop. *)
Lemma loop_keeps (P : state -> Prop) :
  (forall st, P st -> P (checkpoint J st)) ->
  (forall st, P st -> P (after (turn st))) ->
  forall fuel stop st r, P st -> loop fuel stop st = Some r -> P (fst r).
Proof.
  intros Hsave Hturn. induction fuel as [|f IH]; intros stop st r HP; cbn [Batch.loop].
  - destruct (negb stop && _)%bool; [discriminate|].
    intros H. injection H as <-. now apply Hsave.
  - destruct (negb stop && _)%bool.
    + specialize (Hturn st HP).
      destruct (turn st) as [stop' st'|st'|st' m|st']; cbn [after] in Hturn.
      * now apply IH.
      * intros H. injection H as <-. now apply Hsave.
      * intros H. injection H as <-. exact Hturn.
      * discriminate.
    + intros H. injection H as <-. now apply Hsave.
Qed.

Lemma loop_saved (fuel : nat) (stop : bool) (st st' : state) (res : completion unit) :
  loop fuel stop st = Some (st', res) ->
  match res with
  | Return _ => exists st0, st' = checkpoint J st0
  | Throw _ => True
  end.
Proof.
  revert stop st. induction fuel as [|f IH]; intros stop st; cbn [Batch.loop].
  - destruct (negb stop && _)%bool; [discriminate|].
    intros H. injection H as <- <-. eauto.
  - destruct (negb stop && _)%bool.
    + destruct (turn st) as [stop1 st1|st1|st1 m|st1].
      * apply IH.
      * intros H. injection H as <- <-. eauto.
      * intros H. injection H as <- <-. exact I.
      * discriminate.
    + intros H. injection H as <- <-. eauto.
Qed.

(** *** What the properties need of a turn *)

Lemma done_in_fresh (tp : list Z) (total : nat) (id : Z) :
  (1 <= par a)%Z ->
  In id (concat (ran (chunks (length tp) (Z.to_nat (par a)) tp) total)) -> In id tp.
Proof.
  intros Hpar Hin.
  destruct (ran_prefix (chunks (length tp) (Z.to_nat (par a)) tp) total) as [rest Hrest].
  rewrite <- (concat_chunks (Z.to_nat (par a)) tp (length tp)); [|lia|lia].
  rewrite Hrest, concat_app. apply in_or_app. now left.
Qed.

Lemma slice0_in {A} (n : Z) (l : list A) (x : A) : In x (slice0 n l) -> In x l.
Proof.
  unfold slice0. destruct (Z.leb 0 n); intros H;
    match type of H with
    | In _ (firstn ?k _) => rewrite <- (firstn_skipn k l); apply in_or_app; now left
    end.
Qed.

Lemma fresh_nil (processed0 : list value) (lim : Z) : fresh processed0 [] lim = [].
Proof. unfold fresh, slice0. cbn [filter]. destruct (Z.leb 0 lim); apply firstn_nil. Qed.

Lemma fresh_not_in (processed0 : list value) (posts : list Z) (lim : Z) (id : Z) :
  In id (fresh processed0 posts lim) -> has processed0 (Num id) = false.
Proof.
  unfold fresh. intros H. apply slice0_in in H. apply filter_In in H.
  destruct H as [_ H]. now apply negb_true_iff.
Qed.

(** Below the cap a turn hands all the posts of the page that are not in
    the set to tasks and goes on. *)
Lemma turn_below_cap (st : state) (posts : list Z) :
  (1 <= par a)%Z ->
  listPosts w (limit a) (page st) = Return posts ->
  fresh (processed st) posts (limit a) <> [] ->
  totalProcessed st + length (fresh (processed st) posts (limit a)) < 600 ->
  exists evs st',
    turn st = Again false st' /\
    trace st'
    = (trace st ++ Listed (limit a) (page st) :: evs
       ++ [Saved (state_of (processed st'))])%list /\
    dispatched evs = fresh (processed st) posts (limit a) /\
    Permutation (settled evs)
      (map (fun id => (id, returns id)) (fresh (processed st) posts (limit a))) /\
    saves evs = [] /\
    (forall i, has (processed st') (Num i)
               = (has (processed st) (Num i)
                  || (mem i (fresh (processed st) posts (limit a)) && returns i))%bool) /\
    store st' State.statePath = Some (State.stringify J (state_of (processed st'))) /\
    page st' = S (page st).
Proof.
  intros Hpar Hposts Hne Hcap.
  assert (Hcc : concat (chunks (length (fresh (processed st) posts (limit a)))
                          (Z.to_nat (par a)) (fresh (processed st) posts (limit a)))
                = fresh (processed st) posts (limit a))
    by (apply concat_chunks; lia).
  destruct (turn st) as [stop st'|st'|st' m|st'] eqn:T.
  - destruct (turn_again st stop st' T)
      as (posts' & evs & Hp & _ & _ & Htr & Hd & Hs & Hv & _ & Hpg & Hst & Hstop & Hhas).
    rewrite Hposts in Hp. injection Hp as <-. cbn zeta in *.
    rewrite ran_all in Hd, Hs, Hhas by (rewrite Hcc; exact Hcap).
    rewrite Hcc in Hd, Hs, Hhas.
    rewrite run_batches_on in Hstop by (cbn [log totalProcessed]; rewrite Hcc; exact Hcap).
    subst stop. exists evs, st'. repeat split; try assumption.
    rewrite Hst. unfold State.saveState, State.write. now rewrite String.eqb_refl.
  - exfalso. revert T. unfold Batch.turn. rewrite Hposts. cbn [log processed].
    destruct posts as [|p posts]; [intros _; apply Hne, fresh_nil|].
    fold (fresh (processed st) (p :: posts) (limit a)).
    destruct (fresh (processed st) (p :: posts) (limit a)) as [|x tp] eqn:E;
      [intros _; now apply Hne|].
    destruct (batches_of _ _); [|discriminate].
    destruct (run_batches _ _). discriminate.
  - exfalso. revert T. unfold Batch.turn. rewrite Hposts.
    destruct posts as [|p posts]; [discriminate|].
    destruct (slice0 _ _); [discriminate|].
    destruct (batches_of _ _); [|discriminate].
    destruct (run_batches _ _). discriminate.
  - pose proof (turn_ends st Hpar) as E. now rewrite T in E.
Qed.

Lemma turn_dispatch_exact (st : state) (posts : list Z) :
  (1 <= par a)%Z ->
  listPosts w (limit a) (page st) = Return posts ->
  totalProcessed st + length (fresh (processed st) posts (limit a)) < 600 ->
  dispatched (trace (after (turn st)))
  = (dispatched (trace st) ++ fresh (processed st) posts (limit a))%list.
Proof.
  intros Hpar Hposts Hcap.
  destruct (fresh (processed st) posts (limit a)) as [|x tp] eqn:Hf.
  - pose proof (turn_other st) as O.
    destruct (turn st) as [stop st'|st'|st' m|st'] eqn:T.
    + destruct (turn_again st stop st' T) as (posts' & evs & Hp & Hne & _).
      rewrite Hposts in Hp. injection Hp as <-. now rewrite Hf in Hne.
    + destruct O as (_ & _ & _ & Htr). cbn [after].
      rewrite Htr, dispatched_app. reflexivity.
    + destruct O as (_ & _ & _ & Htr). cbn [after].
      rewrite Htr, dispatched_app. reflexivity.
    + destruct O as (_ & _ & _ & Htr). cbn [after].
      rewrite Htr, dispatched_app. reflexivity.
  - rewrite <- Hf in *.
    assert (Hne : fresh (processed st) posts (limit a) <> []) by (rewrite Hf; discriminate).
    destruct (turn_below_cap st posts Hpar Hposts Hne Hcap)
      as (evs & st' & T & Htr & Hd & _).
    rewrite T. cbn [after]. rewrite Htr, dispatched_app. cbn [dispatched flat_map].
    fold (dispatched (evs ++ [Saved (state_of (processed st'))])).
    rewrite dispatched_app, Hd. cbn. now rewrite app_nil_r.
Qed.

(** *** What holds of the set throughout a run *)

Section Closed.
Variable P : list value -> Prop.
Hypothesis P_add : forall s id, P s -> P (add (Num id) s).

Lemma settle_closed (evs : list event) (s : list value) :
  P s -> P (fold_left settle evs s).
Proof.
  revert s. induction evs as [|e evs IH]; intros s H; [exact H|].
  cbn [fold_left]. apply IH. destruct e; cbn [settle]; try exact H. now apply P_add.
Qed.

Lemma run_batches_closed (batches : list (list Z)) (st : state) :
  P (processed st) -> P (processed (fst (run_batches batches st))).
Proof.
  revert st. induction batches as [|b rest IH]; intros st H; [exact H|].
  cbn [Batch.run_batches].
  assert (Hb : P (processed (run_batch st b))).
  { unfold Batch.run_batch. cbn [processed]. now apply settle_closed. }
  destruct (Nat.leb 600 (totalProcessed (run_batch st b))); [exact Hb|].
  now apply IH.
Qed.

Lemma turn_closed (st : state) :
  P (processed st) -> P (processed (after (turn st))).
Proof.
  intros H. unfold Batch.turn.
  destruct (listPosts w (limit a) (page st)) as [posts|m]; [|exact H].
  destruct posts as [|p posts]; [exact H|].
  destruct (slice0 _ _) as [|x tp] eqn:E; [exact H|]. rewrite <- E.
  destruct (batches_of _ _) as [batches|]; [|exact H].
  pose proof (run_batches_closed batches (log (Listed (limit a) (page st)) st) H) as C.
  destruct (run_batches _ _) as [st2 stop2]. exact C.
Qed.

Lemma loop_closed (fuel : nat) (stop : bool) (st : state) (r : state * completion unit) :
  P (processed st) -> loop fuel stop st = Some r -> P (processed (fst r)).
Proof.
  apply (loop_keeps (fun st => P (processed st))).
  - intros s H. exact H.
  - intros s H. now apply turn_closed.
Qed.

End Closed.

Lemma loaded_distinct (d : State.disk) (processed0 : list value) :
  loaded J d = Return processed0 -> distinct processed0 = true.
Proof.
  unfold loaded.
  destruct (State.loadState J d); try discriminate;
    (destruct (members _) as [found|m]; [|discriminate]);
    cbn [bind]; intros H; injection H as <-; apply distinct_set_of.
Qed.

Lemma main_distinct (d : State.disk) (r : state * completion unit) :
  main lib J w a d = Some r -> distinct (processed (fst r)) = true.
Proof.
  unfold Batch.main. destruct (loaded J d) as [processed0|m] eqn:L.
  - apply (loop_closed (fun s => distinct s = true)).
    + intros s id. apply distinct_add.
    + cbn [initial processed]. exact (loaded_distinct d processed0 L).
  - intros H. injection H as <-. reflexivity.
Qed.

Lemma main_returns (d : State.disk) :
  (1 <= par a)%Z -> exists r, main lib J w a d = Some r.
Proof.
  intros Hpar. unfold Batch.main. destruct (loaded J d); [|eauto].
  apply loop_returns; [exact Hpar | cbn; lia].
Qed.

End Run.

(** The step is at least one unless [--par] is given as a negative
    number. *)
Lemma parsed_par (dry : bool) (limitFlag parFlag : option Z) :
  (1 <= par (parseArgs dry limitFlag parFlag))%Z
  <-> match parFlag with Some z => (0 <= z)%Z | None => True end.
Proof.
  unfold parseArgs, number_or. cbn [par].
  destruct parFlag as [z|]; [|split; [easy | lia]].
  destruct (Z.eqb z 0) eqn:E; [apply Z.eqb_eq in E | apply Z.eqb_neq in E]; lia.
Qed.

Lemma mem_in (id : Z) (l : list Z) : In id l -> mem id l = true.
Proof.
  intros H. apply existsb_exists. exists id. split; [exact H | apply Z.eqb_refl].
Qed.

(** *** Resumability *)

(** C2, as the driver has it.  For batches of at least one post, a run
    ends, and no identifier it hands to a task is in the set it loaded; in a
    turn that stays below the cap of 600 counted tasks, the posts handed to
    tasks are, in page order, the posts of the page that are not in the set,
    cut by [limit]; the batches are of at least one post unless [--par] is
    negative; and with 42 in the state file a run over the posts 42, 43 and
    44 hands out 43 and 44. *)
Theorem resumable_dispatch :
  (forall lib J w a,
      (1 <= par a)%Z ->
      (forall d, exists st res,
          main lib J w a d = Some (st, res) /\
          match loaded J d with
          | Return processed0 =>
              forallb (fun id => negb (has processed0 (Num id))) (dispatched (trace st))
              = true
          | Throw _ => dispatched (trace st) = []
          end) /\
      (forall st posts,
          listPosts w (limit a) (page st) = Return posts ->
          totalProcessed st + length (fresh (processed st) posts (limit a)) < 600 ->
          dispatched (trace (after (turn lib J w a st)))
          = (dispatched (trace st) ++ fresh (processed st) posts (limit a))%list)) /\
  (forall dry limitFlag parFlag,
      (1 <= par (parseArgs dry limitFlag parFlag))%Z
      <-> match parFlag with Some z => (0 <= z)%Z | None => True end) /\
  (exists st,
      main Reference.lib JsonRef.lib Cases.three_good_posts (parseArgs false None None)
        Cases.done_42 = Some (st, Return tt) /\
      loaded JsonRef.lib Cases.done_42 = Return [Num 42] /\
      dispatched (trace st) = [43; 44]%Z).
Proof.
  split.
  - intros lib J w a Hpar. split.
    + intros d.
      destruct (main_returns lib J w a d Hpar) as [[st res] Hmain].
      exists st, res. split; [exact Hmain|].
      unfold main in Hmain.
      destruct (loaded J d) as [P0|m]; [|injection Hmain as <- _; reflexivity].
      pose (Q := fun st : state =>
                   (forall i, has P0 (Num i) = true -> has (processed st) (Num i) = true) /\
                   forallb (fun id => negb (has P0 (Num id))) (dispatched (trace st)) = true).
      assert (HQ : Q (fst (st, res))).
      { apply (loop_keeps lib J w a Q) with (fuel := 600) (stop := false)
                                            (st := initial P0 d).
        - intros s [Hm Hd]. split; [exact Hm|].
          cbn [checkpoint trace]. rewrite dispatched_app, forallb_app, Hd. reflexivity.
        - intros s [Hm Hd].
          destruct (turn lib J w a s) as [stop' s'|s'|s' m|s'] eqn:T; cbn [after].
          + destruct (turn_again lib J w a s stop' s' T)
              as (posts & evs & _ & _ & _ & Htr & Hdone & _ & _ & _ & _ & _ & _ & Hhas).
            cbn zeta in *. split.
            * intros i Hi. rewrite Hhas, (Hm i Hi). reflexivity.
            * rewrite Htr, dispatched_app, forallb_app, Hd. cbn [dispatched flat_map app].
              fold (dispatched (evs ++ [Saved (state_of (processed s'))])).
              rewrite dispatched_app, forallb_app, Hdone.
              cbn [dispatched flat_map app forallb]. rewrite andb_true_r.
              apply forallb_forall. intros id Hin. apply negb_true_iff.
              apply done_in_fresh in Hin; [|exact Hpar].
              apply fresh_not_in in Hin.
              destruct (has P0 (Num id)) eqn:E; [|reflexivity].
              apply Hm in E. congruence.
          + pose proof (turn_other lib J w a s) as O. rewrite T in O.
            destruct O as (Op & _ & _ & Ot). unfold Q.
            rewrite Op, Ot, dispatched_app, forallb_app, Hd.
            split; [exact Hm | reflexivity].
          + pose proof (turn_other lib J w a s) as O. rewrite T in O.
            destruct O as (Op & _ & _ & Ot). unfold Q.
            rewrite Op, Ot, dispatched_app, forallb_app, Hd.
            split; [exact Hm | reflexivity].
          + pose proof (turn_other lib J w a s) as O. rewrite T in O.
            destruct O as (Op & _ & _ & Ot). unfold Q.
            rewrite Op, Ot, dispatched_app, forallb_app, Hd.
            split; [exact Hm | reflexivity].
        - split; [tauto | reflexivity].
        - exact Hmain. }
      exact (proj2 HQ).
    + intros st posts. now apply turn_dispatch_exact.
  - split; [exact parsed_par|].
    eexists. split; [vm_compute; reflexivity|]. split; vm_compute; reflexivity.
Qed.

Lemma resumable_dispatch_witness :
  let a := parseArgs false None None in
  let st := initial [Num 42] Cases.done_42 in
  (1 <= par a)%Z /\
  listPosts Cases.three_good_posts (limit a) (page st) = Return [42; 43; 44]%Z /\
  totalProcessed st + length (fresh (processed st) [42; 43; 44]%Z (limit a)) < 600 /\
  dispatched (trace (after (turn Reference.lib JsonRef.lib Cases.three_good_posts a st)))
  = [43; 44]%Z.
Proof.
  split; [vm_compute; discriminate|]. split; [reflexivity|]. split; [vm_compute; lia|].
  exact (proj2 (proj1 resumable_dispatch Reference.lib JsonRef.lib Cases.three_good_posts
                  (parseArgs false None None) ltac:(vm_compute; discriminate))
           (initial [Num 42] Cases.done_42) [42; 43; 44]%Z eq_refl
           ltac:(vm_compute; lia)).
Defined.

(** C2 as worded fails at the cap: with pages of 99 posts and batches of 10
    the run stops in the seventh page once 604 tasks are counted, and the
    posts of that page from 605 on, none of them in the set, are handed to
    no task. *)
Lemma dispatch_stops_at_cap :
  match main Reference.lib JsonRef.lib Cases.seven_pages
          (parseArgs true (Some 99%Z) (Some 10%Z)) Cases.no_files with
  | Some (st, res) =>
      res = Return tt /\
      loaded JsonRef.lib Cases.no_files = Return [] /\
      listPosts Cases.seven_pages 99 7 = Return (Cases.ids_from 595 99) /\
      mem 605 (Cases.ids_from 595 99) = true /\
      length (dispatched (trace st)) = 604 /\
      mem 604 (dispatched (trace st)) = true /\
      mem 605 (dispatched (trace st)) = false /\
      has (processed st) (Num 605) = false
  | None => False
  end.
Proof. vm_compute. repeat split; reflexivity. Qed.

(** *** Checkpointing *)

(** C4, as the driver has it.  A turn that goes on to the next page writes
    the set to the store once, after the last of its batches and before the
    next page is asked for: no save stands between its batches.  The set
    then holds what it held before and the identifiers of the tasks of the
    page that returned; a task whose failure was caught leaves its
    identifier out. *)
Theorem checkpoint_once_per_page (lib : Dom.cheerio) (J : State.json) (w : world)
    (a : args) (st : state) (stop : bool) (st' : state) :
  turn lib J w a st = Again stop st' ->
  exists evs,
    trace st'
    = (trace st ++ Listed (limit a) (page st) :: evs
       ++ [Saved (state_of (processed st'))])%list /\
    saves evs = [] /\
    store st' State.statePath = Some (State.stringify J (state_of (processed st'))) /\
    page st' = S (page st) /\
    forall i, has (processed st') (Num i)
              = (has (processed st) (Num i)
                 || (mem i (dispatched evs) && returns lib w a i))%bool.
Proof.
  intros T.
  destruct (turn_again lib J w a st stop st' T)
    as (posts & evs & _ & _ & _ & Htr & Hd & _ & Hs & _ & Hp & Hst & _ & Hhas).
  cbn zeta in *. exists evs. rewrite Hd. repeat split; try assumption.
  rewrite Hst. unfold State.saveState, State.write. now rewrite String.eqb_refl.
Qed.

Lemma checkpoint_once_per_page_witness :
  exists stop st',
    turn Reference.lib JsonRef.lib Cases.three_posts (parseArgs true None (Some 1%Z))
      (initial [] Cases.no_files) = Again stop st' /\
    processed st' = [Num 42; Num 44] /\
    exists evs,
      trace st' = (Listed 20 1 :: evs ++ [Saved (state_of [Num 42; Num 44])])%list /\
      saves evs = [] /\
      dispatched evs = [42; 43; 44]%Z.
Proof.
  destruct (turn Reference.lib JsonRef.lib Cases.three_posts (parseArgs true None (Some 1%Z))
              (initial [] Cases.no_files)) as [stop st'|st'|st' m|st'] eqn:T;
    [|vm_compute in T; discriminate T|vm_compute in T; discriminate T
     |vm_compute in T; discriminate T].
  exists stop, st'. split; [reflexivity|].
  assert (Hp : processed st' = [Num 42; Num 44]).
  { vm_compute in T. injection T as _ <-. reflexivity. }
  split; [exact Hp|].
  destruct (checkpoint_once_per_page _ _ _ _ _ _ _ T) as (evs & Htr & Hs & _ & _ & _).
  exists evs. rewrite Hp in Htr. split; [exact Htr|]. split; [exact Hs|].
  assert (Hd : dispatched (trace st') = [42; 43; 44]%Z).
  { vm_compute in T. injection T as _ <-. reflexivity. }
  rewrite <- Hd, Htr.
  change (dispatched evs
          = dispatched (Listed 20 1 :: evs ++ [Saved (state_of [Num 42; Num 44])])).
  change (dispatched (Listed 20 1 :: evs ++ [Saved (state_of [Num 42; Num 44])]))
    with (dispatched (evs ++ [Saved (state_of [Num 42; Num 44])])).
  rewrite dispatched_app. cbn [dispatched flat_map app]. now rewrite app_nil_r.
Defined.

(** C4 as worded fails twice over: with batches of one post, nothing is
    saved between the three batches, and the post whose task failed is in
    none of the states saved. *)
Lemma checkpoint_follows_page_not_batch :
  match main Reference.lib JsonRef.lib Cases.three_posts
          (parseArgs true None (Some 1%Z)) Cases.no_files with
  | Some (st, _) =>
      trace st
      = [Listed 20 1;
         Dispatched [42%Z]; Reported 42 true;
         Dispatched [43%Z]; Failed 43 "Request failed with status code 500";
         Dispatched [44%Z]; Reported 44 true;
         Saved (state_of [Num 42; Num 44]);
         Listed 20 2;
         Saved (state_of [Num 42; Num 44])]
  | None => False
  end.
Proof. vm_compute. reflexivity. Qed.

(** *** Failure isolation *)

(** C5.  The failure of a task is caught for that task alone.  For batches
    of at least one post: on a page that stays below the cap every post of
    the page that is not in the set and within [limit] is handed to a task,
    batch after batch, whichever tasks fail; every task settles once, by its
    report or by its failure caught, in whatever order the tasks of a batch
    come to their end; the identifiers of the tasks that returned, and only
    those, join the set, which is saved before the run goes on to the next
    page.  Every run ends, every task it dispatched settled, and a run that
    comes to its end leaves the set in the store.  The batches are of at
    least one post unless [--par] is negative.  With batches of one post and
    the post 43 failing, the batch of 44 runs after the failure and the next
    page is asked for; with the three posts in one batch and the task of 44
    ending first, 42 and 44 are kept all the same. *)
Theorem failure_isolation :
  (forall lib J w a,
      (1 <= par a)%Z ->
      (forall st posts,
          listPosts w (limit a) (page st) = Return posts ->
          fresh (processed st) posts (limit a) <> [] ->
          totalProcessed st + length (fresh (processed st) posts (limit a)) < 600 ->
          exists evs st',
            turn lib J w a st = Again false st' /\
            trace st'
            = (trace st ++ Listed (limit a) (page st) :: evs
               ++ [Saved (state_of (processed st'))])%list /\
            dispatched evs = fresh (processed st) posts (limit a) /\
            Permutation (settled evs)
              (map (fun id => (id, returns lib w a id))
                 (fresh (processed st) posts (limit a))) /\
            saves evs = [] /\
            (forall i, has (processed st') (Num i)
                       = (has (processed st) (Num i)
                          || (mem i (fresh (processed st) posts (limit a))
                              && returns lib w a i))%bool) /\
            store st' State.statePath
            = Some (State.stringify J (state_of (processed st'))) /\
            page st' = S (page st)) /\
      (forall d, exists st res,
          main lib J w a d = Some (st, res) /\
          Permutation (settled (trace st))
            (map (fun id => (id, returns lib w a id)) (dispatched (trace st))) /\
          forallb (fun id => implb (returns lib w a id) (has (processed st) (Num id)))
            (dispatched (trace st)) = true /\
          match res with
          | Return _ =>
              last (saves (trace st)) Null = state_of (processed st) /\
              store st State.statePath
              = Some (State.stringify J (state_of (processed st)))
          | Throw _ => True
          end)) /\
  (forall dry limitFlag parFlag,
      (1 <= par (parseArgs dry limitFlag parFlag))%Z
      <-> match parFlag with Some z => (0 <= z)%Z | None => True end) /\
  match main Reference.lib JsonRef.lib Cases.three_posts (parseArgs true None (Some 1%Z))
          Cases.no_files with
  | Some (st, res) =>
      res = Return tt /\
      trace st
      = [Listed 20 1;
         Dispatched [42%Z]; Reported 42 true;
         Dispatched [43%Z]; Failed 43 "Request failed with status code 500";
         Dispatched [44%Z]; Reported 44 true;
         Saved (state_of [Num 42; Num 44]);
         Listed 20 2;
         Saved (state_of [Num 42; Num 44])] /\
      store st State.statePath
      = Some (State.stringify JsonRef.lib (state_of [Num 42; Num 44]))
  | None => False
  end /\
  match main Reference.lib JsonRef.lib Cases.racing_posts (parseArgs true None None)
          Cases.no_files with
  | Some (st, res) =>
      res = Return tt /\
      trace st
      = [Listed 20 1;
         Dispatched [42; 43; 44]%Z;
         Reported 44 true;
         Reported 42 true;
         Failed 43 "Request failed with status code 500";
         Saved (state_of [Num 44; Num 42]);
         Listed 20 2;
         Saved (state_of [Num 44; Num 42])] /\
      store st State.statePath
      = Some (State.stringify JsonRef.lib (state_of [Num 44; Num 42]))
  | None => False
  end.
Proof.
  split; [|split; [exact parsed_par | split; vm_compute; repeat split; reflexivity]].
  intros lib J w a Hpar.
  split.
  { intros st posts Hposts Hne Hcap.
    now apply turn_below_cap. }
  intros d.
  destruct (main_returns lib J w a d Hpar) as [[st res] Hmain].
  exists st, res. split; [exact Hmain|].
  unfold main in Hmain.
  destruct (loaded J d) as [P0|m0];
    [|injection Hmain as <- <-; repeat split; reflexivity].
  pose (R := fun st : state =>
               Permutation (settled (trace st))
                 (map (fun id => (id, returns lib w a id)) (dispatched (trace st))) /\
               forallb (fun id => implb (returns lib w a id) (has (processed st) (Num id)))
                 (dispatched (trace st)) = true).
  assert (Hkeep : forall s e, R s -> settled [e] = [] -> dispatched [e] = [] ->
                  forall s', processed s' = processed s ->
                             trace s' = (trace s ++ [e])%list -> R s').
  { intros s e [Hs Hd] He1 He2 s' Hp Ht. unfold R.
    rewrite Hp, Ht, settled_app, dispatched_app, He1, He2, !app_nil_r. now split. }
  assert (HR : R (fst (st, res))).
  { apply (loop_keeps lib J w a R) with (fuel := 600) (stop := false) (st := initial P0 d).
    - intros s HRs. apply (Hkeep s (Saved (state_of (processed s))) HRs); reflexivity.
    - intros s [Hs Hd].
      destruct (turn lib J w a s) as [stop' s'|s'|s' m|s'] eqn:T; cbn [after].
      + destruct (turn_again lib J w a s stop' s' T)
          as (posts & evs & _ & _ & _ & Htr & Hdone & Hset & _ & _ & _ & _ & _ & Hhas).
        cbn zeta in *.
        assert (Hd' : dispatched (trace s') = (dispatched (trace s) ++ dispatched evs)%list).
        { rewrite Htr, dispatched_app.
          change (dispatched (Listed (limit a) (page s) :: evs
                              ++ [Saved (state_of (processed s'))]))
            with (dispatched (evs ++ [Saved (state_of (processed s'))])).
          rewrite dispatched_app. cbn [dispatched flat_map app]. now rewrite app_nil_r. }
        assert (Hs' : settled (trace s') = (settled (trace s) ++ settled evs)%list).
        { rewrite Htr, settled_app.
          change (settled (Listed (limit a) (page s) :: evs
                           ++ [Saved (state_of (processed s'))]))
            with (settled (evs ++ [Saved (state_of (processed s'))])).
          rewrite settled_app. cbn [settled flat_map app]. now rewrite app_nil_r. }
        unfold R. rewrite Hd', Hs', map_app, Hdone, forallb_app.
        split; [now apply Permutation_app|]. apply andb_true_iff. split.
        * apply forallb_forall. intros id Hin.
          rewrite forallb_forall in Hd. specialize (Hd id Hin).
          rewrite Hhas. destruct (returns lib w a id); [|reflexivity].
          cbn [implb] in *. now rewrite Hd.
        * apply forallb_forall. intros id Hin.
          rewrite Hhas, (mem_in id _ Hin).
          destruct (returns lib w a id); [|reflexivity].
          cbn. now rewrite orb_true_r.
      + pose proof (turn_other lib J w a s) as O. rewrite T in O.
        destruct O as (Op & _ & _ & Ot).
        apply (Hkeep s (Listed (limit a) (page s)) (conj Hs Hd)); try reflexivity;
          assumption.
      + pose proof (turn_other lib J w a s) as O. rewrite T in O.
        destruct O as (Op & _ & _ & Ot).
        apply (Hkeep s (Listed (limit a) (page s)) (conj Hs Hd)); try reflexivity;
          assumption.
      + pose proof (turn_other lib J w a s) as O. rewrite T in O.
        destruct O as (Op & _ & _ & Ot).
        apply (Hkeep s (Listed (limit a) (page s)) (conj Hs Hd)); try reflexivity;
          assumption.
    - split; reflexivity.
    - exact Hmain. }
  destruct HR as [HR1 HR2]. split; [exact HR1|]. split; [exact HR2|].
  pose proof (loop_saved lib J w a 600 false (initial P0 d) st res Hmain) as Hsaved.
  destruct res as [u|m]; [|exact I].
  destruct Hsaved as [st0 ->].
  cbn [checkpoint trace processed store]. rewrite saves_app. cbn [saves flat_map app].
  rewrite last_last. split; [reflexivity|].
  unfold State.saveState, State.write. now rewrite String.eqb_refl.
Qed.

Lemma failure_isolation_witness :
  let a := parseArgs true None (Some 1%Z) in
  let st := initial [] Cases.no_files in
  (1 <= par a)%Z /\
  listPosts Cases.three_posts (limit a) (page st) = Return [42; 43; 44]%Z /\
  fresh (processed st) [42; 43; 44]%Z (limit a) = [42; 43; 44]%Z /\
  exists evs st',
    turn Reference.lib JsonRef.lib Cases.three_posts a st = Again false st' /\
    dispatched evs = [42; 43; 44]%Z /\
    Permutation (settled evs) [(42, true); (43, false); (44, true)]%Z /\
    has (processed st') (Num 42) = true /\
    has (processed st') (Num 43) = false /\
    has (processed st') (Num 44) = true /\
    page st' = 2.
Proof.
  intros a st. split; [vm_compute; discriminate|].
  split; [reflexivity|]. split; [reflexivity|].
  destruct (proj1 (proj1 failure_isolation Reference.lib JsonRef.lib Cases.three_posts
                     a ltac:(vm_compute; discriminate))
              st [42; 43; 44]%Z)
    as (evs & st' & T & _ & Hd & Hs & _ & Hhas & _ & Hp);
    [reflexivity | discriminate | vm_compute; lia |].
  exists evs, st'. split; [exact T|]. split; [exact Hd|]. split; [exact Hs|].
  rewrite !Hhas. repeat split; try reflexivity. exact Hp.
Defined.

End BatchFacts.

(** ** The single-article driver and the step of the batch driver *)

Module DriverFacts.
Import Js.
Import World.
Import Placement.
Import Notions.

(** C1, as the driver has it.  When the text of the post already shows two
    widgets or more, the run picks no widget, runs no insertion and sends no
    update: the post stays as it is.  The count is taken once, on the text
    as fetched; below two the run inserts both of its widgets without
    counting again. *)
Theorem precheck_blocks_insertion (lib : Dom.cheerio) (w : world) (postId : Z)
    (dryRun : bool) (articleText : string) :
  postId <> 0%Z ->
  getPost w postId = Return articleText ->
  2 <= countWidgets articleText ->
  RunOne.main lib w postId dryRun
  = {| RunOne.events := [];
       RunOne.final_html := Some articleText;
       RunOne.result := Return tt |}.
Proof.
  intros Hid Hpost Hcount. unfold RunOne.main.
  destruct (Z.eqb postId 0) eqn:E; [apply Z.eqb_eq in E; contradiction|].
  rewrite Hpost.
  destruct (Nat.leb 2 (countWidgets articleText)) eqn:G; [reflexivity|].
  apply Nat.leb_gt in G. lia.
Qed.

Lemma precheck_blocks_insertion_witness :
  getPost Cases.two_widget_post 42 = Return ("<p>Hello</p>" ++ Cases.embed "a" ++ Cases.embed "b") /\
  countWidgets ("<p>Hello</p>" ++ Cases.embed "a" ++ Cases.embed "b") = 2 /\
  RunOne.main Reference.lib Cases.two_widget_post 42 false
  = {| RunOne.events := [];
       RunOne.final_html := Some ("<p>Hello</p>" ++ Cases.embed "a" ++ Cases.embed "b");
       RunOne.result := Return tt |}.
Proof.
  split; [reflexivity|]. split; [reflexivity|].
  apply (precheck_blocks_insertion Reference.lib Cases.two_widget_post 42 false).
  - discriminate.
  - reflexivity.
  - vm_compute. lia.
Defined.

(** C1 as worded fails below the cap.  A text without any widget passes
    the pre-check and three runs of the engine with one widget leave three
    instances; a post with one widget passes the pre-check and one run of
    the driver, which inserts its two widgets, sends an update with three. *)
Lemma cap_exceeded_below_precheck :
  (countWidgets "<p>Hello</p>" = 0 /\
   countWidgets (Cases.embed "w1") = 1 /\
   countWidgets
     (insert_times Reference.lib 3 "<p>Hello</p>" "w1" (Cases.embed "w1") "Click!" bottom)
   = 3) /\
  (exists articleText finalHtml,
      getPost Cases.one_widget_post 42 = Return articleText /\
      countWidgets articleText = 1 /\
      RunOne.events (RunOne.main Reference.lib Cases.one_widget_post 42 false)
      = [Updated 42 (OfString finalHtml)] /\
      countWidgets finalHtml = 3).
Proof.
  split; [vm_compute; repeat split; reflexivity|].
  eexists. eexists. split; [reflexivity|].
  split; [vm_compute; reflexivity|].
  split; vm_compute; reflexivity.
Qed.

(** C3 against [processPost].  The step compares the text of the post with
    the object the engine returns, which is never strictly equal to a
    string: it never answers [changed: false].  For the post "Hello" and a
    widget whose markup is that text in an [article] the engine hands back
    "Hello", byte for byte the input, and the step still reports a change
    and calls [updatePostContent], with the object.  The single-article
    driver, which compares the [html] of the results, sends nothing for the
    same post. *)
Theorem process_post_never_unchanged :
  (forall lib w a postId,
      match Batch.answer (Batch.processPost lib w a postId) with
      | Return false => False
      | _ => True
      end) /\
  (let r := insertWidgetHtml Reference.lib "Hello" "w1" "<article>Hello</article>" "top" top in
   getPost Cases.echo_site 42 = Return "Hello" /\
   html r = "Hello" /\
   Batch.processPost Reference.lib Cases.echo_site (Batch.parseArgs false None None) 42
   = {| Batch.calls := [Updated 42 (OfResult r)]; Batch.answer := Return true |} /\
   RunOne.main Reference.lib Cases.echo_site 42 false
   = {| RunOne.events := [];
        RunOne.final_html := Some "Hello";
        RunOne.result := Return tt |}).
Proof.
  split.
  - intros lib w a postId. unfold Batch.processPost.
    destruct (bind _ _) as [[articleText newHtml]|m]; [|exact I].
    cbn [strict_equal].
    destruct (Batch.dryRun a); cbn [Batch.answer]; [exact I|].
    destruct (updatePostContent w postId (OfResult newHtml)); exact I.
  - vm_compute. repeat split; reflexivity.
Qed.

End DriverFacts.

(** ** The state store *)

Module StateFacts.
Import Js.
Import State.

Lemma read_written (path content : string) (d : disk) :
  write path content d path = Some content.
Proof. unfold write. now rewrite String.eqb_refl. Qed.

(** A missing state file and one that does not parse read as the empty
    object. *)
Lemma load_missing (J : json) (d : disk) : d statePath = None -> loadState J d = Obj [].
Proof. intros H. unfold loadState. now rewrite H. Qed.

Lemma load_corrupt (J : json) (d : disk) (raw msg : string) :
  d statePath = Some raw -> parse J raw = Throw msg -> loadState J d = Obj [].
Proof. intros H P. unfold loadState. now rewrite H, P. Qed.

(** C10.  What [saveState] wrote, [loadState] reads back: for every value
    that [JSON.parse] recovers from its own [JSON.stringify] text, loading
    after saving gives the value saved, whatever the store held before, and
    a later save replaces an earlier one.  So the set a run of the batch
    driver ends with is, member for member and in the same order, the set
    the next run starts from. *)
Theorem state_round_trip (J : json) (s : value) (d : disk) :
  parse J (stringify J s) = Return s ->
  loadState J (saveState J s d) = s /\
  (forall s0, loadState J (saveState J s (saveState J s0 d)) = s) /\
  (forall lib w a d0 st res,
      Batch.main lib J w a d0 = Some (st, Return res) ->
      s = Notions.state_of (Batch.processed st) ->
      Batch.loaded J (Batch.store st) = Return (Batch.processed st)).
Proof.
  intros H.
  assert (R : forall d', loadState J (saveState J s d') = s).
  { intros d'. unfold loadState, saveState. now rewrite read_written, H. }
  split; [apply R|]. split; [intros s0; apply R|].
  intros lib w a d0 st res Hmain Hs.
  pose proof (BatchFacts.main_distinct lib J w a d0 _ Hmain) as Hd. cbn [fst] in Hd.
  assert (Hst0 : exists st0, st = Batch.checkpoint J st0).
  { unfold Batch.main in Hmain. destruct (Batch.loaded J d0); [|discriminate Hmain].
    exact (BatchFacts.loop_saved lib J w a _ _ _ _ _ Hmain). }
  destruct Hst0 as [st0 Hst0].
  subst st. cbn [Batch.checkpoint Batch.processed Batch.store] in *.
  unfold Batch.loaded.
  change (Obj [("processed", Arr (Batch.processed st0))])
    with (Notions.state_of (Batch.processed st0)).
  rewrite <- Hs, R, Hs. cbn.
  now rewrite BatchFacts.set_of_distinct.
Qed.

Lemma state_round_trip_witness :
  let s := Notions.state_of [Num 42; Num 44] in
  parse JsonRef.lib (stringify JsonRef.lib s) = Return s /\
  loadState JsonRef.lib (saveState JsonRef.lib s Cases.done_42) = s /\
  match Batch.main Reference.lib JsonRef.lib Cases.three_posts
          (Batch.parseArgs true None None) Cases.no_files with
  | Some (st, Return _) =>
      Batch.processed st = [Num 42; Num 44] /\
      Batch.loaded JsonRef.lib (Batch.store st) = Return (Batch.processed st)
  | _ => False
  end.
Proof.
  intros s.
  assert (H : parse JsonRef.lib (stringify JsonRef.lib s) = Return s)
    by (vm_compute; reflexivity).
  destruct (state_round_trip JsonRef.lib s Cases.done_42 H) as (A & _ & C).
  split; [exact H|]. split; [exact A|].
  destruct (Batch.main Reference.lib JsonRef.lib Cases.three_posts
              (Batch.parseArgs true None None) Cases.no_files)
    as [[st [u|m]]|] eqn:M.
  - assert (Hp : Batch.processed st = [Num 42; Num 44]).
    { vm_compute in M. injection M as <- _. reflexivity. }
    split; [exact Hp|].
    apply (C _ _ _ _ _ _ M). unfold s. now rewrite Hp.
  - vm_compute in M. discriminate M.
  - vm_compute in M. discriminate M.
Defined.

End StateFacts.

(** ** The scanners *)

Module ScanFacts.
Import Placement.
Import Measures.

Section Scanner.
Variable match_len : string -> option nat.

Lemma delete_from_length (s : string) (k : nat) :
  String.length (Str.delete_from match_len k s) <= String.length s.
Proof.
  revert k. induction s as [|c s IH]; intros k; [apply Nat.le_refl|].
  cbn [Str.delete_from String.length]. destruct k as [|k].
  - destruct (match_len (String c s)) as [[|n]|].
    + cbn [String.length]. specialize (IH 0). lia.
    + specialize (IH n). lia.
    + cbn [String.length]. specialize (IH 0). lia.
  - specialize (IH k). lia.
Qed.

Lemma count_zero_somewhere (s : string) :
  Nat.eqb (Str.count_all match_len s) 0 = negb (matches_somewhere match_len s).
Proof.
  unfold Str.count_all. induction s as [|c s IH]; [reflexivity|].
  cbn [Str.count_from matches_somewhere].
  destruct (match_len (String c s)) as [[|n]|]; cbn [orb]; try exact IH.
  reflexivity.
Qed.

Lemma delete_all_somewhere (s : string) :
  if matches_somewhere match_len s
  then String.length (Str.delete_all match_len s) < String.length s
  else Str.delete_all match_len s = s.
Proof.
  unfold Str.delete_all. induction s as [|c s IH]; [reflexivity|].
  cbn [Str.delete_from matches_somewhere String.length].
  destruct (match_len (String c s)) as [[|n]|]; cbn [orb].
  - destruct (matches_somewhere match_len s); cbn [String.length]; [lia | now rewrite IH].
  - pose proof (delete_from_length s n). lia.
  - destruct (matches_somewhere match_len s); cbn [String.length]; [lia | now rewrite IH].
Qed.

End Scanner.

(** X1.  [cleanWpPostContentMarkers] gives its input back unchanged exactly
    when no end-marker stands anywhere in it, and a strictly shorter text
    otherwise. *)
Theorem clean_markers_changes_only_marked (html : string) :
  if matches_somewhere marker_len html
  then String.length (cleanWpPostContentMarkers html) < String.length html
  else cleanWpPostContentMarkers html = html.
Proof.
  unfold cleanWpPostContentMarkers.
  pose proof (delete_all_somewhere marker_len html) as H.
  destruct (matches_somewhere marker_len html); exact H.
Qed.

(** *** The guard and the presence check *)

Lemma somewhere_literal (p : string) (s : string) :
  p <> EmptyString ->
  matches_somewhere (Str.literal_ci p) s = Str.includes_ci p s.
Proof.
  intros Hp. induction s as [|c s IH].
  - destruct p; [contradiction | reflexivity].
  - cbn [matches_somewhere]. rewrite IH.
    change (Str.includes_ci p (String c s))
      with (Str.starts_with_ci p (String c s) || Str.includes_ci p s)%bool.
    unfold Str.literal_ci.
    destruct (Str.starts_with_ci p (String c s)); [|reflexivity].
    destruct p; [contradiction | reflexivity].
Qed.

Lemma count_literal (p : string) (s : string) :
  p <> EmptyString ->
  Nat.leb 1 (Str.count_all (Str.literal_ci p) s) = Str.includes_ci p s.
Proof.
  intros Hp. rewrite <- (somewhere_literal p s Hp).
  pose proof (count_zero_somewhere (Str.literal_ci p) s) as H.
  destruct (matches_somewhere (Str.literal_ci p) s);
    destruct (Str.count_all (Str.literal_ci p) s); cbn in *;
    solve [reflexivity | discriminate].
Qed.

(** X3.  [countWidgets] counts at least one instance exactly when the
    signature occurs in the text, whatever the case of its letters. *)
Theorem guard_counts_signature (html : string) :
  Nat.leb 1 (countWidgets html) = Str.includes_ci signature html.
Proof.
  unfold countWidgets. fold signature.
  apply count_literal. discriminate.
Qed.

(** A pattern without capital letters that stands at the head stands there
    under case folding too. *)
Lemma starts_with_fold (p s : string) :
  no_capital p = true -> Str.starts_with p s = true -> Str.starts_with_ci p s = true.
Proof.
  revert s. induction p as [|a p IH]; intros s Hp H; [reflexivity|].
  destruct s as [|b s]; [discriminate H|].
  cbn [Str.starts_with Str.starts_with_ci no_capital] in *.
  apply andb_true_iff in Hp. destruct Hp as [Ha Hp].
  apply andb_true_iff in H. destruct H as [Hab H].
  apply Ascii.eqb_eq in Hab. subst b.
  unfold Str.lower_ascii. apply negb_true_iff in Ha. rewrite Ha, Ascii.eqb_refl.
  now apply IH.
Qed.

Lemma includes_ci_later (p : string) (k : nat) (s : string) :
  Str.includes_ci p (Str.drop k s) = true -> Str.includes_ci p s = true.
Proof.
  revert s. induction k as [|k IH]; intros s H; [exact H|].
  destruct s as [|c s]; [exact H|].
  cbn [Str.drop] in H. apply IH in H.
  change (Str.includes_ci p (String c s))
    with (Str.starts_with_ci p (String c s) || Str.includes_ci p s)%bool.
  rewrite H. apply orb_true_r.
Qed.

Lemma starts_with_app (a b s : string) :
  Str.starts_with (a ++ b) s = true -> Str.starts_with b (Str.drop (String.length a) s) = true.
Proof.
  revert s. induction a as [|x a IH]; intros s H; [exact H|].
  destruct s as [|c s]; [discriminate H|].
  cbn [String.append Str.starts_with String.length Str.drop] in *.
  apply andb_true_iff in H. destruct H as [_ H]. now apply IH.
Qed.

Lemma pattern_is_counted (data : string) :
  Str.includes Scripts.WIDGET_PATTERN data = true -> Str.includes_ci signature data = true.
Proof.
  induction data as [|c data IH]; intros H.
  - discriminate H.
  - change (Str.includes Scripts.WIDGET_PATTERN (String c data))
      with (Str.starts_with Scripts.WIDGET_PATTERN (String c data)
            || Str.includes Scripts.WIDGET_PATTERN data)%bool in H.
    apply orb_true_iff in H. destruct H as [H|H].
    + apply (includes_ci_later signature 8).
      change Scripts.WIDGET_PATTERN with ("https://" ++ signature)%string in H.
      apply starts_with_app in H. cbn [String.length] in H.
      apply starts_with_fold in H; [|reflexivity].
      destruct (Str.drop 8 (String c data)) as [|d r] eqn:E.
      * discriminate H.
      * change (Str.includes_ci signature (String d r))
          with (Str.starts_with_ci signature (String d r)
                || Str.includes_ci signature r)%bool.
        now rewrite H.
    + apply IH in H.
      change (Str.includes_ci signature (String c data))
        with (Str.starts_with_ci signature (String c data)
              || Str.includes_ci signature data)%bool.
      rewrite H. apply orb_true_r.
Qed.

(** X4.  A page for which [checkUrl] answers [true] was fetched as text and
    is one the guard [countWidgets] counts at least once. *)
Theorem checked_page_is_counted (get : string -> Js.completion Js.value) (url : string) :
  Scripts.checkUrl get url = true ->
  exists data, get url = Js.Return (Js.Str data) /\ 1 <= countWidgets data.
Proof.
  unfold Scripts.checkUrl. destruct (get url) as [[| | | |data| |]|m]; try discriminate.
  intros H. exists data. split; [reflexivity|].
  apply pattern_is_counted in H.
  rewrite <- (count_literal signature data) in H by discriminate.
  now apply Nat.leb_le.
Qed.

Lemma checked_page_is_counted_witness :
  let get := fun _ : string => Js.Return (Js.Str (Cases.embed "w1")) in
  Scripts.checkUrl get "https://example.org/a/" = true /\
  exists data, get "https://example.org/a/" = Js.Return (Js.Str data) /\ 1 <= countWidgets data.
Proof.
  split; [reflexivity|].
  apply (checked_page_is_counted (fun _ => Js.Return (Js.Str (Cases.embed "w1")))
           "https://example.org/a/").
  reflexivity.
Defined.

End ScanFacts.

(** ** The maintenance scripts *)

Module ScriptFacts.
Import Js.
Import Placement.
Import Scripts.
Import Measures.

Lemma eqb_shorter (a b : string) :
  String.length b < String.length a -> String.eqb a b = false.
Proof.
  intros H. destruct (String.eqb a b) eqn:E; [|reflexivity].
  apply String.eqb_eq in E. subst. lia.
Qed.

(** X2.  [processOne] sends the cleaned content, which is shorter than what
    it fetched, exactly when an end-marker stands in the content; content
    without one is skipped without a request; a fetch that fails, or content
    that is not text, is reported and nothing is sent.  It never throws. *)
Theorem strip_pass_posts_only_marked (w : rest) (id : Z) (endpoint : string) :
  match rendered w endpoint id with
  | Throw m => processOne w id endpoint = [Errored id m]
  | Return v =>
      match or_else v (Str EmptyString) with
      | Str orig =>
          if matches_somewhere marker_len orig then
            String.length (cleanWpPostContentMarkers orig) < String.length orig /\
            exists last,
              processOne w id endpoint
              = [Posted endpoint id (cleanWpPostContentMarkers orig); last]
          else processOne w id endpoint = [Skipped id]
      | _ => exists m, processOne w id endpoint = [Errored id m]
      end
  end.
Proof.
  unfold processOne. destruct (rendered w endpoint id) as [v|m]; [|reflexivity].
  destruct (or_else v (Str EmptyString)) as [| | | |orig| |]; try (eexists; reflexivity).
  pose proof (ScanFacts.delete_all_somewhere marker_len orig) as H.
  fold (cleanWpPostContentMarkers orig) in H.
  destruct (matches_somewhere marker_len orig).
  - split; [exact H|]. rewrite (eqb_shorter _ _ H). cbn [negb].
    destruct (post_content w endpoint id (cleanWpPostContentMarkers orig));
      eexists; reflexivity.
  - rewrite H, String.eqb_refl. reflexivity.
Qed.

(** X5.  The block the engine builds for a widget whose identifier begins
    with a letter, a digit or an underscore is recognised by
    [hasWidgetMarker], whatever the widget markup and the lead text are. *)
Theorem block_is_recognised (widgetId widgetHtml ctaText : string) :
  match widgetId with
  | String c _ => word_char c
  | EmptyString => false
  end = true ->
  hasWidgetMarker (block_of widgetId widgetHtml ctaText) = true.
Proof.
  destruct widgetId as [|c rest]; [discriminate|]. intros Hc.
  unfold block_of, raw_block, marker_of, Str.delete_all.
  repeat rewrite PlacementFacts.append_assoc.
  match goal with
  | |- context [(String c rest ++ ?r)%string] =>
      change (String c rest ++ r)%string with (String c (rest ++ r));
      set (tail := (rest ++ r)%string)
  end.
  assert (Hlit : forall x,
             Str.delete_from marker_len 0 ("<!-- ai-cta:start id=" ++ x)
             = ("<!-- ai-cta:start id=" ++ Str.delete_from marker_len 0 x)%string)
    by (intros x; reflexivity).
  rewrite Hlit.
  assert (Hkeep : marker_len (String c tail) = None).
  { destruct (marker_len (String c tail)) eqn:E; [|reflexivity].
    apply PlacementFacts.marker_len_head in E. cbn [Str.starts_with] in E.
    destruct (Ascii.eqb "<" c) eqn:Ec; [|discriminate E].
    apply Ascii.eqb_eq in Ec. subst c. discriminate Hc. }
  rewrite (PlacementFacts.delete_from_keep c tail Hkeep).
  set (rest' := Str.delete_from marker_len 0 tail).
  change (hasWidgetMarker ("<!-- ai-cta:start id=" ++ String c rest'))
    with (widget_marker_at ("<!-- ai-cta:start id=" ++ String c rest')
          || hasWidgetMarker ("!-- ai-cta:start id=" ++ String c rest'))%bool.
  assert (Hat : widget_marker_at ("<!-- ai-cta:start id=" ++ String c rest') = word_char c)
    by reflexivity.
  rewrite Hat, Hc. reflexivity.
Qed.

Lemma block_is_recognised_witness :
  hasWidgetMarker (block_of "w1" "<div class=promo>[contact-form-7 id=1]</div>" "Click!")
  = true.
Proof.
  apply (block_is_recognised "w1" "<div class=promo>[contact-form-7 id=1]</div>" "Click!").
  reflexivity.
Defined.

(** *** The rows of article_urls.ids.json *)

Lemma fix_row_id (row : Row) : has_id (fix_row row) = has_id row.
Proof.
  unfold fix_row. destruct (has_id row && negb (has_endpoint row))%bool; reflexivity.
Qed.

Lemma fix_row_endpoint (row : Row) :
  implb (has_id (fix_row row)) (has_endpoint (fix_row row)) = true.
Proof.
  unfold fix_row. destruct (has_id row) eqn:Hi; destruct (has_endpoint row) eqn:He; cbn.
  - now rewrite Hi, He.
  - unfold has_id, has_endpoint in *. cbn. rewrite Hi.
    destruct (String.eqb (subtype row) "page"); reflexivity.
  - now rewrite Hi.
  - now rewrite Hi.
Qed.

Lemma fix_row_settled (row : Row) :
  implb (has_id row) (has_endpoint row) = true -> fix_row row = row.
Proof.
  unfold fix_row. destruct (has_id row), (has_endpoint row); cbn;
    solve [reflexivity | discriminate].
Qed.

(** X6.  [fixEndpoints] leaves every row with an identifier with an
    endpoint; it changes nothing but empty endpoints of rows with an
    identifier, which become "pages" for the subtype "page" and "posts" for
    any other; and a second pass changes nothing. *)
Theorem fix_endpoints_settles (arr : list Row) :
  forallb (fun r => implb (has_id r) (has_endpoint r)) (fixEndpoints arr) = true /\
  fixEndpoints (fixEndpoints arr) = fixEndpoints arr /\
  map (fun r => (url r, slug r, id r, subtype r, has_widget r)) (fixEndpoints arr)
  = map (fun r => (url r, slug r, id r, subtype r, has_widget r)) arr /\
  map endpoint (fixEndpoints arr)
  = map (fun r =>
           if (has_id r && negb (has_endpoint r))%bool
           then if String.eqb (subtype r) "page" then "pages" else "posts"
           else endpoint r) arr.
Proof.
  unfold fixEndpoints. repeat split.
  - apply forallb_forall. intros r Hr. apply in_map_iff in Hr.
    destruct Hr as (row & <- & _). apply fix_row_endpoint.
  - rewrite map_map. apply map_ext. intros row.
    apply fix_row_settled, fix_row_endpoint.
  - rewrite map_map. apply map_ext. intros row. unfold fix_row.
    destruct (has_id row && negb (has_endpoint row))%bool; reflexivity.
  - rewrite map_map. apply map_ext. intros row. unfold fix_row.
    destruct (has_id row && negb (has_endpoint row))%bool; reflexivity.
Qed.

(** X7.  After [fixEndpoints] and the presence pass, the re-run takes the
    identifiers of exactly the rows that have an identifier and for which
    the presence pass found no marker, in the order of the file: no row with
    an identifier is passed over for want of an endpoint. *)
Theorem rerun_takes_unmarked_rows (w : rest) (arr : list Row) :
  missing_ids (mark w (fixEndpoints arr))
  = flat_map (fun r =>
                match id r with
                | Some z =>
                    if (has_id r && negb (hasWidget w (fix_row r)))%bool then [z] else []
                | None => []
                end) arr.
Proof.
  unfold missing_ids, mark, fixEndpoints. rewrite map_map.
  induction arr as [|row arr IH]; [reflexivity|].
  cbn [map flat_map]. rewrite IH. f_equal.
  pose proof (fix_row_endpoint row) as He. pose proof (fix_row_id row) as Hi.
  assert (Hid : id (fix_row row) = id row).
  { unfold fix_row. destruct (has_id row && negb (has_endpoint row))%bool; reflexivity. }
  rewrite Hi in He |- *.
  destruct (has_id row) eqn:Hr; cbn [implb andb] in He |- *.
  - rewrite He. cbn [with_has_widget has_widget id]. rewrite Hid.
    destruct (id row) as [z|] eqn:Ez; [|unfold has_id in Hr; now rewrite Ez in Hr].
    unfold has_id, has_endpoint in *. cbn [id endpoint]. rewrite ?Hid, ?Ez.
    rewrite Ez in Hr.
    destruct (hasWidget w (fix_row row)); cbn; rewrite ?Hi, ?Hid, ?Hr, ?He; reflexivity.
  - cbn [with_has_widget has_widget id]. rewrite Hid.
    destruct (id row) as [z|] eqn:Ez; [|reflexivity].
    unfold has_id in *. cbn [id]. rewrite ?Hid, ?Ez. rewrite Ez in Hr.
    cbn; rewrite ?Hid, ?Hr; reflexivity.
Qed.

(** *** resolveIds.ts *)

Lemma resolveOne_row (l : lookups) (u : string) (row : Row) :
  resolveOne l u = Return row ->
  url row = u /\ slug row = toSlug l u /\ has_widget row = None /\
  implb (has_id row) (has_endpoint row) = true.
Proof.
  unfold resolveOne.
  destruct (byType l "posts" (toSlug l u)) as [[i|]|m]; cbn [bind];
    [|destruct (byType l "pages" (toSlug l u)) as [[i|]|m]; cbn [bind];
      [|destruct (bySearch l (toSlug l u)) as [[e|]|m]; cbn [bind]|]|];
    try discriminate; intros H; injection H as <-.
  - repeat split. cbn. now destruct (negb (Z.eqb i 0)).
  - repeat split. cbn. now destruct (negb (Z.eqb i 0)).
  - destruct (negb (Z.eqb (entry_id e) 0)
              && negb (String.eqb (entry_subtype e) EmptyString))%bool eqn:E;
      [|repeat split].
    repeat split. unfold has_id, has_endpoint. cbn [id endpoint].
    apply andb_true_iff in E. destruct E as [E1 E2]. rewrite E1. cbn [implb].
    destruct (entry_subtype e); [discriminate E2 | reflexivity].
  - repeat split.
Qed.

(** X12.  [main] of resolveIds.ts writes one row for every address, in the
    order of the list and under that address, also when a lookup fails; a
    row it gives an identifier has an endpoint, so that [fixEndpoints] finds
    nothing to change in the file. *)
Theorem resolved_rows_have_endpoints (l : lookups) (raw : list string) :
  map url (resolve_all l raw) = raw /\
  map slug (resolve_all l raw) = map (toSlug l) raw /\
  forallb (fun r => implb (has_id r) (has_endpoint r)) (resolve_all l raw) = true /\
  fixEndpoints (resolve_all l raw) = resolve_all l raw.
Proof.
  assert (R : forall u,
             let row := match resolveOne l u with
                        | Return row => row
                        | Throw _ => unresolved u (toSlug l u)
                        end in
             url row = u /\ slug row = toSlug l u /\
             implb (has_id row) (has_endpoint row) = true).
  { intros u. cbn zeta. destruct (resolveOne l u) as [row|m] eqn:E.
    - destruct (resolveOne_row l u row E) as (H1 & H2 & _ & H4). now repeat split.
    - repeat split. }
  unfold resolve_all, fixEndpoints. rewrite !map_map. repeat split.
  - rewrite <- (map_id raw) at 2. apply map_ext. intros u. apply (R u).
  - apply map_ext. intros u. apply (R u).
  - apply forallb_forall. intros r Hr. apply in_map_iff in Hr.
    destruct Hr as (u & <- & _). apply (R u).
  - apply map_ext. intros u. apply fix_row_settled, (R u).
Qed.

End ScriptFacts.

(** ** Whole runs of the batch driver *)

Module RunFacts.
Import Js.
Import World.
Import Batch.
Import Notions.
Import Measures.

Lemma updates_app (t u : list event) : updates (t ++ u) = (updates t ++ updates u)%list.
Proof. apply flat_map_app. Qed.

(** What runs of a page stays below the cap before its last batch. *)
Lemma ran_bounded (p : nat) (batches : list (list Z)) (total : nat) :
  Forall (fun b => length b <= p) batches -> total < 600 ->
  total + length (concat (ran batches total)) <= 599 + p.
Proof.
  intros Hall. revert total. induction Hall as [|b rest Hb _ IH]; intros total Ht.
  - cbn. lia.
  - cbn [ran concat]. rewrite length_app.
    destruct (Nat.leb 600 (total + length b)) eqn:E.
    + cbn. lia.
    + apply Nat.leb_gt in E. specialize (IH (total + length b) E). lia.
Qed.

Lemma chunks_bounded (par : nat) (l : list Z) (fuel : nat) :
  Forall (fun b => length b <= par) (chunks fuel par l).
Proof.
  revert l. induction fuel as [|f IH]; intros l; [constructor|].
  destruct l as [|x l]; [constructor|].
  cbn [chunks]. constructor; [|apply IH].
  rewrite length_firstn. lia.
Qed.

Section Run.
Variable lib : Dom.cheerio.
Variable J : State.json.
Variable w : world.
Variable a : args.

#[local] Abbreviation processPost := (processPost lib w a).
#[local] Abbreviation steps := (steps lib w a).
#[local] Abbreviation run_batch := (run_batch lib w a).
#[local] Abbreviation run_batches := (run_batches lib w a).
#[local] Abbreviation turn := (turn lib J w a).
#[local] Abbreviation loop := (loop lib J w a).
#[local] Abbreviation returns := (returns lib w a).
#[local] Abbreviation sent := (sent lib w a).

(** A loop entered below the cap keeps what its turns keep below the cap. *)
Lemma loop_keeps_below (P : state -> Prop) :
  (forall st, P st -> P (checkpoint J st)) ->
  (forall st, totalProcessed st < 600 -> P st -> P (after (turn st))) ->
  forall fuel stop st r, P st -> loop fuel stop st = Some r -> P (fst r).
Proof.
  intros Hsave Hturn. induction fuel as [|f IH]; intros stop st r HP; cbn [Batch.loop].
  - destruct (negb stop && _)%bool; [discriminate|].
    intros H. injection H as <-. now apply Hsave.
  - destruct (negb stop && Nat.ltb (totalProcessed st) 600)%bool eqn:C.
    + apply andb_true_iff in C. destruct C as [_ C]. apply Nat.ltb_lt in C.
      specialize (Hturn st C HP).
      destruct (turn st) as [stop' st'|st'|st' m|st']; cbn [after] in Hturn.
      * now apply IH.
      * intros H. injection H as <-. now apply Hsave.
      * intros H. injection H as <-. exact Hturn.
      * discriminate.
    + intros H. injection H as <-. now apply Hsave.
Qed.

(** What a turn leaves as it found it when it runs no batch. *)
Lemma turn_idle (P : state -> Prop) (st : state) :
  (forall st', processed st' = processed st -> totalProcessed st' = totalProcessed st ->
               store st' = store st ->
               trace st' = (trace st ++ [Listed (limit a) (page st)])%list -> P st') ->
  (forall stop st', turn st = Again stop st' -> P st') ->
  P (after (turn st)).
Proof.
  intros Hidle Hagain. pose proof (BatchFacts.turn_other lib J w a st) as O.
  destruct (turn st) as [stop st'|st'|st' m|st'] eqn:T; cbn [after].
  - now apply (Hagain stop).
  - destruct O as (O1 & O2 & O3 & O4). now apply Hidle.
  - destruct O as (O1 & O2 & O3 & O4). now apply Hidle.
  - destruct O as (O1 & O2 & O3 & O4). now apply Hidle.
Qed.

Lemma turn_dispatched (st : state) (stop : bool) (st' : state) (evs : list event) :
  trace st'
  = (trace st ++ Listed (limit a) (page st) :: evs
     ++ [Saved (state_of (processed st'))])%list ->
  dispatched (trace st') = (dispatched (trace st) ++ dispatched evs)%list.
Proof.
  intros ->. rewrite BatchFacts.dispatched_app. cbn [dispatched flat_map app].
  fold (dispatched (evs ++ [Saved (state_of (processed st'))])).
  rewrite BatchFacts.dispatched_app. cbn. now rewrite app_nil_r.
Qed.

(** The tasks counted are the tasks dispatched, and a turn entered below the
    cap ends no more than one batch above it. *)
Lemma turn_counts (st : state) :
  totalProcessed st < 600 ->
  totalProcessed st = length (dispatched (trace st)) ->
  totalProcessed (after (turn st)) = length (dispatched (trace (after (turn st)))) /\
  totalProcessed (after (turn st)) <= 599 + Z.to_nat (par a).
Proof.
  intros Hlt Heq. apply turn_idle.
  - intros st' _ Htot _ Htr.
    rewrite Htr, BatchFacts.dispatched_app, Htot. cbn. rewrite app_nil_r. lia.
  - intros stop st' T.
    destruct (BatchFacts.turn_again lib J w a st stop st' T)
      as (posts & evs & _ & _ & _ & Htr & Hd & _ & _ & Htot & _).
    cbn zeta in *. rewrite (turn_dispatched st stop st' evs Htr), Hd.
    rewrite length_app, Htot. split; [lia|].
    apply ran_bounded; [apply chunks_bounded | exact Hlt].
Qed.

(** *** What a run sends to the site *)

Lemma sent_shape (id : Z) :
  sent id = [] \/ (dryRun a = false /\ exists r, sent id = [(id, OfResult r)]).
Proof.
  unfold Measures.sent, Batch.processPost.
  destruct (bind _ _) as [[articleText newHtml]|m]; [|now left].
  destruct (strict_equal _ _); [now left|].
  destruct (dryRun a); [now left|].
  right. split; [reflexivity|]. eexists. reflexivity.
Qed.

Lemma sent_bounded (l : list Z) :
  length (flat_map sent l) <= if dryRun a then 0 else length l.
Proof.
  induction l as [|id l IH]; [destruct (dryRun a); cbn; lia|].
  cbn [flat_map length]. rewrite length_app.
  destruct (sent_shape id) as [E|(Hd & r & E)]; rewrite E.
  - destruct (dryRun a); cbn in *; lia.
  - rewrite Hd in *. cbn. lia.
Qed.

Lemma steps_updates (id : Z) : updates (steps id) = sent id.
Proof.
  unfold Batch.steps, Measures.sent. rewrite updates_app.
  destruct (answer _); cbn; now rewrite app_nil_r.
Qed.

Lemma tasks_updates (batch : list Z) :
  updates (concat (map steps batch)) = flat_map sent batch.
Proof.
  induction batch as [|id batch IH]; [reflexivity|].
  cbn [map concat flat_map]. now rewrite updates_app, steps_updates, IH.
Qed.

(** The tasks of a batch reach the site in the order the runtime gives
    them. *)
Lemma run_batch_updates (st : state) (batch : list Z) :
  exists us,
    updates (trace (run_batch st batch)) = (updates (trace st) ++ us)%list /\
    Permutation us (flat_map sent batch).
Proof.
  unfold Batch.run_batch. cbn [trace log].
  exists (updates (interleave (schedule w (trace st ++ [Dispatched batch]))
                     (map steps batch))).
  split.
  - rewrite !updates_app. cbn. now rewrite app_nil_r.
  - rewrite <- tasks_updates. unfold updates.
    apply BatchFacts.flat_map_perm, BatchFacts.interleave_perm.
Qed.

Lemma run_batches_updates (batches : list (list Z)) (st : state) :
  exists us,
    updates (trace (fst (run_batches batches st))) = (updates (trace st) ++ us)%list /\
    Permutation us (flat_map sent (concat (ran batches (totalProcessed st)))).
Proof.
  revert st. induction batches as [|b rest IH]; intros st.
  - exists []. cbn. now rewrite app_nil_r.
  - cbn [Batch.run_batches ran].
    destruct (run_batch_updates st b) as (us & U1 & U2).
    destruct (BatchFacts.run_batch_spec lib w a st b) as (evs & _ & _ & _ & _ & B5 & _).
    rewrite B5.
    destruct (Nat.leb 600 (totalProcessed st + length b)).
    + exists us. cbn [fst concat]. now rewrite app_nil_r.
    + destruct (IH (run_batch st b)) as (us' & I1 & I2). rewrite B5 in I2.
      exists (us ++ us')%list. rewrite I1, U1, <- app_assoc. split; [reflexivity|].
      cbn [concat]. rewrite flat_map_app. now apply Permutation_app.
Qed.

Lemma turn_sent (st : state) :
  Permutation (updates (trace st)) (flat_map sent (dispatched (trace st))) ->
  Permutation (updates (trace (after (turn st))))
    (flat_map sent (dispatched (trace (after (turn st))))).
Proof.
  intros H.
  assert (H1 : forall e, updates [e] = [] -> dispatched [e] = [] ->
               Permutation (updates (trace (log e st)))
                 (flat_map sent (dispatched (trace (log e st))))).
  { intros e Hu Hd. cbn [log trace].
    rewrite updates_app, BatchFacts.dispatched_app, Hu, Hd, !app_nil_r. exact H. }
  unfold Batch.turn.
  destruct (listPosts w (limit a) (page st)) as [posts|m];
    [|cbn [after]; now apply H1].
  destruct posts as [|p posts]; [cbn [after]; now apply H1|].
  destruct (slice0 _ _) as [|x tp] eqn:E; [cbn [after]; now apply H1|].
  rewrite <- E.
  destruct (batches_of _ _) as [batches|]; [|cbn [after]; now apply H1].
  pose proof (BatchFacts.run_batches_spec lib w a batches
                (log (Listed (limit a) (page st)) st)) as S.
  destruct (run_batches_updates batches (log (Listed (limit a) (page st)) st))
    as (us & U1 & U2).
  destruct (Batch.run_batches lib w a batches (log (Listed (limit a) (page st)) st))
    as [st2 stop2].
  cbn [fst] in S, U1. cbn zeta in S. destruct S as (evs & S1 & S2 & _).
  cbn [after checkpoint next_page trace].
  rewrite updates_app, BatchFacts.dispatched_app, U1, S1, BatchFacts.dispatched_app, S2.
  cbn [updates dispatched flat_map]. rewrite !app_nil_r, flat_map_app.
  apply Permutation_app; [now apply H1 | exact U2].
Qed.

(** *** What a run leaves in the store *)

Lemma latest_last (l : list value) (s : value) : latest (l ++ [s]) = Some s.
Proof. unfold latest. now rewrite rev_unit. Qed.

Lemma turn_store (d : State.disk) (st : state) :
  (forall p, store st p
             = if String.eqb p State.statePath
               then match latest (saves (trace st)) with
                    | Some s => Some (State.stringify J s)
                    | None => d p
                    end
               else d p) ->
  forall p, store (after (turn st)) p
            = if String.eqb p State.statePath
              then match latest (saves (trace (after (turn st)))) with
                   | Some s => Some (State.stringify J s)
                   | None => d p
                   end
              else d p.
Proof.
  intros H. apply turn_idle.
  - intros st' _ _ Hs Htr p.
    rewrite Hs, Htr, BatchFacts.saves_app. cbn. rewrite app_nil_r. apply H.
  - intros stop st' T p.
    destruct (BatchFacts.turn_again lib J w a st stop st' T)
      as (posts & evs & _ & _ & _ & Htr & _ & _ & _ & _ & _ & Hst & _).
    cbn zeta in Htr. rewrite Hst, Htr.
    replace (trace st ++ Listed (limit a) (page st) :: evs
             ++ [Saved (state_of (processed st'))])%list
      with ((trace st ++ Listed (limit a) (page st) :: evs)
            ++ [Saved (state_of (processed st'))])%list
      by (rewrite <- app_assoc; reflexivity).
    rewrite BatchFacts.saves_app. cbn [saves flat_map app]. rewrite latest_last.
    unfold State.saveState, State.write.
    destruct (String.eqb p State.statePath) eqn:E; [reflexivity|].
    rewrite H, E. reflexivity.
Qed.

(** *** What a run leaves in the set *)

Lemma turn_members (processed0 : list value) (st : state) :
  (forall i, has (processed st) (Num i)
             = (has processed0 (Num i)
                || (mem i (dispatched (trace st)) && returns i))%bool) ->
  forall i, has (processed (after (turn st))) (Num i)
            = (has processed0 (Num i)
               || (mem i (dispatched (trace (after (turn st)))) && returns i))%bool.
Proof.
  intros H. apply turn_idle.
  - intros st' Hp _ _ Htr i.
    rewrite Hp, Htr, BatchFacts.dispatched_app. cbn. rewrite app_nil_r. apply H.
  - intros stop st' T i.
    destruct (BatchFacts.turn_again lib J w a st stop st' T)
      as (posts & evs & _ & _ & _ & Htr & Hd & _ & _ & _ & _ & _ & _ & Hin).
    cbn zeta in *. rewrite Hin, H, (turn_dispatched st stop st' evs Htr), Hd.
    rewrite BatchFacts.mem_app.
    destruct (has processed0 (Num i)), (mem i (dispatched (trace st))), (returns i),
      (mem i _); reflexivity.
Qed.

End Run.

(** X8.  For batches of at least one post, every run of the batch driver
    ends, and the tasks it counted are the tasks it dispatched: never more
    than 599 and one batch, that is 599 + par, whatever the site lists. *)
Theorem attempts_stay_within_cap (lib : Dom.cheerio) (J : State.json) (w : world)
    (a : args) (d : State.disk) :
  (1 <= par a)%Z ->
  exists st res,
    main lib J w a d = Some (st, res) /\
    totalProcessed st = length (dispatched (trace st)) /\
    (Z.of_nat (length (dispatched (trace st))) <= 599 + par a)%Z.
Proof.
  intros Hpar.
  destruct (BatchFacts.main_returns lib J w a d Hpar) as [[st res] M].
  exists st, res. split; [exact M|].
  unfold main in M.
  destruct (loaded J d) as [processed0|m].
  - pose proof (loop_keeps_below lib J w a
                  (fun s => totalProcessed s = length (dispatched (trace s)) /\
                            totalProcessed s <= 599 + Z.to_nat (par a))) as K.
    cbn beta in K.
    assert (Hfin : totalProcessed st = length (dispatched (trace st)) /\
                   totalProcessed st <= 599 + Z.to_nat (par a)).
    { apply (K) with (fuel := 600) (stop := false) (st := initial processed0 d)
                     (r := (st, res)).
      - intros s [H1 H2]. cbn [checkpoint totalProcessed trace].
        rewrite BatchFacts.dispatched_app. cbn. rewrite app_nil_r. now split.
      - intros s Hlt [H1 _]. now apply turn_counts.
      - cbn. split; lia.
      - exact M. }
    destruct Hfin as [H1 H2]. split; [exact H1 | lia].
  - injection M as <- _. split; [reflexivity|]. change (0 <= 599 + par a)%Z. lia.
Qed.

Lemma attempts_stay_within_cap_witness :
  let a := parseArgs true None (Some 2%Z) in
  (1 <= par a)%Z /\
  exists st res,
    main Reference.lib JsonRef.lib Cases.three_posts a Cases.no_files = Some (st, res) /\
    totalProcessed st = length (dispatched (trace st)) /\
    (Z.of_nat (length (dispatched (trace st))) <= 601)%Z.
Proof.
  intros a. split; [vm_compute; discriminate|].
  exact (attempts_stay_within_cap Reference.lib JsonRef.lib Cases.three_posts a
           Cases.no_files ltac:(vm_compute; discriminate)).
Defined.

(** X9.  For batches of at least one post, the updates a run sends to the
    site are those of the tasks of the posts it dispatched, at most one for
    each, in the order in which the runtime lets the tasks of a batch reach
    the site; a dry run sends none. *)
Theorem updates_follow_dispatch (lib : Dom.cheerio) (J : State.json) (w : world)
    (a : args) (d : State.disk) :
  (1 <= par a)%Z ->
  exists st res,
    main lib J w a d = Some (st, res) /\
    Permutation (updates (trace st)) (flat_map (sent lib w a) (dispatched (trace st))) /\
    length (updates (trace st))
    <= (if dryRun a then 0 else length (dispatched (trace st))).
Proof.
  intros Hpar.
  destruct (BatchFacts.main_returns lib J w a d Hpar) as [[st res] M].
  exists st, res. split; [exact M|].
  assert (H : Permutation (updates (trace st))
                (flat_map (sent lib w a) (dispatched (trace st)))).
  { unfold main in M.
    destruct (loaded J d) as [processed0|m].
    - apply (BatchFacts.loop_keeps lib J w a
               (fun s => Permutation (updates (trace s))
                           (flat_map (sent lib w a) (dispatched (trace s)))))
        with (fuel := 600) (stop := false) (st := initial processed0 d) (r := (st, res)).
      + intros s Hs. cbn [checkpoint trace].
        rewrite updates_app, BatchFacts.dispatched_app. cbn. now rewrite !app_nil_r.
      + intros s Hs. now apply turn_sent.
      + reflexivity.
      + exact M.
    - injection M as <- _. reflexivity. }
  split; [exact H|]. rewrite (Permutation_length H). apply (sent_bounded lib w a).
Qed.

Lemma updates_follow_dispatch_witness :
  let a := parseArgs false None None in
  (1 <= par a)%Z /\
  exists st res,
    main Reference.lib JsonRef.lib Cases.racing_posts a Cases.no_files = Some (st, res) /\
    Permutation (updates (trace st))
      (flat_map (sent Reference.lib Cases.racing_posts a) (dispatched (trace st))) /\
    map fst (updates (trace st)) = [44; 42]%Z /\
    dispatched (trace st) = [42; 43; 44]%Z.
Proof.
  intros a. split; [vm_compute; discriminate|].
  destruct (updates_follow_dispatch Reference.lib JsonRef.lib Cases.racing_posts a
              Cases.no_files ltac:(vm_compute; discriminate)) as (st & res & M & H & _).
  exists st, res. split; [exact M|]. split; [exact H|].
  vm_compute in M. injection M as <- _. split; reflexivity.
Defined.

(** X10.  For batches of at least one post, the one file a run writes is
    data/state.json, which ends holding the text of the last state the run
    saved; every other file, and the state file of a run that saved nothing,
    is as it was before. *)
Theorem run_writes_state_file_only (lib : Dom.cheerio) (J : State.json) (w : world)
    (a : args) (d : State.disk) :
  (1 <= par a)%Z ->
  exists st res,
    main lib J w a d = Some (st, res) /\
    forall p,
      store st p
      = if String.eqb p State.statePath
        then match latest (saves (trace st)) with
             | Some s => Some (State.stringify J s)
             | None => d p
             end
        else d p.
Proof.
  intros Hpar.
  destruct (BatchFacts.main_returns lib J w a d Hpar) as [[st res] M].
  exists st, res. split; [exact M|].
  unfold main in M.
  destruct (loaded J d) as [processed0|m].
  - apply (BatchFacts.loop_keeps lib J w a
             (fun s => forall p,
                  store s p
                  = if String.eqb p State.statePath
                    then match latest (saves (trace s)) with
                         | Some s0 => Some (State.stringify J s0)
                         | None => d p
                         end
                    else d p))
      with (fuel := 600) (stop := false) (st := initial processed0 d) (r := (st, res)).
    + intros s Hs p. cbn [checkpoint trace store].
      rewrite BatchFacts.saves_app. cbn [saves flat_map app]. rewrite latest_last.
      unfold State.saveState, State.write.
      destruct (String.eqb p State.statePath) eqn:E; [reflexivity|].
      rewrite Hs, E. reflexivity.
    + intros s Hs. now apply turn_store.
    + intros p. cbn. now destruct (String.eqb p State.statePath).
    + exact M.
  - injection M as <- _. intros p. cbn. now destruct (String.eqb p State.statePath).
Qed.

Lemma run_writes_state_file_only_witness :
  let a := parseArgs true None None in
  (1 <= par a)%Z /\
  exists st res,
    main Reference.lib JsonRef.lib Cases.three_posts a Cases.done_42 = Some (st, res) /\
    store st "data/widgets.json" = Cases.done_42 "data/widgets.json" /\
    store st State.statePath
    = match latest (saves (trace st)) with
      | Some s => Some (State.stringify JsonRef.lib s)
      | None => Cases.done_42 State.statePath
      end.
Proof.
  intros a. split; [vm_compute; discriminate|].
  destruct (run_writes_state_file_only Reference.lib JsonRef.lib Cases.three_posts a
              Cases.done_42 ltac:(vm_compute; discriminate)) as (st & res & M & H).
  exists st, res. split; [exact M|].
  split; [exact (H "data/widgets.json") | exact (H State.statePath)].
Defined.

(** X11.  For batches of at least one post, the set a run ends with is the
    set it loaded with identifiers of dispatched posts added behind it, and
    an identifier is in it exactly when it was loaded or a task dispatched
    for it returned: a post whose task failed stays out and is dispatched
    again by the next run.  A state file that holds [null], or whose
    [processed] cannot be iterated, ends the run before anything is
    dispatched. *)
Theorem processed_set_is_loaded_plus_returned (lib : Dom.cheerio) (J : State.json)
    (w : world) (a : args) (d : State.disk) :
  (1 <= par a)%Z ->
  exists st res,
    main lib J w a d = Some (st, res) /\
    match loaded J d with
    | Return processed0 =>
        (exists ids, processed st = (processed0 ++ map Num ids)%list) /\
        forall i, has (processed st) (Num i)
                  = (has processed0 (Num i)
                     || (mem i (dispatched (trace st)) && returns lib w a i))%bool
    | Throw m => res = Throw m /\ trace st = [] /\ store st = d
    end.
Proof.
  intros Hpar.
  destruct (BatchFacts.main_returns lib J w a d Hpar) as [[st res] M].
  exists st, res. split; [exact M|].
  unfold main in M.
  destruct (loaded J d) as [processed0|m].
  - split.
    + apply (BatchFacts.loop_closed lib J w a
               (fun s => exists ids, s = (processed0 ++ map Num ids)%list))
        with (fuel := 600) (stop := false) (st := initial processed0 d) (r := (st, res)).
      * intros s id [ids Hs]. unfold add. destruct (has s (Num id)).
        -- now exists ids.
        -- exists (ids ++ [id])%list. now rewrite Hs, map_app, app_assoc.
      * exists []. cbn. now rewrite app_nil_r.
      * exact M.
    + apply (BatchFacts.loop_keeps lib J w a
               (fun s => forall i,
                    has (processed s) (Num i)
                    = (has processed0 (Num i)
                       || (mem i (dispatched (trace s)) && returns lib w a i))%bool))
        with (fuel := 600) (stop := false) (st := initial processed0 d) (r := (st, res)).
      * intros s Hs i. cbn [checkpoint trace processed].
        rewrite BatchFacts.dispatched_app. cbn. rewrite app_nil_r. apply Hs.
      * intros s Hs. now apply turn_members.
      * intros i. cbn. now rewrite orb_false_r.
      * exact M.
  - injection M as <- <-. repeat split.
Qed.

Lemma processed_set_is_loaded_plus_returned_witness :
  let a := parseArgs true None None in
  (1 <= par a)%Z /\
  loaded JsonRef.lib Cases.done_42 = Return [Num 42] /\
  exists st res,
    main Reference.lib JsonRef.lib Cases.three_posts a Cases.done_42 = Some (st, res) /\
    has (processed st) (Num 42) = true /\
    has (processed st) (Num 43) = false /\
    has (processed st) (Num 44) = true.
Proof.
  intros a. split; [vm_compute; discriminate|]. split; [vm_compute; reflexivity|].
  pose proof (processed_set_is_loaded_plus_returned Reference.lib JsonRef.lib
                Cases.three_posts a Cases.done_42 ltac:(vm_compute; discriminate)) as H.
  destruct H as (st & res & M & H).
  exists st, res. split; [exact M|].
  assert (L : loaded JsonRef.lib Cases.done_42 = Return [Num 42])
    by (vm_compute; reflexivity).
  rewrite L in H. destruct H as [_ H]. rewrite !H.
  vm_compute in M. injection M as <- _. repeat split; vm_compute; reflexivity.
Defined.

(** *** A step below one *)



(** *** The batches of a page *)

Lemma chunks_nonempty (par : nat) (l : list Z) (fuel : nat) :
  chunks fuel par l <> [] -> l <> [].
Proof. destruct fuel, l; cbn; congruence. Qed.

Lemma chunks_full (par : nat) (fuel : nat) :
  forall (l : list Z) (k : nat) (b : list Z),
    nth_error (chunks fuel par l) k = Some b ->
    S k < length (chunks fuel par l) -> length b = par.
Proof.
  induction fuel as [|f IH]; intros l k b; [destruct k; discriminate|].
  destruct l as [|x l]; [destruct k; discriminate|].
  cbn [chunks length]. destruct k as [|k]; cbn [nth_error].
  - intros H Hlen. injection H as <-.
    assert (Hne : skipn par (x :: l) <> []).
    { apply (chunks_nonempty par _ f).
      destruct (chunks f par (skipn par (x :: l))); [cbn in Hlen; lia | discriminate]. }
    rewrite length_firstn. apply Nat.min_l.
    destruct (Nat.le_gt_cases par (length (x :: l))) as [Hle|Hgt]; [exact Hle|].
    exfalso. apply Hne. apply skipn_all2. lia.
  - intros H Hlen. apply (IH _ k b H). lia.
Qed.

Lemma chunks_inhabited (par : nat) (fuel : nat) :
  1 <= par -> forall l : list Z, Forall (fun b => 1 <= length b) (chunks fuel par l).
Proof.
  intros Hpar. induction fuel as [|f IH]; intros l; [constructor|].
  destruct l as [|x l]; [constructor|].
  cbn [chunks]. constructor; [|apply IH].
  rewrite length_firstn. cbn [length]. lia.
Qed.

(** X13.  For a step [par] of at least one the batches of a page are the
    posts to process cut, in order, into pieces of [par] posts: every batch
    before the last has exactly [par] posts, the last has between one and
    [par], so never more than [par] tasks run at a time. *)
Theorem batches_cut_the_page (par : nat) (l : list Z) :
  1 <= par ->
  let batches := chunks (length l) par l in
  concat batches = l /\
  Forall (fun b => 1 <= length b) batches /\
  Forall (fun b => length b <= par) batches /\
  forall k b, nth_error batches k = Some b -> S k < length batches -> length b = par.
Proof.
  intros Hpar batches. unfold batches. repeat split.
  - now apply BatchFacts.concat_chunks.
  - now apply chunks_inhabited.
  - apply chunks_bounded.
  - apply chunks_full.
Qed.

Lemma batches_cut_the_page_witness :
  chunks 7 3 [1; 2; 3; 4; 5; 6; 7]%Z = [[1; 2; 3]; [4; 5; 6]; [7]]%Z /\
  concat (chunks 7 3 [1; 2; 3; 4; 5; 6; 7]%Z) = [1; 2; 3; 4; 5; 6; 7]%Z.
Proof.
  split; [reflexivity|].
  apply (batches_cut_the_page 3 [1; 2; 3; 4; 5; 6; 7]%Z). lia.
Defined.

End RunFacts.

(** ** The widget catalogue *)

Module CatalogFacts.
Import Js.
Import Catalog.

(** X14.  [getWidgetHtmlById] answers with the markup and the default
    placement of the first widget of the file that has the identifier asked
    for, and throws, naming the identifier, exactly when no widget has it. *)
Theorem widget_lookup_takes_first (widgets : list WidgetInfo) (widgetId : string) :
  match getWidgetHtmlById widgets widgetId with
  | Return (h, p) =>
      exists before widget rest,
        widgets = (before ++ widget :: rest)%list /\
        forallb (fun x => negb (String.eqb (id x) widgetId)) before = true /\
        id widget = widgetId /\
        h = embed_html widget /\ p = default_placement widget
  | Throw m =>
      forallb (fun x => negb (String.eqb (id x) widgetId)) widgets = true /\
      m = "Виджет с id=" ++ widgetId ++ " не найден в widgets.json"
  end.
Proof.
  unfold getWidgetHtmlById.
  induction widgets as [|x widgets IH]; [now split|].
  cbn [find forallb]. destruct (String.eqb (id x) widgetId) eqn:E.
  - exists [], x, widgets. apply String.eqb_eq in E. now repeat split.
  - destruct (find _ widgets) as [widget|].
    + destruct IH as (before & wd & rest & H1 & H2 & H3 & H4 & H5).
      exists (x :: before), wd, rest. rewrite H1. cbn [forallb]. rewrite E, H2.
      now repeat split.
    + destruct IH as [H1 H2]. now rewrite H1.
Qed.

End CatalogFacts.

(** ** Text read from files and answers *)

Module TextFacts.
Import Js.
Import Llm.
Import Lines.
Import LlmAnswer.
Import Measures.

(** *** White space *)

Lemma solid_code (c : ascii) : solid c = true -> (33 <= Str.code c <= 127)%N.
Proof.
  unfold solid, Str.in_range. intros H. apply andb_true_iff in H.
  destruct H as [H1 H2]. apply N.leb_le in H1, H2. lia.
Qed.

Lemma solid_byte (c : ascii) (k : N) :
  solid c = true -> (128 <= k)%N -> N.eqb (Str.code c) k = false.
Proof. intros H Hk. apply solid_code in H. apply N.eqb_neq. lia. Qed.

Lemma solid_range (c : ascii) (lo hi : N) :
  solid c = true -> (128 <= lo)%N -> Str.in_range lo hi c = false.
Proof.
  intros H Hk. apply solid_code in H. unfold Str.in_range.
  apply andb_false_iff. left. apply N.leb_gt. lia.
Qed.

Lemma solid_not_space (c : ascii) : solid c = true -> Str.ascii_space c = false.
Proof.
  intros H. apply solid_code in H. unfold Str.ascii_space, Str.in_range.
  apply orb_false_iff. split.
  - apply andb_false_iff. right. apply N.leb_gt. lia.
  - apply N.eqb_neq. lia.
Qed.

Lemma space2_solid (a b : ascii) :
  Str.space2 a b = true -> solid a = false /\ solid b = false.
Proof.
  unfold Str.space2. intros H. apply andb_true_iff in H. destruct H as [Ha Hb].
  split.
  - destruct (solid a) eqn:S; [|reflexivity]. rewrite solid_byte in Ha; [discriminate Ha|exact S|lia].
  - destruct (solid b) eqn:S; [|reflexivity]. rewrite solid_byte in Hb; [discriminate Hb|exact S|lia].
Qed.

Lemma space3_solid (a b c : ascii) :
  Str.space3 a b c = true -> solid a = false /\ solid b = false /\ solid c = false.
Proof.
  unfold Str.space3. intros H. repeat split.
  - destruct (solid a) eqn:S; [|reflexivity].
    rewrite !(solid_byte a _ S) in H by lia. discriminate H.
  - destruct (solid b) eqn:S; [|reflexivity].
    rewrite !(solid_byte b _ S) in H by lia.
    rewrite !andb_false_r in H. discriminate H.
  - destruct (solid c) eqn:S; [|reflexivity].
    rewrite !(solid_byte c _ S), !(solid_range c _ _ S) in H by lia.
    rewrite !andb_false_r in H. discriminate H.
Qed.

Lemma solid_differs (x c : ascii) : solid x = false -> solid c = true -> Ascii.eqb x c = false.
Proof.
  intros Hx Hc. destruct (Ascii.eqb x c) eqn:E; [|reflexivity].
  apply Ascii.eqb_eq in E. subst. congruence.
Qed.

Lemma space_not_solid (a : ascii) : Str.ascii_space a = true -> solid a = false.
Proof.
  intros H. destruct (solid a) eqn:S; [|reflexivity].
  rewrite (solid_not_space a S) in H. discriminate H.
Qed.

(** A text of white space only holds no printable character. *)
Lemma blank_no_solid (c : ascii) :
  solid c = true ->
  forall n s, String.length s <= n -> Str.spaces s = String.length s -> holds c s = false.
Proof.
  intros Hc. induction n as [|n IH]; intros s Hn Hs.
  - destruct s; [reflexivity | cbn in Hn; lia].
  - destruct s as [|a s1]; [reflexivity|].
    cbn [Str.spaces] in Hs. cbn [String.length] in Hn, Hs.
    destruct (Str.ascii_space a) eqn:A.
    + cbn [holds]. rewrite (solid_differs a c (space_not_solid a A) Hc).
      apply IH; lia.
    + destruct s1 as [|b s2]; [discriminate Hs|].
      cbn [String.length] in Hn, Hs.
      destruct (Str.space2 a b) eqn:B.
      * destruct (space2_solid a b B) as [Sa Sb].
        cbn [holds]. rewrite (solid_differs a c Sa Hc), (solid_differs b c Sb Hc).
        apply IH; cbn in Hs; lia.
      * destruct s2 as [|e s3]; [discriminate Hs|].
        cbn [String.length] in Hn, Hs.
        destruct (Str.space3 a b e) eqn:C; [|discriminate Hs].
        destruct (space3_solid a b e C) as (Sa & Sb & Se).
        cbn [holds].
        rewrite (solid_differs a c Sa Hc), (solid_differs b c Sb Hc),
          (solid_differs e c Se Hc).
        apply IH; cbn in Hs; lia.
Qed.

Lemma ends_solid_holds (s : string) :
  ends_solid s = true -> exists c, solid c = true /\ holds c s = true.
Proof.
  induction s as [|a r IH]; [discriminate|].
  destruct r as [|b r'].
  - cbn. intros H. exists a. split; [exact H|]. now rewrite Ascii.eqb_refl.
  - intros H. destruct (IH H) as (c & Hc & Hh). exists c. split; [exact Hc|].
    cbn [holds] in *. rewrite Hh. apply orb_true_r.
Qed.

Lemma ends_solid_app (x : string) (c : ascii) (r : string) :
  ends_solid (x ++ String c r) = ends_solid (String c r).
Proof.
  induction x as [|a x IH]; [reflexivity|].
  change (String a x ++ String c r) with (String a (x ++ String c r)).
  cbn [ends_solid]. destruct (x ++ String c r) eqn:E.
  - destruct x; discriminate E.
  - exact IH.
Qed.

(** *** [trim] *)

Lemma trim_end_solid (s : string) : ends_solid s = true -> trim_end s = s.
Proof.
  induction s as [|a r IH]; [discriminate|]. intros H.
  cbn [trim_end].
  destruct (Nat.eqb (Str.spaces (String a r)) (String.length (String a r))) eqn:E.
  - apply Nat.eqb_eq in E. destruct (ends_solid_holds _ H) as (c & Hc & Hh).
    rewrite (blank_no_solid c Hc _ _ (Nat.le_refl _) E) in Hh. discriminate Hh.
  - destruct r as [|b r']; [reflexivity|]. now rewrite IH.
Qed.

Lemma spaces_solid (c : ascii) (r : string) : solid c = true -> Str.spaces (String c r) = 0.
Proof.
  intros H. cbn [Str.spaces]. rewrite (solid_not_space c H).
  destruct r as [|b r2]; [reflexivity|].
  destruct (Str.space2 c b) eqn:B; [apply space2_solid in B; destruct B; congruence|].
  destruct r2 as [|e r3]; [reflexivity|].
  destruct (Str.space3 c b e) eqn:C; [apply space3_solid in C; destruct C; congruence|].
  reflexivity.
Qed.

Lemma trim_solid (c : ascii) (r : string) :
  solid c = true -> ends_solid (String c r) = true -> trim (String c r) = String c r.
Proof.
  intros Hc He. unfold trim, trim_start. rewrite (spaces_solid c r Hc).
  cbn [Str.drop]. now apply trim_end_solid.
Qed.

Lemma holds_drop (c : ascii) (k : nat) (s : string) :
  holds c s = false -> holds c (Str.drop k s) = false.
Proof.
  revert s. induction k as [|k IH]; intros s H; [exact H|].
  destruct s as [|a r]; [reflexivity|]. cbn [Str.drop]. apply IH.
  cbn [holds] in H. apply orb_false_iff in H. apply H.
Qed.

Lemma holds_trim_end (c : ascii) (s : string) :
  holds c s = false -> holds c (trim_end s) = false.
Proof.
  induction s as [|a r IH]; intros H; [reflexivity|].
  cbn [trim_end]. destruct (Nat.eqb _ _); [reflexivity|].
  cbn [holds] in *. apply orb_false_iff in H. destruct H as [H1 H2].
  now rewrite H1, IH.
Qed.

Lemma holds_trim (c : ascii) (s : string) : holds c s = false -> holds c (trim s) = false.
Proof. intros H. unfold trim, trim_start. now apply holds_trim_end, holds_drop. Qed.

(** *** The wrapping of an answer *)

Lemma lower_ascii_tick (c : ascii) : Ascii.eqb tick (Str.lower_ascii c) = true -> c = tick.
Proof.
  destruct c as [[] [] [] [] [] [] [] []]; vm_compute; intro H;
    solve [reflexivity | discriminate H].
Qed.

(** A text without a back-tick opens with no fence. *)
Lemma strip_opening_plain (opening s : string) :
  holds tick s = false -> strip_opening (String tick opening) s = s.
Proof.
  intros H. unfold strip_opening.
  destruct s as [|c r]; [reflexivity|].
  cbn [Str.starts_with_ci].
  destruct (Ascii.eqb tick (Str.lower_ascii c)) eqn:E; [|reflexivity].
  apply lower_ascii_tick in E. subst c. cbn [holds] in H.
  rewrite Ascii.eqb_refl in H. discriminate H.
Qed.

Lemma strip_closing_plain (s : string) : holds tick s = false -> strip_closing s = s.
Proof.
  induction s as [|c r IH]; intros H; [reflexivity|].
  cbn [holds] in H. apply orb_false_iff in H. destruct H as [Hc Hr].
  cbn [strip_closing]. unfold fence at 1. cbn [Str.starts_with].
  rewrite Ascii.eqb_sym, Hc. cbn [andb]. now rewrite IH.
Qed.

Lemma strip_closing_fenced (s : string) :
  holds tick s = false -> strip_closing (s ++ fence) = s.
Proof.
  induction s as [|c r IH]; intros H; [reflexivity|].
  cbn [holds] in H. apply orb_false_iff in H. destruct H as [Hc Hr].
  change (String c r ++ fence) with (String c (r ++ fence)).
  cbn [strip_closing]. unfold fence at 1. cbn [Str.starts_with].
  rewrite Ascii.eqb_sym, Hc. cbn [andb]. now rewrite IH.
Qed.

Lemma holds_app (c : ascii) (s t : string) :
  holds c (s ++ t) = (holds c s || holds c t)%bool.
Proof.
  induction s as [|a s IH]; [reflexivity|].
  change (String a s ++ t) with (String a (s ++ t)). cbn [holds].
  now rewrite IH, orb_assoc.
Qed.

Lemma line_ends_solid_head (body rest : string) :
  body <> EmptyString -> line_ends body = 0 -> line_ends (body ++ rest) = 0.
Proof.
  destruct body as [|c r]; [congruence|]. intros _.
  change (String c r ++ rest) with (String c (r ++ rest)). cbn [line_ends].
  now destruct (Ascii.eqb c CR || Ascii.eqb c LF)%bool.
Qed.

Lemma starts_with_fence (c : ascii) (r : string) :
  Str.starts_with_ci fence (String c r) = true -> c = tick.
Proof.
  unfold fence. cbn [Str.starts_with_ci]. intros H.
  apply andb_true_iff in H. destruct H as [H _]. now apply lower_ascii_tick.
Qed.

Lemma trim_fenced (x : string) : trim (fence ++ x ++ fence) = fence ++ x ++ fence.
Proof.
  change (fence ++ x ++ fence)
    with (String tick (String tick (String tick (x ++ fence)))).
  apply trim_solid; [reflexivity|].
  change (String tick (String tick (String tick (x ++ fence))))
    with (String tick (String tick (String tick x)) ++ fence).
  unfold fence. now rewrite ends_solid_app.
Qed.

(** X15.  An answer wrapped in a fence, with or without the word json after
    the opening one, is unwrapped to its body and the line end that closed
    it, when the body holds no back-tick and begins with a character that
    ends no line; an answer without a back-tick is only trimmed. *)
Theorem fenced_answer_is_unwrapped (body : string) :
  holds tick body = false ->
  line_ends body = 0 ->
  body <> EmptyString ->
  unfence (fence ++ "json" ++ Placement.nl ++ body ++ Placement.nl ++ fence)
  = body ++ Placement.nl /\
  unfence (fence ++ Placement.nl ++ body ++ Placement.nl ++ fence)
  = body ++ Placement.nl /\
  unfence body = trim body.
Proof.
  intros Hb Hl Hne.
  rewrite <- (PlacementFacts.append_assoc body Placement.nl fence).
  set (b := body ++ Placement.nl).
  assert (Hbn : holds tick b = false) by (unfold b; rewrite holds_app, Hb; reflexivity).
  assert (Hle : line_ends (b ++ fence) = 0).
  { unfold b. rewrite PlacementFacts.append_assoc. now apply line_ends_solid_head. }
  assert (Hopen : strip_opening fence (b ++ fence) = b ++ fence).
  { unfold strip_opening.
    destruct (Str.starts_with_ci fence (b ++ fence)) eqn:E; [|reflexivity].
    exfalso. unfold b in E. destruct body as [|c r]; [congruence|].
    change ((String c r ++ Placement.nl) ++ fence)
      with (String c ((r ++ Placement.nl) ++ fence)) in E.
    apply starts_with_fence in E. subst c. cbn [holds] in Hb.
    rewrite Ascii.eqb_refl in Hb. discriminate Hb. }
  assert (Hclose : strip_closing (b ++ fence) = b) by now apply strip_closing_fenced.
  assert (Hline : forall opening,
             match line_ends (String LF (b ++ fence)) with
             | 0 => opening
             | S k => Str.drop (S k) (String LF (b ++ fence))
             end = b ++ fence).
  { intros opening. cbn [line_ends]. rewrite Hle.
    change (Ascii.eqb LF CR || Ascii.eqb LF LF)%bool with true. reflexivity. }
  repeat split.
  - unfold unfence.
    change (fence ++ "json" ++ Placement.nl ++ b ++ fence)
      with (fence ++ ("json" ++ Placement.nl ++ b) ++ fence).
    rewrite trim_fenced.
    replace (strip_opening (fence ++ "json")
               (fence ++ ("json" ++ Placement.nl ++ b) ++ fence))
      with (b ++ fence).
    + now rewrite Hopen.
    + symmetry. apply (Hline (fence ++ ("json" ++ Placement.nl ++ b) ++ fence)).
  - unfold unfence.
    change (fence ++ Placement.nl ++ b ++ fence)
      with (fence ++ (Placement.nl ++ b) ++ fence).
    rewrite trim_fenced.
    replace (strip_opening (fence ++ "json") (fence ++ (Placement.nl ++ b) ++ fence))
      with (fence ++ (Placement.nl ++ b) ++ fence) by reflexivity.
    replace (strip_opening fence (fence ++ (Placement.nl ++ b) ++ fence))
      with (b ++ fence); [exact Hclose|].
    symmetry. apply (Hline (fence ++ (Placement.nl ++ b) ++ fence)).
  - unfold unfence. pose proof (holds_trim tick body Hb) as Ht.
    change (fence ++ "json") with (String tick (String tick (String tick "json"))).
    unfold fence.
    rewrite (strip_opening_plain _ (trim body) Ht).
    rewrite (strip_opening_plain _ (trim body) Ht).
    now apply strip_closing_plain.
Qed.

Lemma fenced_answer_is_unwrapped_witness :
  let body := "{ " ++ Placement.quote ++ "best_widget_id" ++ Placement.quote ++ ": 1 }" in
  unfence (fence ++ "json" ++ Placement.nl ++ body ++ Placement.nl ++ fence)
  = body ++ Placement.nl.
Proof.
  intros body.
  apply (fenced_answer_is_unwrapped body); [reflexivity | reflexivity | discriminate].
Defined.

(** X16.  Whatever goes wrong with an answer, [pickWidgetByContent] throws
    the one error that carries the unwrapped text; when it returns, the text
    parsed to a value whose [best_widget_id] and [cta_text] are the strings
    returned and whose [placement_strategy] the normaliser accepted. *)
Theorem answer_is_checked_or_rejected (J : State.json) (content : option string) :
  let text := unfence (match content with Some c => c | None => EmptyString end) in
  match pickWidgetByContent J content with
  | Throw m => m = "Ошибка парсинга ответа LLM: " ++ text
  | Return r =>
      exists json,
        State.parse J text = Return json /\
        get json "best_widget_id" = Str (best_widget_id r) /\
        get json "cta_text" = Str (cta_text r) /\
        normalizePlacementStrategy (get json "placement_strategy")
        = Return (placement_strategy r)
  end.
Proof.
  intros text. unfold pickWidgetByContent. fold text.
  destruct (State.parse J text) as [json|m] eqn:P; [|reflexivity].
  unfold choice_of_json.
  assert (G : forall k,
             match
               match
                 bind (normalizePlacementStrategy (get json "placement_strategy"))
                   (fun placement =>
                      match get json "best_widget_id", get json "cta_text" with
                      | Str id, Str cta =>
                          Return {| best_widget_id := id;
                                    placement_strategy := placement;
                                    cta_text := cta |}
                      | _, _ => Throw k
                      end)
               with
               | Return r => Return r
               | Throw _ => Throw ("Ошибка парсинга ответа LLM: " ++ text)
               end
             with
             | Throw m => m = "Ошибка парсинга ответа LLM: " ++ text
             | Return r =>
                 exists json0,
                   Return json = Return json0 /\
                   get json0 "best_widget_id" = Str (best_widget_id r) /\
                   get json0 "cta_text" = Str (cta_text r) /\
                   normalizePlacementStrategy (get json0 "placement_strategy")
                   = Return (placement_strategy r)
             end).
  { intros k.
    destruct (normalizePlacementStrategy (get json "placement_strategy")) as [pl|m] eqn:N;
      cbn [bind]; [|reflexivity].
    destruct (get json "best_widget_id") as [| | | |id| |] eqn:B; try reflexivity.
    destruct (get json "cta_text") as [| | | |cta| |] eqn:C; try reflexivity.
    exists json. cbn. now repeat split. }
  destruct json; try exact (G _); reflexivity.
Qed.

(** *** Lines *)

Lemma solid_not_LF (c : ascii) : solid c = true -> Ascii.eqb c LF = false.
Proof.
  intros H. destruct (Ascii.eqb c LF) eqn:E; [|reflexivity].
  apply Ascii.eqb_eq in E. subst c. discriminate H.
Qed.

Lemma solid_not_CR (c : ascii) : solid c = true -> Ascii.eqb c CR = false.
Proof.
  intros H. destruct (Ascii.eqb c CR) eqn:E; [|reflexivity].
  apply Ascii.eqb_eq in E. subst c. discriminate H.
Qed.

Lemma split_lines_single (u : string) : holds LF u = false -> split_lines u = [u].
Proof.
  induction u as [|c r IH]; intros H; [reflexivity|].
  cbn [holds] in H. apply orb_false_iff in H. destruct H as [Hc Hr].
  cbn [split_lines]. rewrite Hc.
  destruct r as [|d r'].
  - reflexivity.
  - assert (Hd : Ascii.eqb d LF = false).
    { cbn [holds] in Hr. apply orb_false_iff in Hr. apply Hr. }
    rewrite Hd, andb_false_r, (IH Hr). reflexivity.
Qed.

(** A line that ends in a printable character is cut off at the line feed
    behind it, and at the carriage return before that line feed. *)
Lemma split_lines_LF (u rest : string) :
  holds LF u = false -> ends_solid u = true ->
  split_lines (u ++ String LF rest) = u :: split_lines rest.
Proof.
  induction u as [|c r IH]; intros H He; [discriminate He|].
  cbn [holds] in H. apply orb_false_iff in H. destruct H as [Hc Hr].
  change (String c r ++ String LF rest) with (String c (r ++ String LF rest)).
  cbn [split_lines]. rewrite Hc.
  destruct r as [|d r'].
  - cbn [String.append]. cbn [ends_solid] in He.
    rewrite (solid_not_CR c He). cbn [andb split_lines].
    rewrite Ascii.eqb_refl. reflexivity.
  - assert (Hd : Ascii.eqb d LF = false).
    { cbn [holds] in Hr. apply orb_false_iff in Hr. apply Hr. }
    change (String d r' ++ String LF rest) with (String d (r' ++ String LF rest)).
    cbv beta iota. rewrite Hd, andb_false_r.
    change (String d (r' ++ String LF rest)) with (String d r' ++ String LF rest).
    rewrite (IH Hr He). reflexivity.
Qed.

Lemma split_lines_CRLF (u rest : string) :
  holds LF u = false -> ends_solid u = true ->
  split_lines (u ++ String CR (String LF rest)) = u :: split_lines rest.
Proof.
  induction u as [|c r IH]; intros H He; [discriminate He|].
  cbn [holds] in H. apply orb_false_iff in H. destruct H as [Hc Hr].
  change (String c r ++ String CR (String LF rest))
    with (String c (r ++ String CR (String LF rest))).
  cbn [split_lines]. rewrite Hc.
  destruct r as [|d r'].
  - cbn [String.append split_lines].
    change (Ascii.eqb CR LF) with false. rewrite andb_false_r.
    change (Ascii.eqb CR CR && Ascii.eqb LF LF)%bool with true. reflexivity.
  - assert (Hd : Ascii.eqb d LF = false).
    { cbn [holds] in Hr. apply orb_false_iff in Hr. apply Hr. }
    change (String d r' ++ String CR (String LF rest))
      with (String d (r' ++ String CR (String LF rest))).
    cbv beta iota. rewrite Hd, andb_false_r.
    change (String d (r' ++ String CR (String LF rest)))
      with (String d r' ++ String CR (String LF rest)).
    rewrite (IH Hr He). reflexivity.
Qed.

Lemma clean_line_spec (u : string) :
  clean_line u = true ->
  holds LF u = false /\ ends_solid u = true /\ trim u = u /\ nonempty u = true.
Proof.
  unfold clean_line. intros H.
  apply andb_true_iff in H. destruct H as [H Hl].
  apply andb_true_iff in H. destruct H as [Hs He].
  apply negb_true_iff in Hl.
  destruct u as [|c r]; [discriminate Hs|].
  repeat split; try assumption. now apply trim_solid.
Qed.

Lemma lines_of_cons (u : string) (rest : list string) :
  clean_line u = true ->
  filter nonempty (map trim (u :: rest)) = u :: filter nonempty (map trim rest).
Proof.
  intros H. destruct (clean_line_spec u H) as (_ & _ & Ht & Hn).
  cbn [map filter]. now rewrite Ht, Hn.
Qed.

Lemma lines_clean (urls blanks : list string) :
  forallb clean_line urls = true ->
  forallb (fun x => String.eqb x EmptyString) blanks = true ->
  filter nonempty (map trim (urls ++ blanks)) = urls.
Proof.
  intros Hu Hb. induction urls as [|u urls IH].
  - cbn [app]. induction blanks as [|x blanks IHb]; [reflexivity|].
    cbn [forallb] in Hb. apply andb_true_iff in Hb. destruct Hb as [Hx Hb].
    apply String.eqb_eq in Hx. subst x. cbn. now apply IHb.
  - cbn [forallb] in Hu. apply andb_true_iff in Hu. destruct Hu as [H1 H2].
    cbn [app]. rewrite lines_of_cons by exact H1. now rewrite IH.
Qed.

Lemma split_concat (sep : string) (u : string) (urls : list string) :
  (forall u rest, holds LF u = false -> ends_solid u = true ->
                  split_lines (u ++ sep ++ rest) = u :: split_lines rest) ->
  forallb clean_line (u :: urls) = true ->
  split_lines (String.concat sep (u :: urls)) = u :: urls.
Proof.
  intros Hsep. revert u. induction urls as [|v urls IH]; intros u H;
    cbn [forallb] in H; apply andb_true_iff in H; destruct H as [Hu Hrest];
    destruct (clean_line_spec u Hu) as (Hl & He & _ & _).
  - cbn [String.concat]. now apply split_lines_single.
  - change (String.concat sep (u :: v :: urls))
      with (u ++ sep ++ String.concat sep (v :: urls)).
    rewrite Hsep by assumption. now rewrite IH.
Qed.

Lemma split_concat_closed (u : string) (urls : list string) :
  forallb clean_line (u :: urls) = true ->
  split_lines (String.concat Placement.nl (u :: urls) ++ Placement.nl)
  = ((u :: urls) ++ [EmptyString])%list.
Proof.
  revert u. induction urls as [|v urls IH]; intros u H;
    cbn [forallb] in H; apply andb_true_iff in H; destruct H as [Hu Hrest];
    destruct (clean_line_spec u Hu) as (Hl & He & _ & _).
  - cbn [String.concat]. change Placement.nl with (String LF EmptyString).
    now rewrite split_lines_LF.
  - change (String.concat Placement.nl (u :: v :: urls))
      with (u ++ Placement.nl ++ String.concat Placement.nl (v :: urls)).
    rewrite !PlacementFacts.append_assoc.
    change (u ++ Placement.nl ++ String.concat Placement.nl (v :: urls) ++ Placement.nl)
      with (u ++ String LF (String.concat Placement.nl (v :: urls) ++ Placement.nl)).
    rewrite split_lines_LF by assumption. now rewrite IH.
Qed.

(** X17.  A list of addresses written one to a line is read back as it was
    by [lines_of], whether the lines are ended by a line feed or by a
    carriage return and a line feed, and whether or not the last line is
    ended too; an address here begins and ends with a printable character
    and holds no line feed. *)
Theorem address_list_round_trip (urls : list string) :
  forallb clean_line urls = true ->
  lines_of (String.concat Placement.nl urls) = urls /\
  lines_of (String.concat (String CR Placement.nl) urls) = urls /\
  lines_of (String.concat Placement.nl urls ++ Placement.nl) = urls.
Proof.
  intros H. unfold lines_of. destruct urls as [|u urls]; [repeat split|].
  repeat split.
  - rewrite split_concat.
    + rewrite <- (app_nil_r (u :: urls)) at 1. now apply lines_clean.
    + intros x rest. apply split_lines_LF.
    + exact H.
  - rewrite split_concat.
    + rewrite <- (app_nil_r (u :: urls)) at 1. now apply lines_clean.
    + intros x rest. apply split_lines_CRLF.
    + exact H.
  - rewrite split_concat_closed by exact H. now apply lines_clean.
Qed.

Lemma address_list_round_trip_witness :
  lines_of ("https://example.org/a/" ++ String CR Placement.nl ++ "https://example.org/b/")
  = ["https://example.org/a/"; "https://example.org/b/"].
Proof.
  apply (address_list_round_trip ["https://example.org/a/"; "https://example.org/b/"]).
  reflexivity.
Defined.

End TextFacts.

(** ** The placement the engine reports *)

Module EngineFacts.
Import Dom.
Import Placement.

(** X18.  The engine always reports a placement, with the position it was
    called with.  The method is append exactly for the position bottom; the
    container is the root exactly when the cleaned document has no article
    and no body element; and a block put after the first paragraph is never
    at the root. *)
Theorem placement_report_agrees (lib : cheerio) (html widgetId widgetHtml ctaText : string)
    (pos : position_t) :
  let d := inspected lib html in
  exists p,
    placement (insertWidgetHtml lib html widgetId widgetHtml ctaText pos) = Some p /\
    position p = pos /\
    (method p = append <-> pos = bottom) /\
    (container p = root <-> select_all "article" d = [] /\ select_all "body" d = []) /\
    (method p = afterFirstP -> container p <> root).
Proof.
  intros d. unfold insertWidgetHtml, place. fold d.
  destruct pos;
    destruct (select_all "article" d) as [|a1 al] eqn:A;
    destruct (select_all "body" d) as [|b1 bl] eqn:B;
    destruct (select_within "article" "p" d) as [|p1 pl] eqn:AP;
    destruct (select_within "body" "p" d) as [|p2 pl2] eqn:BP;
    cbn [some andb]; eexists; (split; [reflexivity|]); cbn [position method container];
    repeat split; intros; try reflexivity; try discriminate; try congruence;
    match goal with
    | H : _ /\ _ |- _ => destruct H; discriminate
    end.
Qed.

End EngineFacts.
